(** * gpustat: a shallow embedding of [gpustat.py] and its specification

    The development follows the source file top-down: Python's string
    builtins used by the program, insertion-ordered dictionaries, the
    [GPUStat] record with its constructor and renderer, the command
    executor, and [GPUStatCollection] with its two queries.  External
    commands are answered by a [world]; Python exceptions are values of
    [exn] carried by the [result] type. *)

From Stdlib Require Import String Ascii List ZArith Lia Bool DecimalString.
Import ListNotations.
Open Scope list_scope.
Open Scope string_scope.

(** ** Exceptions and fallible computations *)

Inductive exn : Type :=
| CalledProcessError
| KeyError (key : string)
| ValueError
| TypeError
| AttributeError
| UnboundLocalError
| Unmodelled (what : string).

Inductive result (A : Type) : Type :=
| Ok (a : A)
| Raise (e : exn).
Arguments Ok {A} a.
Arguments Raise {A} e.

Definition bind {A B} (r : result A) (k : A -> result B) : result B :=
  match r with
  | Ok a => k a
  | Raise e => Raise e
  end.

Declare Scope py_scope.
Delimit Scope py_scope with py.
Notation "x <- e ;; k" := (bind e (fun x => k))
  (at level 61, e at next level, right associativity) : py_scope.
Open Scope py_scope.

(** ** Python string builtins

    Text is a [string] whose characters stand for the code points 0..255. *)

Module PyStr.

Definition nl : string := String "010"%char "".
Definition tab : string := String "009"%char "".
Definition dquote : string := String "034"%char "".
Definition esc : string := String "027"%char "".

(** [str.isspace] on the code points below 256. *)
Definition is_space (c : ascii) : bool :=
  let n := nat_of_ascii c in
  (((9 <=? n) && (n <=? 13)) || ((28 <=? n) && (n <=? 32))
   || (n =? 133) || (n =? 160))%nat.

Fixpoint lstrip (s : string) : string :=
  match s with
  | "" => ""
  | String c s' => if is_space c then lstrip s' else s
  end.

Fixpoint rstrip (s : string) : string :=
  match s with
  | "" => ""
  | String c s' =>
      match rstrip s' with
      | "" => if is_space c then "" else String c ""
      | r => String c r
      end
  end.

(** [s.strip()] *)
Definition strip (s : string) : string := rstrip (lstrip s).

(** [pat in s] *)
Fixpoint contains (pat s : string) : bool :=
  String.prefix pat s ||
  match s with
  | "" => false
  | String _ s' => contains pat s'
  end.

(** [s.split(sep)] for a non-empty separator: [skip] counts the characters
    of a separator occurrence still to be dropped; the result is the first
    piece and the pieces after it. *)
Fixpoint split_go (sep : string) (skip : nat) (s : string)
  : string * list string :=
  match s with
  | "" => ("", [])
  | String c s' =>
      match skip with
      | S k => split_go sep k s'
      | O =>
          if String.prefix sep s
          then ("", let (h, t) := split_go sep (String.length sep - 1) s' in h :: t)
          else let (h, t) := split_go sep 0 s' in (String c h, t)
      end
  end.

Definition split (sep s : string) : list string :=
  let (h, t) := split_go sep 0 s in h :: t.

(** [s.split()]: maximal runs of non-whitespace. *)
Fixpoint split_ws_go (s : string) : string * list string :=
  match s with
  | "" => ("", [])
  | String c s' =>
      let (h, t) := split_ws_go s' in
      if is_space c
      then ("", match h with "" => t | _ => h :: t end)
      else (String c h, t)
  end.

Definition split_ws (s : string) : list string :=
  let (h, t) := split_ws_go s in
  match h with "" => t | _ => h :: t end.

(** [re.sub(r"\s+", " ", s, flags=re.UNICODE)] *)
Fixpoint re_sub_ws_go (in_run : bool) (s : string) : string :=
  match s with
  | "" => ""
  | String c s' =>
      if is_space c
      then (if in_run then re_sub_ws_go true s'
            else String " " (re_sub_ws_go true s'))
      else String c (re_sub_ws_go false s')
  end.

Definition re_sub_ws (s : string) : string := re_sub_ws_go false s.

(** [sep.join(l)] *)
Fixpoint join (sep : string) (l : list string) : string :=
  match l with
  | [] => ""
  | [x] => x
  | x :: rest => x ++ sep ++ join sep rest
  end.

Fixpoint spaces (n : nat) : string :=
  match n with
  | O => ""
  | S k => String " " (spaces k)
  end.

(** [format(s, ">w")] and [format(s, "<w")] on a string. *)
Definition rjust (w : nat) (s : string) : string :=
  spaces (w - String.length s) ++ s.
Definition ljust (w : nat) (s : string) : string :=
  s ++ spaces (w - String.length s).

(** [str(n)] for an integer. *)
Definition str_of_int (z : Z) : string :=
  NilZero.string_of_int (Z.to_int z).

Definition is_digit (c : ascii) : bool :=
  let n := nat_of_ascii c in ((48 <=? n) && (n <=? 57))%nat.

Definition digit_val (c : ascii) : Z := Z.of_nat (nat_of_ascii c - 48).

(** Digits of a decimal literal, single underscores allowed between
    digits. *)
Fixpoint digits_go (acc : Z) (after_digit : bool) (s : string) : option Z :=
  match s with
  | "" => if after_digit then Some acc else None
  | String c s' =>
      if is_digit c then digits_go (10 * acc + digit_val c) true s'
      else if Ascii.eqb c "_"
           then (if after_digit then digits_go acc false s' else None)
           else None
  end.

(** [int(s)] on a string: surrounding whitespace is dropped, one sign is
    allowed.  [None] stands for [ValueError].  The interpreter's optional
    limit on the number of digits is not part of the model. *)
Definition int_of_str (s : string) : option Z :=
  match strip s with
  | "" => None
  | String c r =>
      if Ascii.eqb c "+" then digits_go 0 false r
      else if Ascii.eqb c "-" then option_map Z.opp (digits_go 0 false r)
      else digits_go 0 false (String c r)
  end.

End PyStr.

(** ** Insertion-ordered dictionaries

    A Python [dict] (and [OrderedDict]) is a list of bindings with distinct
    keys, in insertion order.  Assigning to a key that is present replaces the
    value in place; assigning to a new key appends. *)

Class EqKey (K : Type) := keqb : K -> K -> bool.

#[export] Instance EqKey_string : EqKey string := String.eqb.
#[export] Instance EqKey_Z : EqKey Z := Z.eqb.

Section PyDict.
Context {K V : Type} `{EqKey K}.

Fixpoint dict_get (k : K) (d : list (K * V)) : option V :=
  match d with
  | [] => None
  | (k', v) :: d' => if keqb k k' then Some v else dict_get k d'
  end.

Fixpoint dict_set (k : K) (v : V) (d : list (K * V)) : list (K * V) :=
  match d with
  | [] => [(k, v)]
  | (k', v') :: d' =>
      if keqb k k' then (k', v) :: d' else (k', v') :: dict_set k v d'
  end.

Definition dict_keys (d : list (K * V)) : list K := map fst d.

(** [{k: v for (k, v) in pairs}] *)
Definition dict_of_pairs (pairs : list (K * V)) : list (K * V) :=
  fold_left (fun d kv => dict_set (fst kv) (snd kv) d) pairs [].
End PyDict.

(** ** Values and records *)

(** The fields of the program's dictionaries hold a string or [None]. *)
Inductive value : Type :=
| VNone
| VStr (s : string).

Definition value_eqb (a b : value) : bool :=
  match a, b with
  | VNone, VNone => true
  | VStr s, VStr t => String.eqb s t
  | _, _ => false
  end.

#[export] Instance EqKey_value : EqKey value := value_eqb.

Definition dict : Type := list (string * value).

(** [d[k]] *)
Definition getitem (d : dict) (k : string) : result value :=
  match dict_get k d with
  | Some v => Ok v
  | None => Raise (KeyError k)
  end.

(** [d1 == d2] on dictionaries: same keys with equal values, in any order. *)
Definition dict_eqb (d1 d2 : dict) : bool :=
  (List.length d1 =? List.length d2)%nat &&
  forallb (fun kv =>
             match dict_get (fst kv) d2 with
             | Some v => value_eqb (snd kv) v
             | None => false
             end) d1.

Definition NotSupported : string := "Not Supported".

(** ["Not Supported" in v]: a [TypeError] when [v] is [None]. *)
Definition not_supported_in (v : value) : result bool :=
  match v with
  | VStr s => Ok (PyStr.contains NotSupported s)
  | VNone => Raise TypeError
  end.

(** ** class GPUStat *)

Record GPUStat : Type := mkGPUStat {
  entry : dict;
  processes : list dict
}.

(** One turn of the loop over [self.entry.keys()]. *)
Definition normalise_key (acc : result dict) (k : string) : result dict :=
  e <- acc ;;
  v <- getitem e k ;;
  b <- not_supported_in v ;;
  Ok (if b then dict_set k VNone e else e).

(** [GPUStat.__init__].  The argument is a dictionary by its type, so the
    [isinstance] guard always passes. *)
Definition GPUStat_init (entry0 : dict) : result GPUStat :=
  e <- fold_left normalise_key (dict_keys entry0) (Ok entry0) ;;
  u <- getitem e "utilization.gpu" ;;
  let e' := match u with
            | VNone => dict_set "utilization.gpu" (VStr "??") e
            | VStr _ => e
            end in
  Ok (mkGPUStat e' []).

(** The [uuid] property. *)
Definition uuid (g : GPUStat) : result value := getitem (entry g) "uuid".

(** [add_process] *)
Definition add_process (g : GPUStat) (p : dict) : GPUStat :=
  mkGPUStat (entry g) (processes g ++ [p])%list.

(** ** class ANSIColors *)

Module ANSIColors.
Definition RESET : string := PyStr.esc ++ "[0m".
Definition WHITE : string := PyStr.esc ++ "[1m".
Definition RED : string := PyStr.esc ++ "[0;31m".
Definition GREEN : string := PyStr.esc ++ "[0;32m".
Definition YELLOW : string := PyStr.esc ++ "[0;33m".
Definition BLUE : string := PyStr.esc ++ "[0;34m".
Definition MAGENTA : string := PyStr.esc ++ "[0;35m".
Definition CYAN : string := PyStr.esc ++ "[0;36m".
Definition GRAY : string := PyStr.esc ++ "[1;30m".
Definition BOLD_RED : string := PyStr.esc ++ "[1;31m".
Definition BOLD_GREEN : string := PyStr.esc ++ "[1;32m".
Definition BOLD_YELLOW : string := PyStr.esc ++ "[1;33m".
End ANSIColors.

(** ** Conversions and formatting of field values *)

(** [int(v)] *)
Definition py_int (v : value) : result Z :=
  match v with
  | VNone => Raise TypeError
  | VStr s =>
      match PyStr.int_of_str s with
      | Some z => Ok z
      | None => Raise ValueError
      end
  end.

(** [f"{v}"], that is [str(v)]. *)
Definition py_str (v : value) : string :=
  match v with
  | VNone => "None"
  | VStr s => s
  end.

(** [f"{v:>w}"]: [None] does not accept a format specification. *)
Definition format_right (w : nat) (v : value) : result string :=
  match v with
  | VNone => Raise TypeError
  | VStr s => Ok (PyStr.rjust w s)
  end.

(** [f"{v:{w}}"] for an integer [w]: the specification is [str(w)], a
    width (left alignment) when [w] is not negative and a sign, which a
    string rejects, when it is.  The specification ["0"] pads nothing, as
    from Python 3.10 on. *)
Definition format_width (w : Z) (v : value) : result string :=
  match v with
  | VNone => Raise TypeError
  | VStr s => if (w <? 0)%Z then Raise ValueError
              else Ok (PyStr.ljust (Z.to_nat w) s)
  end.

(** [len(v)] *)
Definition py_len (v : value) : result Z :=
  match v with
  | VNone => Raise TypeError
  | VStr s => Ok (Z.of_nat (String.length s))
  end.

(** The local [_repr(v, none_value)] of [print_to]. *)
Definition _repr (v : value) (none_value : string) : string :=
  match v with
  | VNone => none_value
  | VStr s => s
  end.

(** *** [fmt % mapping]

    The scanner of the [%] operator applied to a dictionary of strings.  The
    model covers the two conversions the templates of the program use,
    [%(key)s] and [%%]; a key is read up to its closing parenthesis, nested
    parentheses counted, and looked up at once.  Any other conversion is
    reported as [Unmodelled]. *)

Inductive pstate : Type :=
| PNormal
| PPercent
| PKey (nested : nat) (key : string)
| PConv (v : string).

Definition cget (cs : list (string * string)) (k : string) : result string :=
  match dict_get k cs with
  | Some v => Ok v
  | None => Raise (KeyError k)
  end.

Definition snoc (s : string) (c : ascii) : string := s ++ String c "".

Fixpoint percent_go (cs : list (string * string)) (st : pstate) (s : string)
  : result string :=
  match s with
  | "" =>
      match st with
      | PNormal => Ok ""
      | _ => Raise ValueError
      end
  | String c s' =>
      match st with
      | PNormal =>
          if Ascii.eqb c "%" then percent_go cs PPercent s'
          else (r <- percent_go cs PNormal s' ;; Ok (String c r))
      | PPercent =>
          if Ascii.eqb c "(" then percent_go cs (PKey 0 "") s'
          else if Ascii.eqb c "%"
               then (r <- percent_go cs PNormal s' ;; Ok (String "%" r))
               else Raise (Unmodelled "conversion without a key")
      | PKey n k =>
          if Ascii.eqb c "(" then percent_go cs (PKey (S n) (snoc k c)) s'
          else if Ascii.eqb c ")"
               then match n with
                    | O => v <- cget cs k ;; percent_go cs (PConv v) s'
                    | S m => percent_go cs (PKey m (snoc k c)) s'
                    end
               else percent_go cs (PKey n (snoc k c)) s'
      | PConv v =>
          if Ascii.eqb c "s"
          then (r <- percent_go cs PNormal s' ;; Ok (v ++ r))
          else if Ascii.eqb c "%"
               then (r <- percent_go cs PNormal s' ;; Ok (String "%" r))
               else Raise (Unmodelled "conversion other than s")
      end
  end.

Definition percent_format (fmt : string) (cs : list (string * string))
  : result string :=
  percent_go cs PNormal fmt.

(** ** GPUStat.print_to *)

Record print_options : Type := mkOptions {
  with_colors : bool;
  show_cmd : bool;
  show_user : bool;
  show_pid : bool;
  gpuname_width : Z
}.

Definition default_options : print_options :=
  mkOptions true false false false 16.

(** The [colors] table of [print_to], statement by statement. *)
Definition print_to_colors (g : GPUStat) (with_colors : bool)
  : result (list (string * string)) :=
  let colors := [] in
  let colors := dict_set "C0" ANSIColors.RESET colors in
  let colors := dict_set "C1" ANSIColors.CYAN colors in
  let colors := dict_set "CName" ANSIColors.BLUE colors in
  let colors := dict_set "CTemp" ANSIColors.RED colors in
  temp <- getitem (entry g) "temperature.gpu" ;;
  t <- py_int temp ;;
  let colors := if (50 <=? t)%Z
                then dict_set "CTemp" ANSIColors.BOLD_RED colors
                else colors in
  let colors := dict_set "CMemU" ANSIColors.BOLD_YELLOW colors in
  let colors := dict_set "CMemT" ANSIColors.YELLOW colors in
  let colors := dict_set "CMemP" ANSIColors.YELLOW colors in
  let colors := dict_set "CUser" ANSIColors.GRAY colors in
  let colors := dict_set "CUtil" ANSIColors.GREEN colors in
  util <- getitem (entry g) "utilization.gpu" ;;
  u <- py_int util ;;
  let colors := if (30 <=? u)%Z
                then dict_set "CUtil" ANSIColors.BOLD_GREEN colors
                else colors in
  Ok (if with_colors then colors
      else fold_left (fun cs k => dict_set k "" cs) (dict_keys colors) colors).

(** The template [reps] before the [%] operator is applied. *)
Definition print_to_template (g : GPUStat) (width : Z) : result string :=
  index <- getitem (entry g) "index" ;;
  let gpu_index := "%(C1)s[" ++ py_str index ++ "]%(C0)s" in
  name <- getitem (entry g) "name" ;;
  name' <- format_width width name ;;
  let gpu_name := "%(CName)s" ++ name' ++ "%(C0)s" in
  temp <- getitem (entry g) "temperature.gpu" ;;
  temp' <- format_right 3 temp ;;
  let gpu_temp := "%(CTemp)s" ++ temp' ++ "'C%(C0)s" in
  util <- getitem (entry g) "utilization.gpu" ;;
  util' <- format_right 3 util ;;
  let gpu_utilization := "%(CUtil)s" ++ util' ++ " %%%(C0)s" in
  used <- getitem (entry g) "memory.used" ;;
  used' <- format_right 5 used ;;
  let gpu_mem_used := "%(CMemU)s" ++ used' ++ "%(C0)s" in
  total <- getitem (entry g) "memory.total" ;;
  total' <- format_right 5 total ;;
  let gpu_mem_total := "%(CMemT)s" ++ total' ++ "%(C0)s MB" in
  Ok (gpu_index ++ " " ++ gpu_name ++ " |" ++ gpu_temp ++ ", "
      ++ gpu_utilization ++ " | " ++ gpu_mem_used ++ " / " ++ gpu_mem_total).

(** The local [process_repr(p)]. *)
Definition process_repr (o : print_options) (colors : list (string * string))
    (p : dict) : result string :=
  let r := "" in
  r <- (if negb (show_cmd o) || show_user o
        then (user <- getitem p "user" ;;
              cuser <- cget colors "CUser" ;;
              c0 <- cget colors "C0" ;;
              Ok (r ++ cuser ++ _repr user "--" ++ c0))
        else Ok r) ;;
  r <- (if show_cmd o
        then (let r := if String.eqb r "" then r else r ++ ":" in
              pid <- getitem p "pid" ;;
              let comm := match dict_get "comm" p with
                          | Some c => c
                          | None => pid
                          end in
              c1 <- cget colors "C1" ;;
              c0 <- cget colors "C0" ;;
              Ok (r ++ c1 ++ _repr comm "--" ++ c0))
        else Ok r) ;;
  r <- (if show_pid o
        then (pid <- getitem p "pid" ;; Ok (r ++ "/" ++ _repr pid "--"))
        else Ok r) ;;
  mem <- getitem p "used_memory" ;;
  cmemp <- cget colors "CMemP" ;;
  c0 <- cget colors "C0" ;;
  Ok (r ++ "(" ++ cmemp ++ _repr mem "?" ++ "M" ++ c0 ++ ")").

Definition append_process (o : print_options) (colors : list (string * string))
    (acc : result string) (p : dict) : result string :=
  reps <- acc ;;
  r <- process_repr o colors p ;;
  Ok (reps ++ " " ++ r).

(** [print_to]: the text written to [fp]. *)
Definition print_to (g : GPUStat) (o : print_options) : result string :=
  colors <- print_to_colors g (with_colors o) ;;
  reps <- print_to_template g (gpuname_width o) ;;
  reps <- percent_format reps colors ;;
  let reps := reps ++ " |" in
  fold_left (append_process o colors) (processes g) (Ok reps).

(** ** The outside world and [exec_command] *)

(** [shell w cmd] is what [check_output(cmd, shell=True).decode()] gives:
    the decoded standard output, or the exception raised
    ([CalledProcessError] on a non-zero exit status).  [node] and [now]
    answer [platform.node()] and [datetime.now()]. *)
Record world : Type := mkWorld {
  shell : string -> result string;
  node : string;
  now : Z
}.

Definition exec_command (w : world) (command : string)
    (ignore_exceptions : bool) : result (option string) :=
  match shell w command with
  | Ok out => Ok (Some (PyStr.strip out))
  | Raise e => if ignore_exceptions then Ok None else Raise e
  end.

(** [v.split(sep)] on the result of [exec_command]: [None] has no [split]. *)
Definition py_split (sep : string) (v : option string) : result (list string) :=
  match v with
  | Some s => Ok (PyStr.split sep s)
  | None => Raise AttributeError
  end.

(** Truth value of a string or [None]. *)
Definition truthy (v : option string) : bool :=
  match v with
  | Some s => negb (String.eqb s "")
  | None => false
  end.

(** ** GPUStatCollection.running_processes *)

Definition process_query_columns : list string :=
  ["gpu_uuid"; "pid"; "used_memory"].

Definition process_command : string :=
  "nvidia-smi --query-compute-apps=" ++ PyStr.join "," process_query_columns
  ++ " --format=csv,noheader,nounits".

Definition process_entry_of_line (line : string) : dict :=
  let query_results := map PyStr.strip (PyStr.split "," line) in
  let zipped_results := combine process_query_columns query_results in
  dict_of_pairs (map (fun kv => (fst kv, VStr (snd kv))) zipped_results).

Definition parse_process_line (process_entries : list dict) (line : string)
  : list dict :=
  if String.eqb line "" then process_entries
  else (process_entries ++ [process_entry_of_line line])%list.

(** A value of [pid_map]: the dictionary [{"user": .., "comm": ..}]. *)
Record identity : Type := mkIdentity {
  ident_user : string;
  ident_comm : string
}.

(** [pid_map]: the value of a pid is an [identity], or Python's [None]. *)
Definition pid_map_t : Type := list (Z * option identity).

(** One turn of the comprehension that builds [pid_map]. *)
Definition pid_map_add (acc : result pid_map_t) (e : dict) : result pid_map_t :=
  pid_map <- acc ;;
  pid <- getitem e "pid" ;;
  b <- not_supported_in pid ;;
  if b then Ok pid_map
  else (n <- py_int pid ;;
        Ok (dict_set n (Some (mkIdentity "UNKNOWN" "")) pid_map)).

Definition ps_format : string := "pid,user:16,comm".

Definition ps_command (pid_map : pid_map_t) : string :=
  "ps -o " ++ ps_format ++ " -p "
  ++ PyStr.join "," (map PyStr.str_of_int (dict_keys pid_map)).

Definition ps_line (acc : result pid_map_t) (line : string) : result pid_map_t :=
  pid_map <- acc ;;
  if String.eqb line "" || PyStr.contains "PID" line then Ok pid_map
  else match PyStr.split_ws line with
       | [pid; user; comm] =>
           n <- py_int (VStr pid) ;;
           Ok (dict_set n (Some (mkIdentity user comm)) pid_map)
       | _ => Raise ValueError
       end.

(** Step 2: the listing is asked for only when [pid_map] is not empty. *)
Definition ps_stage (w : world) (pid_map : pid_map_t) : result pid_map_t :=
  match pid_map with
  | [] => Ok pid_map
  | _ =>
      pid_output <- exec_command w (ps_command pid_map) false ;;
      lines <- py_split PyStr.nl pid_output ;;
      fold_left ps_line lines (Ok pid_map)
  end.

Definition docker_ps_command : string :=
  "docker ps --format " ++ PyStr.dquote ++ "{{.ID}}<>{{.Names}}<>{{.Command}}"
  ++ PyStr.dquote ++ " --no-trunc".

Definition docker_info_t : Type := list (string * (string * string)).

Definition docker_item (acc : result docker_info_t) (item : string)
  : result docker_info_t :=
  docker_info_dict <- acc ;;
  match PyStr.split "<>" item with
  | [container_id; container_name; command] =>
      Ok (dict_set container_id (container_name, command) docker_info_dict)
  | _ => Raise ValueError
  end.

(** [docker_info_dict] is bound ([Some]) only when [docker_version] is true. *)
Definition docker_stage (w : world) (docker_version : option string)
  : result (option docker_info_t) :=
  if truthy docker_version
  then (out <- exec_command w docker_ps_command false ;;
        docker_info_list <- py_split PyStr.nl out ;;
        d <- fold_left docker_item docker_info_list (Ok []) ;;
        Ok (Some d))
  else Ok None.

Definition cgroup_command (pid : Z) : string :=
  "ps xaw -eo pid,user,cgroup | sed 1d | sed -e 's/^[ " ++ PyStr.tab
  ++ "]*//g' | grep " ++ PyStr.str_of_int pid ++ " -m 1".

(** [pid_map[pid]["user"] = f(pid_map[pid]["user"])], with the state reached
    and the exception raised, if any. *)
Definition update_user (pid : Z) (f : string -> string) (pid_map : pid_map_t)
  : pid_map_t * result unit :=
  match dict_get pid pid_map with
  | None => (pid_map, Raise (KeyError (PyStr.str_of_int pid)))
  | Some None => (pid_map, Raise TypeError)
  | Some (Some i) =>
      (dict_set pid (Some (mkIdentity (f (ident_user i)) (ident_comm i))) pid_map,
       Ok tt)
  end.

(** [cgroup.split(",")[0].split("/")[-1]] *)
Definition container_of_cgroup (cgroup : string) : string :=
  last (PyStr.split "/" (hd "" (PyStr.split "," cgroup))) "".

(** The body of the [try] block run for one pid. *)
Definition container_lookup (w : world) (lxc_version docker_version : option string)
    (docker_info_dict : option docker_info_t) (pid : Z) (pid_map : pid_map_t)
  : pid_map_t * result unit :=
  match shell w (cgroup_command pid) with
  | Raise e => (pid_map, Raise e)
  | Ok out =>
      let info := PyStr.strip out in
      let info := PyStr.re_sub_ws info in
      match map PyStr.strip (PyStr.split " " info) with
      | [_; user; cgroup] =>
          if truthy lxc_version && PyStr.contains "lxc" cgroup
          then
            let lxc_container_name := container_of_cgroup cgroup in
            update_user pid (fun u => u ++ "/" ++ lxc_container_name) pid_map
          else if truthy docker_version && PyStr.contains "docker" cgroup
          then
            let current_docker_container_id := container_of_cgroup cgroup in
            match docker_info_dict with
            | None => (pid_map, Raise UnboundLocalError)
            | Some d =>
                match dict_get current_docker_container_id d with
                | Some (docker_container_name, _) =>
                    update_user pid (fun _ => docker_container_name) pid_map
                | None => update_user pid (fun _ => "UNKNOWN") pid_map
                end
            end
          else (pid_map, Ok tt)
      | _ => (pid_map, Raise ValueError)
      end
  end.

(** [try: ... except Exception: pass]: the state reached is kept, the
    exception is dropped. *)
Definition container_try (w : world) (lxc_version docker_version : option string)
    (docker_info_dict : option docker_info_t) (pid_map : pid_map_t) (pid : Z)
  : pid_map_t :=
  fst (container_lookup w lxc_version docker_version docker_info_dict pid pid_map).

(** Step 2.1, the loop over the pids. *)
Definition container_stage (w : world) (lxc_version docker_version : option string)
    (docker_info_dict : option docker_info_t) (pid_map : pid_map_t) : pid_map_t :=
  if truthy lxc_version || truthy docker_version
  then fold_left (container_try w lxc_version docker_version docker_info_dict)
                 (dict_keys pid_map) pid_map
  else pid_map.

(** *** Step 3

    The process entries are shared objects: the loop walks a copy of the
    list while it updates the entries in place and removes from the list
    itself.  [heap] holds the entry objects, [refs] is [process_entries] as
    a list of references into it. *)

Record entries_state : Type := mkEntries {
  heap : list dict;
  refs : list nat
}.

Definition deref (h : list dict) (r : nat) : result dict :=
  match nth_error h r with
  | Some d => Ok d
  | None => Raise (Unmodelled "dangling reference")
  end.

Fixpoint heap_set (h : list dict) (r : nat) (d : dict) : list dict :=
  match h, r with
  | [], _ => []
  | _ :: h', O => d :: h'
  | x :: h', S r' => x :: heap_set h' r' d
  end.

(** [l.remove(x)]: drops the first item equal to [x]; [None] when there is
    none ([ValueError]). *)
Fixpoint list_remove (h : list dict) (x : dict) (l : list nat)
  : option (list nat) :=
  match l with
  | [] => None
  | r :: l' =>
      match nth_error h r with
      | Some d =>
          if dict_eqb d x then Some l'
          else option_map (cons r) (list_remove h x l')
      | None => option_map (cons r) (list_remove h x l')
      end
  end.

Definition set_absent (process_entry : dict) : dict :=
  let e := dict_set "user" VNone process_entry in
  let e := dict_set "comm" VNone e in
  let e := dict_set "pid" VNone e in
  dict_set "used_memory" VNone e.

(** [process_entry.update(i)] *)
Definition dict_update (process_entry : dict) (i : identity) : dict :=
  dict_set "comm" (VStr (ident_comm i))
    (dict_set "user" (VStr (ident_user i)) process_entry).

Definition add_process_info (pid_map : pid_map_t) (acc : result entries_state)
    (r : nat) : result entries_state :=
  st <- acc ;;
  process_entry <- deref (heap st) r ;;
  p <- getitem process_entry "pid" ;;
  b <- not_supported_in p ;;
  if b then Ok (mkEntries (heap_set (heap st) r (set_absent process_entry)) (refs st))
  else
    (pid <- py_int p ;;
     match dict_get pid pid_map with
     | None => Raise (KeyError (PyStr.str_of_int pid))
     | Some None =>
         match list_remove (heap st) process_entry (refs st) with
         | Some l => Ok (mkEntries (heap st) l)
         | None => Raise ValueError
         end
     | Some (Some i) =>
         Ok (mkEntries (heap_set (heap st) r (dict_update process_entry i)) (refs st))
     end).

Fixpoint deref_all (h : list dict) (l : list nat) : result (list dict) :=
  match l with
  | [] => Ok []
  | r :: l' => d <- deref h r ;; ds <- deref_all h l' ;; Ok (d :: ds)
  end.

(** Step 1, the compute-process query and its rows. *)
Definition collect_entries (w : world) : result (list dict) :=
  smi_output <- exec_command w process_command false ;;
  lines <- py_split PyStr.nl smi_output ;;
  Ok (fold_left parse_process_line lines []).

Definition running_processes (w : world) : result (list dict) :=
  process_entries <- collect_entries w ;;
  pid_map <- fold_left pid_map_add process_entries (Ok []) ;;
  pid_map <- ps_stage w pid_map ;;
  lxc_version <- exec_command w "lxc-info --version" true ;;
  docker_version <- exec_command w "docker --version" true ;;
  docker_info_dict <- docker_stage w docker_version ;;
  let pid_map :=
    container_stage w lxc_version docker_version docker_info_dict pid_map in
  let copy := seq 0 (List.length process_entries) in
  st <- fold_left (add_process_info pid_map) copy
          (Ok (mkEntries process_entries copy)) ;;
  deref_all (heap st) (refs st).

(** ** class GPUStatCollection *)

(** [self.gpus]: an [OrderedDict] from the [uuid] of a device to the device. *)
Definition gpus_t : Type := list (value * GPUStat).

Record GPUStatCollection : Type := mkCollection {
  gpus : gpus_t;
  hostname : string;
  query_time : Z
}.

(** [d[k]] for a dictionary keyed by field values, as used on [self.gpus]. *)
Definition gpus_getitem (d : gpus_t) (k : value) : result GPUStat :=
  match dict_get k d with
  | Some g => Ok g
  | None => Raise (KeyError (py_str k))
  end.

(** The object bound under [k] is updated in place. *)
Fixpoint gpus_modify (k : value) (f : GPUStat -> GPUStat) (d : gpus_t) : gpus_t :=
  match d with
  | [] => []
  | (k', g) :: d' =>
      if keqb k k' then (k', f g) :: d' else (k', g) :: gpus_modify k f d'
  end.

(** State of the loop of [update_process_information]: the devices, and the
    local variable [g], unbound ([None]) or bound to the device object stored
    under a key of [self.gpus]. *)
Record attach_state : Type := mkAttach {
  att_gpus : gpus_t;
  att_g : option value
}.

(** One turn of the loop: a [KeyError] of the lookup is dropped and leaves
    [g] as it was; [g.add_process(p)] follows in either case. *)
Definition attach_process (acc : result attach_state) (p : dict)
  : result attach_state :=
  st <- acc ;;
  g <- match (k <- getitem p "gpu_uuid" ;;
              _ <- gpus_getitem (att_gpus st) k ;; Ok k) with
       | Ok k => Ok (Some k)
       | Raise (KeyError _) => Ok (att_g st)
       | Raise e => Raise e
       end ;;
  match g with
  | None => Raise UnboundLocalError
  | Some k =>
      Ok (mkAttach (gpus_modify k (fun d => add_process d p) (att_gpus st)) g)
  end.

Definition update_process_information (w : world) (gpus0 : gpus_t)
  : result gpus_t :=
  processes <- running_processes w ;;
  st <- fold_left attach_process processes (Ok (mkAttach gpus0 None)) ;;
  Ok (att_gpus st).

Definition register_gpu (acc : result gpus_t) (g : GPUStat) : result gpus_t :=
  d <- acc ;;
  u <- uuid g ;;
  Ok (dict_set u g d).

(** [GPUStatCollection.__init__] *)
Definition GPUStatCollection_init (w : world) (gpu_list : list GPUStat)
  : result GPUStatCollection :=
  d <- fold_left register_gpu gpu_list (Ok []) ;;
  d <- update_process_information w d ;;
  Ok (mkCollection d (node w) (now w)).

(** *** new_query *)

Definition gpu_query_columns : list string :=
  ["index"; "uuid"; "name"; "temperature.gpu"; "utilization.gpu";
   "memory.used"; "memory.total"].

Definition gpu_command : string :=
  "nvidia-smi --query-gpu=" ++ PyStr.join "," gpu_query_columns
  ++ " --format=csv,noheader,nounits".

Definition in_dict_of_line (line : string) : dict :=
  let query_results := map PyStr.strip (PyStr.split "," line) in
  let zipped_results := combine gpu_query_columns query_results in
  dict_of_pairs
    (map (fun kv => (fst kv, VStr (PyStr.strip (snd kv)))) zipped_results).

Definition parse_gpu_line (acc : result (list GPUStat)) (line : string)
  : result (list GPUStat) :=
  gpu_list <- acc ;;
  if String.eqb line "" then Ok gpu_list
  else (g <- GPUStat_init (in_dict_of_line line) ;;
        Ok (gpu_list ++ [g])%list).

(** The loop of [new_query] over the lines of the device query. *)
Definition parse_gpu_list (smi_output : option string) : result (list GPUStat) :=
  lines <- py_split PyStr.nl smi_output ;;
  fold_left parse_gpu_line lines (Ok []).

(** Step 1 of [new_query]: the device query and the records of its lines. *)
Definition query_gpu_list (w : world) : result (list GPUStat) :=
  smi_output <- exec_command w gpu_command false ;;
  parse_gpu_list smi_output.

Definition new_query (w : world) : result GPUStatCollection :=
  gpu_list <- query_gpu_list w ;;
  GPUStatCollection_init w gpu_list.

(** *** print_formatted

    The body written to [fp].  The header line, which depends on the locale
    and the clock, is printed apart and is not part of the model. *)

Definition name_length (acc : result Z) (kg : value * GPUStat) : result Z :=
  m <- acc ;;
  name <- getitem (entry (snd kg)) "name" ;;
  n <- py_len name ;;
  Ok (Z.max m n).

Definition print_gpu_line (o : print_options) (acc : result string)
    (kg : value * GPUStat) : result string :=
  out <- acc ;;
  line <- print_to (snd kg) o ;;
  Ok (out ++ line ++ PyStr.nl).

Definition print_formatted (c : GPUStatCollection)
    (no_color show_cmd show_user show_pid : bool) (gpuname_width : Z)
  : result string :=
  width <- fold_left name_length (gpus c) (Ok gpuname_width) ;;
  let o := mkOptions (negb no_color) show_cmd show_user show_pid width in
  fold_left (print_gpu_line o) (gpus c) (Ok "").

(** ** print_gpustat *)

Record cli_args : Type := mkArgs {
  arg_no_color : bool;
  arg_show_cmd : bool;
  arg_show_user : bool;
  arg_show_pid : bool;
  arg_gpuname_width : Z
}.

Definition default_args : cli_args := mkArgs false false false false 16.

(** How a run ends: the report is printed, or the handler of
    [CalledProcessError] writes its message and exits, or another exception
    leaves the program uncaught. *)
Inductive outcome : Type :=
| Printed (text : string)
| Exit (code : Z) (stderr : string)
| Uncaught (e : exn).

Definition nvidia_smi_error : string := "Error on calling nvidia-smi" ++ PyStr.nl.

Definition print_gpustat (w : world) (a : cli_args) : outcome :=
  match new_query w with
  | Raise CalledProcessError => Exit 1 nvidia_smi_error
  | Raise e => Uncaught e
  | Ok gpu_stats =>
      match print_formatted gpu_stats (arg_no_color a) (arg_show_cmd a)
              (arg_show_user a) (arg_show_pid a) (arg_gpuname_width a) with
      | Ok text => Printed text
      | Raise e => Uncaught e
      end
  end.

(** ** Concrete worlds

    A world given by a table of commands and their outcomes; a command that
    is not listed exits with a non-zero status. *)

Definition world_of (table : list (string * result string)) : world :=
  mkWorld (fun cmd => match dict_get cmd table with
                      | Some r => r
                      | None => Raise CalledProcessError
                      end)
          "host" 0.

Module Scenario.

Definition ps_header : string := "    PID USER             COMMAND".

(** One device, every field supported. *)
Definition device_A : string :=
  "0, GPU-aaa, Tesla K80, 65, 42, 1024, 12000" ++ PyStr.nl.

(** An old card: temperature and utilization are not supported. *)
Definition device_B : string :=
  "0, GPU-aaa, Tesla K80, Not Supported, Not Supported, 0, 12000" ++ PyStr.nl.

(** A device exactly at both thresholds. *)
Definition device_edge : string :=
  "0, GPU-aaa, Tesla K80, 50, 30, 1024, 12000" ++ PyStr.nl.

(** A line cut after its fourth field. *)
Definition device_short : string := "0, GPU-aaa, Tesla K80, 50".

(** Only the utilization is not supported. *)
Definition device_no_util : string :=
  "0, GPU-aaa, Tesla K80, 65, [Not Supported], 1024, 12000".

(** Only the memory figures are not supported. *)
Definition device_no_memory : string :=
  "0, GPU-aaa, Tesla K80, 65, 42, [Not Supported], [Not Supported]".

Definition gpu_A : GPUStat :=
  mkGPUStat [("index", VStr "0"); ("uuid", VStr "GPU-aaa");
             ("name", VStr "Tesla K80"); ("temperature.gpu", VStr "65");
             ("utilization.gpu", VStr "42"); ("memory.used", VStr "1024");
             ("memory.total", VStr "12000")] [].

Definition gpu_B : GPUStat :=
  mkGPUStat [("index", VStr "0"); ("uuid", VStr "GPU-aaa");
             ("name", VStr "Tesla K80"); ("temperature.gpu", VNone);
             ("utilization.gpu", VStr "??"); ("memory.used", VStr "0");
             ("memory.total", VStr "12000")] [].

Definition gpu_edge : GPUStat :=
  mkGPUStat [("index", VStr "0"); ("uuid", VStr "GPU-aaa");
             ("name", VStr "Tesla K80"); ("temperature.gpu", VStr "50");
             ("utilization.gpu", VStr "30"); ("memory.used", VStr "1024");
             ("memory.total", VStr "12000")] [].

(** No compute process, no container runtime. *)
Definition idle (device : string) : world :=
  world_of [(gpu_command, Ok device); (process_command, Ok "")].

(** Scenario D: one row whose pid is not supported. *)
Definition hidden_process : world :=
  world_of [(gpu_command, Ok device_A);
            (process_command,
             Ok ("GPU-aaa, Not Supported, Not Supported" ++ PyStr.nl))].

(** Scenario E: pid 1234 exited between the two queries; the listing has
    a line for pid 5678 only. *)
Definition exited_process : world :=
  world_of [(gpu_command, Ok device_A);
            (process_command,
             Ok ("GPU-aaa, 1234, 256" ++ PyStr.nl ++ "GPU-aaa, 5678, 100"
                 ++ PyStr.nl));
            ("ps -o pid,user:16,comm -p 1234,5678",
             Ok (ps_header ++ PyStr.nl
                 ++ "   5678 alice            python" ++ PyStr.nl))].

Definition ps_both : string :=
  ps_header ++ PyStr.nl ++ "   1234 bob              bash" ++ PyStr.nl
  ++ "   5678 alice            python" ++ PyStr.nl.

(** The second process names a device the device query did not list. *)
Definition unknown_device_second : world :=
  world_of [(gpu_command, Ok device_A);
            (process_command,
             Ok ("GPU-aaa, 1234, 256" ++ PyStr.nl ++ "GPU-zzz, 5678, 100"
                 ++ PyStr.nl));
            ("ps -o pid,user:16,comm -p 1234,5678", Ok ps_both)].

(** The only process names an unknown device. *)
Definition unknown_device_first : world :=
  world_of [(gpu_command, Ok device_A);
            (process_command, Ok ("GPU-zzz, 5678, 100" ++ PyStr.nl));
            ("ps -o pid,user:16,comm -p 5678",
             Ok (ps_header ++ PyStr.nl
                 ++ "   5678 alice            python" ++ PyStr.nl))].

(** Docker answers its version probe, its listing command fails. *)
Definition docker_listing_fails : world :=
  world_of [(gpu_command, Ok device_A); (process_command, Ok "");
            ("docker --version", Ok "Docker version 24.0.5, build ced0996")].

(** Both runtimes installed; the control-group lookup of pid 1234 fails,
    pid 5678 runs in the docker container [abc]. *)
Definition containers : world :=
  world_of [(gpu_command, Ok device_A);
            (process_command,
             Ok ("GPU-aaa, 1234, 256" ++ PyStr.nl ++ "GPU-aaa, 5678, 100"
                 ++ PyStr.nl));
            ("ps -o pid,user:16,comm -p 1234,5678", Ok ps_both);
            ("lxc-info --version", Ok "3.0.3");
            ("docker --version", Ok "Docker version 24.0.5, build ced0996");
            (docker_ps_command, Ok "abc<>web<>nginx -g daemon");
            (cgroup_command 5678, Ok "5678 alice    12:pids:/docker/abc,3")].

Definition two_pids : pid_map_t :=
  [(1234%Z, Some (mkIdentity "bob" "bash"));
   (5678%Z, Some (mkIdentity "alice" "python"))].

End Scenario.

(** ** Vocabulary of the statements *)

(** The value the loop of the constructor leaves for a string field. *)
Definition normalised (v : value) : value :=
  match v with
  | VStr s => if PyStr.contains NotSupported s then VNone else v
  | VNone => VNone
  end.

(** No pid of [pid_map] is bound to [None]. *)
Definition bound_pids (pid_map : pid_map_t) : Prop :=
  Forall (fun kv => snd kv <> None) pid_map.

(** The control-group lookup of a pid fails: the command raises, or its
    output does not have exactly three fields. *)
Definition lookup_fails (w : world) (pid : Z) : Prop :=
  match shell w (cgroup_command pid) with
  | Raise _ => True
  | Ok out =>
      List.length (PyStr.split " " (PyStr.re_sub_ws (PyStr.strip out))) <> 3%nat
  end.

(** The devices of a snapshot without their processes: the key and the
    fields of each device, in the order of the snapshot. *)
Definition device_fields (d : gpus_t) : list (value * dict) :=
  map (fun kg => (fst kg, entry (snd kg))) d.

(** ** The container protocol of GPUStatCollection *)

(** [__len__] *)
Definition __len__ (c : GPUStatCollection) : Z :=
  Z.of_nat (List.length (gpus c)).

(** [__iter__]: the devices, in the order of the keys of [self.gpus]. *)
Definition __iter__ (c : GPUStatCollection) : list GPUStat :=
  map snd (gpus c).

(** [__getitem__], [list(self.gpus.values())[index]]: a negative index counts
    from the end; [None] stands for [IndexError]. *)
Definition __getitem__ (c : GPUStatCollection) (index : Z) : option GPUStat :=
  let values := map snd (gpus c) in
  let i := if (index <? 0)%Z
           then (index + Z.of_nat (List.length values))%Z
           else index in
  if (i <? 0)%Z then None else nth_error values (Z.to_nat i).

(** ** Vocabulary of the further properties *)

(** The pid a compute-process row asks an identity for: none when the pid
    field is missing, carries the marker or is no integer. *)
Definition row_pid (e : dict) : option Z :=
  match dict_get "pid" e with
  | Some (VStr s) =>
      if PyStr.contains NotSupported s then None else PyStr.int_of_str s
  | _ => None
  end.

(** A row the comprehension of [pid_map] accepts: its pid field carries the
    marker or is an integer. *)
Definition row_accepted (e : dict) : Prop :=
  exists s, dict_get "pid" e = Some (VStr s) /\
            (PyStr.contains NotSupported s = true \/
             exists n, PyStr.int_of_str s = Some n).

(** What a line of the process listing binds: a pid and its identity; none
    for an empty line, a line holding "PID", or a line that is not three
    fields led by an integer. *)
Definition ps_line_identity (line : string) : option (Z * identity) :=
  if String.eqb line "" || PyStr.contains "PID" line then None
  else match PyStr.split_ws line with
       | [pid; user; comm] =>
           option_map (fun n => (n, mkIdentity user comm)) (PyStr.int_of_str pid)
       | _ => None
       end.

(** The value of a version probe, [exec_command(cmd, ignore_exceptions=True)]:
    the stripped output, or [None] when the command fails. *)
Definition probe (w : world) (command : string) : option string :=
  match shell w command with
  | Ok out => Some (PyStr.strip out)
  | Raise _ => None
  end.

(** An entry as step 3 leaves it, given the [pid_map] it reads. *)
Definition with_identity (pid_map : pid_map_t) (e : dict) : dict :=
  match dict_get "pid" e with
  | Some (VStr s) =>
      if PyStr.contains NotSupported s then set_absent e
      else match PyStr.int_of_str s with
           | Some n =>
               match dict_get n pid_map with
               | Some (Some i) => dict_update e i
               | _ => e
               end
           | None => e
           end
  | _ => e
  end.

(** The process entry [p] names the device of key [k]. *)
Definition on_device (k : value) (p : dict) : bool :=
  match dict_get "gpu_uuid" p with
  | Some k' => value_eqb k' k
  | None => false
  end.

(** The process entry [p] names a device of [d]. *)
Definition known_device (d : gpus_t) (p : dict) : Prop :=
  exists k, dict_get "gpu_uuid" p = Some k /\ In k (dict_keys d).


(** The lines of a report, each ended by a newline. *)
Definition unlines (lines : list string) : string :=
  fold_right (fun l acc => l ++ PyStr.nl ++ acc) "" lines.


(** * Properties *)

(** ** Facts on dictionaries *)

Section DictFacts.
Context {K V : Type} `{EqKey K}.
Hypothesis keqb_eq : forall x y : K, keqb x y = true <-> x = y.

Lemma keqb_refl (k : K) : keqb k k = true.
Proof. now apply keqb_eq. Qed.

Lemma keqb_neq (k k' : K) : k <> k' -> keqb k k' = false.
Proof.
  intros Hne. destruct (keqb k k') eqn:E; [|reflexivity].
  apply keqb_eq in E. contradiction.
Qed.

Lemma dict_get_set_same (k : K) (v : V) (d : list (K * V)) :
  dict_get k (dict_set k v d) = Some v.
Proof.
  induction d as [|[k' v'] d IH]; simpl.
  - now rewrite keqb_refl.
  - destruct (keqb k k') eqn:E; simpl; rewrite E; [reflexivity|exact IH].
Qed.

Lemma dict_get_set_other (k k' : K) (v : V) (d : list (K * V)) :
  k <> k' -> dict_get k' (dict_set k v d) = dict_get k' d.
Proof.
  intros Hne. induction d as [|[k0 v0] d IH]; simpl.
  - rewrite keqb_neq; [reflexivity|congruence].
  - destruct (keqb k k0) eqn:E; simpl.
    + apply keqb_eq in E. subst k0.
      rewrite keqb_neq; [reflexivity|congruence].
    + now rewrite IH.
Qed.

Lemma dict_get_none (k : K) (d : list (K * V)) :
  dict_get k d = None <-> ~ In k (dict_keys d).
Proof.
  induction d as [|[k' v'] d IH]; simpl.
  - tauto.
  - destruct (keqb k k') eqn:E.
    + apply keqb_eq in E. subst. split; [discriminate|tauto].
    + rewrite IH. split.
      * intros Hn [He|Hi]; [|tauto]. subst.
        rewrite keqb_refl in E. discriminate.
      * tauto.
Qed.

Lemma dict_set_fresh (k : K) (v : V) (d : list (K * V)) :
  ~ In k (dict_keys d) -> dict_set k v d = (d ++ [(k, v)])%list.
Proof.
  induction d as [|[k' v'] d IH]; simpl; intros Hn; [reflexivity|].
  rewrite keqb_neq by (intros ->; tauto).
  rewrite IH by tauto. reflexivity.
Qed.

Lemma dict_keys_set_present (k : K) (v : V) (d : list (K * V)) :
  In k (dict_keys d) -> dict_keys (dict_set k v d) = dict_keys d.
Proof.
  induction d as [|[k' v'] d IH]; simpl; [tauto|].
  intros Hin. destruct (keqb k k') eqn:E; simpl; [reflexivity|].
  f_equal. apply IH. destruct Hin as [->|Hin]; [|exact Hin].
  rewrite keqb_refl in E. discriminate.
Qed.

Lemma dict_keys_set (k : K) (v : V) (d : list (K * V)) :
  dict_keys (dict_set k v d) =
  match dict_get k d with
  | Some _ => dict_keys d
  | None => (dict_keys d ++ [k])%list
  end.
Proof.
  induction d as [|[k' v'] d IH]; simpl; [reflexivity|].
  destruct (keqb k k') eqn:E; simpl; [reflexivity|].
  rewrite IH. now destruct (dict_get k d).
Qed.

Lemma dict_set_nodup (k : K) (v : V) (d : list (K * V)) :
  NoDup (dict_keys d) -> NoDup (dict_keys (dict_set k v d)).
Proof.
  intros Hnd. rewrite dict_keys_set.
  destruct (dict_get k d) eqn:E; [exact Hnd|].
  apply dict_get_none in E.
  apply NoDup_app; [exact Hnd|repeat constructor; simpl; tauto|].
  intros x Hx [<-|[]]. contradiction.
Qed.

(** Updating the binding met in the middle of a dictionary. *)
Lemma dict_get_middle (k : K) (v : V) (d1 d2 : list (K * V)) :
  ~ In k (dict_keys d1) -> dict_get k (d1 ++ (k, v) :: d2)%list = Some v.
Proof.
  induction d1 as [|[k' v'] d1 IH]; simpl; intros Hn.
  - now rewrite keqb_refl.
  - rewrite keqb_neq by (intros ->; tauto). apply IH. tauto.
Qed.

Lemma dict_set_middle (k : K) (v v' : V) (d1 d2 : list (K * V)) :
  ~ In k (dict_keys d1) ->
  dict_set k v' (d1 ++ (k, v) :: d2)%list = (d1 ++ (k, v') :: d2)%list.
Proof.
  induction d1 as [|[k0 v0] d1 IH]; simpl; intros Hn.
  - now rewrite keqb_refl.
  - rewrite keqb_neq by (intros ->; tauto). rewrite IH by tauto. reflexivity.
Qed.

Lemma dict_of_pairs_acc (l acc : list (K * V)) :
  NoDup (dict_keys (acc ++ l)%list) ->
  fold_left (fun d kv => dict_set (fst kv) (snd kv) d) l acc = (acc ++ l)%list.
Proof.
  revert acc. induction l as [|[k v] l IH]; intros acc Hnd; simpl.
  - now rewrite app_nil_r.
  - assert (Hfresh : ~ In k (dict_keys acc)).
    { unfold dict_keys in *. rewrite map_app in Hnd. simpl in Hnd.
      apply NoDup_remove_2 in Hnd. intros Hin. apply Hnd.
      apply in_or_app. now left. }
    rewrite dict_set_fresh by exact Hfresh.
    rewrite IH; rewrite <- app_assoc; simpl; [reflexivity|exact Hnd].
Qed.

(** A comprehension over pairs with distinct keys keeps them as they are. *)
Lemma dict_of_pairs_nodup (l : list (K * V)) :
  NoDup (dict_keys l) -> dict_of_pairs l = l.
Proof. intros Hnd. unfold dict_of_pairs. now rewrite dict_of_pairs_acc. Qed.

Lemma dict_get_map (h : V -> V) (k : K) (d : list (K * V)) :
  dict_get k (map (fun kv => (fst kv, h (snd kv))) d)
  = option_map h (dict_get k d).
Proof.
  induction d as [|[k' v'] d IH]; simpl; [reflexivity|].
  destruct (keqb k k'); [reflexivity|exact IH].
Qed.

Lemma dict_keys_map (h : V -> V) (d : list (K * V)) :
  dict_keys (map (fun kv => (fst kv, h (snd kv))) d) = dict_keys d.
Proof. unfold dict_keys. rewrite map_map. reflexivity. Qed.

(** Looking a column up in the zip of the columns and the fields. *)
Lemma dict_get_combine (cols : list K) (fields : list V) (i : nat) (k : K) (f : V) :
  NoDup cols -> nth_error cols i = Some k -> nth_error fields i = Some f ->
  dict_get k (combine cols fields) = Some f.
Proof.
  revert fields i. induction cols as [|c cols IH]; intros fields i Hnd Hc Hf.
  - destruct i; discriminate.
  - destruct fields as [|f0 fields]; [destruct i; discriminate|].
    destruct i as [|i]; simpl in *.
    + injection Hc as ->. injection Hf as ->. now rewrite keqb_refl.
    + inversion Hnd as [|? ? Hni Hnd']; subst.
      rewrite keqb_neq.
      * eapply IH; eauto.
      * intros ->. apply Hni. eapply nth_error_In; eauto.
Qed.

Lemma dict_get_combine_none (cols : list K) (fields : list V) (i : nat) (k : K) :
  NoDup cols -> nth_error cols i = Some k -> (List.length fields <= i)%nat ->
  dict_get k (combine cols fields) = None.
Proof.
  revert fields i. induction cols as [|c cols IH]; intros fields i Hnd Hc Hl.
  - reflexivity.
  - destruct fields as [|f0 fields]; [reflexivity|].
    destruct i as [|i]; simpl in *; [lia|].
    inversion Hnd as [|? ? Hni Hnd']; subst.
    rewrite keqb_neq.
    + eapply IH; eauto. lia.
    + intros ->. apply Hni. eapply nth_error_In; eauto.
Qed.

End DictFacts.

Lemma string_keqb_eq (x y : string) : keqb x y = true <-> x = y.
Proof. apply String.eqb_eq. Qed.

Lemma Z_keqb_eq (x y : Z) : keqb x y = true <-> x = y.
Proof. apply Z.eqb_eq. Qed.

Lemma value_keqb_eq (x y : value) : keqb x y = true <-> x = y.
Proof.
  unfold keqb, EqKey_value.
  destruct x as [|s], y as [|t]; simpl; try (split; [discriminate|congruence]).
  - tauto.
  - rewrite String.eqb_eq. split; congruence.
Qed.

(** ** Facts on the result monad and on loops *)

Lemma bind_ok {A B} (r : result A) (k : A -> result B) (b : B) :
  bind r k = Ok b -> exists a, r = Ok a /\ k a = Ok b.
Proof. destruct r as [a|e]; simpl; [eauto|discriminate]. Qed.

Lemma bind_raise {A B} (r : result A) (k : A -> result B) (e : exn) :
  bind r k = Raise e -> r = Raise e \/ exists a, r = Ok a /\ k a = Raise e.
Proof. destruct r as [a|e']; simpl; [eauto|intros [= ->]; now left]. Qed.

(** A loop whose state is a [result] stays failed once a turn has failed. *)
Lemma fold_left_raise {A X} (f : result A -> X -> result A) (l : list X) (e : exn) :
  (forall x, f (Raise e) x = Raise e) -> fold_left f l (Raise e) = Raise e.
Proof. intros Hf. induction l as [|x l IH]; simpl; [reflexivity|now rewrite Hf]. Qed.

(** The exceptions a loop can raise are those one of its turns can raise. *)
Lemma fold_left_raises {A X} (P : exn -> Prop)
    (f : result A -> X -> result A) (l : list X) :
  (forall e x, f (Raise e) x = Raise e) ->
  (forall a x e, f (Ok a) x = Raise e -> P e) ->
  forall a e, fold_left f l (Ok a) = Raise e -> P e.
Proof.
  intros Hr Hs. induction l as [|x l IH]; simpl; intros a e Hf; [discriminate|].
  destruct (f (Ok a) x) as [a'|e'] eqn:E.
  - eapply IH; eauto.
  - rewrite fold_left_raise in Hf by (intros; apply Hr).
    injection Hf as <-. eapply Hs; eauto.
Qed.

(** ** Facts on the string builtins *)

Lemma rstrip_idempotent (s : string) : PyStr.rstrip (PyStr.rstrip s) = PyStr.rstrip s.
Proof.
  induction s as [|c s IH]; simpl; [reflexivity|].
  destruct (PyStr.rstrip s) as [|a r] eqn:E.
  - destruct (PyStr.is_space c) eqn:Ec; simpl; [reflexivity|now rewrite Ec].
  - simpl in IH |- *. rewrite IH. reflexivity.
Qed.

Lemma lstrip_head (s : string) :
  PyStr.lstrip s = "" \/
  exists c t, PyStr.lstrip s = String c t /\ PyStr.is_space c = false.
Proof.
  induction s as [|c s IH]; simpl; [now left|].
  destruct (PyStr.is_space c) eqn:Ec; [exact IH|right; eauto].
Qed.

Lemma strip_idempotent (s : string) : PyStr.strip (PyStr.strip s) = PyStr.strip s.
Proof.
  unfold PyStr.strip.
  destruct (lstrip_head s) as [->|(c & t & -> & Hc)]; [reflexivity|].
  assert (Hl : PyStr.lstrip (PyStr.rstrip (String c t)) = PyStr.rstrip (String c t)).
  { simpl. destruct (PyStr.rstrip t); rewrite ?Hc; simpl; now rewrite Hc. }
  rewrite Hl. apply rstrip_idempotent.
Qed.

Lemma NoDup_gpu_query_columns : NoDup gpu_query_columns.
Proof.
  unfold gpu_query_columns.
  repeat (constructor; [simpl; intuition discriminate|]). constructor.
Qed.

Lemma NoDup_keys_combine {A B} (cols : list A) (fields : list B) :
  NoDup cols -> NoDup (map fst (combine cols fields)).
Proof.
  revert fields. induction cols as [|c cols IH]; intros fields Hnd; simpl.
  - constructor.
  - destruct fields as [|f fields]; simpl; [constructor|].
    inversion Hnd as [|? ? Hni Hnd']; subst. constructor; [|now apply IH].
    intros Hin. apply in_map_iff in Hin. destruct Hin as ([k v] & Hk & Hin).
    simpl in Hk. subst k. apply in_combine_l in Hin. contradiction.
Qed.

(** ** The device parser *)

Lemma normalise_keys_acc (todo done : dict) :
  NoDup (dict_keys (done ++ todo)%list) ->
  (forall k v, In (k, v) todo -> exists s, v = VStr s) ->
  fold_left normalise_key (dict_keys todo) (Ok (done ++ todo)%list)
  = Ok (done ++ map (fun kv => (fst kv, normalised (snd kv))) todo)%list.
Proof.
  revert done. induction todo as [|[k v] todo IH]; intros done Hnd Hstr; simpl.
  - reflexivity.
  - assert (Hfresh : ~ In k (dict_keys done)).
    { unfold dict_keys in *. rewrite map_app in Hnd. simpl in Hnd.
      apply NoDup_remove_2 in Hnd. intros Hin. apply Hnd.
      apply in_or_app. now left. }
    destruct (Hstr k v (or_introl eq_refl)) as [s ->].
    unfold getitem.
    rewrite (dict_get_middle string_keqb_eq) by exact Hfresh. cbn [bind not_supported_in].
    assert (Hstep : (if PyStr.contains NotSupported s
                     then dict_set k VNone (done ++ (k, VStr s) :: todo)%list
                     else (done ++ (k, VStr s) :: todo)%list)
                    = ((done ++ [(k, normalised (VStr s))]) ++ todo)%list).
    { rewrite <- app_assoc. simpl.
      destruct (PyStr.contains NotSupported s); [|reflexivity].
      now rewrite (dict_set_middle string_keqb_eq). }
    rewrite Hstep. rewrite IH.
    + rewrite <- app_assoc. reflexivity.
    + rewrite <- app_assoc. simpl. unfold dict_keys in *.
      rewrite map_app in *. exact Hnd.
    + intros k' v' Hin. apply (Hstr k' v'). now right.
Qed.

(** The loop over the keys replaces every marked field by [None]. *)
Lemma normalise_keys (d : dict) :
  NoDup (dict_keys d) ->
  (forall k v, In (k, v) d -> exists s, v = VStr s) ->
  fold_left normalise_key (dict_keys d) (Ok d)
  = Ok (map (fun kv => (fst kv, normalised (snd kv))) d).
Proof. intros Hnd Hstr. now apply (normalise_keys_acc d []). Qed.

(** The field dictionary of a line is the zip of the columns and the
    trimmed fields. *)
Lemma in_dict_of_line_zip (line : string) :
  in_dict_of_line line
  = map (fun kv => (fst kv, VStr (PyStr.strip (snd kv))))
        (combine gpu_query_columns (map PyStr.strip (PyStr.split "," line))).
Proof.
  unfold in_dict_of_line. apply (dict_of_pairs_nodup string_keqb_eq).
  unfold dict_keys. rewrite map_map.
  exact (NoDup_keys_combine gpu_query_columns _ NoDup_gpu_query_columns).
Qed.

Lemma in_dict_of_line_keys (line : string) :
  dict_keys (in_dict_of_line line)
  = map fst (combine gpu_query_columns (map PyStr.strip (PyStr.split "," line))).
Proof.
  rewrite in_dict_of_line_zip. unfold dict_keys. rewrite map_map. reflexivity.
Qed.

Lemma in_dict_of_line_get (line : string) (i : nat) (k f : string) :
  nth_error gpu_query_columns i = Some k ->
  nth_error (map PyStr.strip (PyStr.split "," line)) i = Some f ->
  dict_get k (in_dict_of_line line) = Some (VStr f).
Proof.
  intros Hk Hf. rewrite in_dict_of_line_zip.
  assert (Hs : PyStr.strip f = f).
  { apply nth_error_In, in_map_iff in Hf. destruct Hf as (x & <- & _).
    apply strip_idempotent. }
  pose proof (dict_get_combine string_keqb_eq _ _ i k f
                NoDup_gpu_query_columns Hk Hf) as Hg.
  induction (combine gpu_query_columns (map PyStr.strip (PyStr.split "," line)))
    as [|[k' v'] l IH]; simpl in *; [discriminate|].
  destruct (keqb k k'); [injection Hg as ->; now rewrite Hs|now apply IH].
Qed.

Lemma in_dict_of_line_get_none (line : string) (i : nat) (k : string) :
  nth_error gpu_query_columns i = Some k ->
  (List.length (PyStr.split "," line) <= i)%nat ->
  dict_get k (in_dict_of_line line) = None.
Proof.
  intros Hk Hl. rewrite in_dict_of_line_zip.
  pose proof (dict_get_combine_none string_keqb_eq gpu_query_columns
                (map PyStr.strip (PyStr.split "," line)) i k
                NoDup_gpu_query_columns Hk) as Hg.
  rewrite length_map in Hg. specialize (Hg Hl).
  induction (combine gpu_query_columns (map PyStr.strip (PyStr.split "," line)))
    as [|[k' v'] l IH]; simpl in *; [reflexivity|].
  destruct (keqb k k'); [discriminate|now apply IH].
Qed.

(** The constructor applied to the dictionary of a line: the loop result and
    the way the utilization is read. *)
Lemma GPUStat_init_line (line : string) :
  GPUStat_init (in_dict_of_line line)
  = let e := map (fun kv => (fst kv, normalised (snd kv))) (in_dict_of_line line) in
    u <- getitem e "utilization.gpu" ;;
    Ok (mkGPUStat
          match u with
          | VNone => dict_set "utilization.gpu" (VStr "??") e
          | VStr _ => e
          end []).
Proof.
  unfold GPUStat_init. rewrite normalise_keys; [reflexivity| |].
  - rewrite in_dict_of_line_keys.
    apply NoDup_keys_combine, NoDup_gpu_query_columns.
  - rewrite in_dict_of_line_zip. intros k v Hin.
    apply in_map_iff in Hin. destruct Hin as (kv & [= _ <-] & _). eauto.
Qed.

(** What the constructor makes of a line, by the number of its fields. *)
Lemma GPUStat_init_line_cases (line : string) :
  let fields := map PyStr.strip (PyStr.split "," line) in
  match GPUStat_init (in_dict_of_line line) with
  | Ok g =>
      (5 <= List.length fields)%nat /\
      processes g = [] /\
      forall i k f,
        nth_error gpu_query_columns i = Some k ->
        nth_error fields i = Some f ->
        dict_get k (entry g)
        = Some (if PyStr.contains NotSupported f
                then (if String.eqb k "utilization.gpu" then VStr "??" else VNone)
                else VStr f)
  | Raise e => (List.length fields < 5)%nat /\ e = KeyError "utilization.gpu"
  end.
Proof.
  intros fields. rewrite GPUStat_init_line. cbv zeta. unfold getitem.
  rewrite (dict_get_map normalised).
  destruct (Nat.lt_ge_cases (List.length fields) 5) as [Hlt|Hge].
  - rewrite (in_dict_of_line_get_none line 4); [simpl; auto|reflexivity|].
    unfold fields in Hlt. rewrite length_map in Hlt. lia.
  - destruct (nth_error fields 4) as [f4|] eqn:E4;
      [|apply nth_error_None in E4; lia].
    rewrite (in_dict_of_line_get line 4 _ f4 eq_refl E4).
    cbn [option_map bind normalised].
    assert (Hget : forall i k f,
               nth_error gpu_query_columns i = Some k ->
               nth_error fields i = Some f ->
               dict_get k (map (fun kv => (fst kv, normalised (snd kv)))
                               (in_dict_of_line line))
               = Some (if PyStr.contains NotSupported f then VNone else VStr f)).
    { intros i k f Hk Hf. rewrite (dict_get_map normalised).
      now rewrite (in_dict_of_line_get line i k f Hk Hf). }
    destruct (PyStr.contains NotSupported f4) eqn:Ec; cbn [entry processes];
      (split; [exact Hge|split; [reflexivity|]]); intros i k f Hk Hf.
    + destruct (String.eqb k "utilization.gpu") eqn:Ek.
      * apply String.eqb_eq in Ek. subst k.
        rewrite (dict_get_set_same string_keqb_eq).
        assert (i = 4%nat) as ->.
        { do 7 (destruct i as [|i]; try discriminate; try reflexivity).
          destruct i; discriminate. }
        rewrite E4 in Hf. injection Hf as <-. now rewrite Ec.
      * rewrite (dict_get_set_other string_keqb_eq).
        -- rewrite (Hget i k f Hk Hf). now destruct (PyStr.contains NotSupported f).
        -- intros <-. rewrite String.eqb_refl in Ek. discriminate.
    + rewrite (Hget i k f Hk Hf).
      destruct (PyStr.contains NotSupported f) eqn:Ef; [|reflexivity].
      destruct (String.eqb k "utilization.gpu") eqn:Ek; [|reflexivity].
      apply String.eqb_eq in Ek. subst k.
      assert (i = 4%nat) as ->.
      { do 7 (destruct i as [|i]; try discriminate; try reflexivity).
        destruct i; discriminate. }
      rewrite E4 in Hf. injection Hf as <-. congruence.
Qed.

Lemma parse_gpu_line_raise (e : exn) (line : string) :
  parse_gpu_line (Raise e) line = Raise e.
Proof. reflexivity. Qed.

(** The loop over the lines gives one record for each non-empty line, in
    the order of the lines. *)
Lemma parse_gpu_lines_ok (lines : list string) (acc gl : list GPUStat) :
  fold_left parse_gpu_line lines (Ok acc) = Ok gl ->
  exists gs, gl = (acc ++ gs)%list /\
    Forall2 (fun line g => GPUStat_init (in_dict_of_line line) = Ok g)
            (filter (fun l => negb (String.eqb l "")) lines) gs.
Proof.
  revert acc. induction lines as [|line lines IH]; intros acc Hf; simpl in *.
  - injection Hf as <-. exists []. rewrite app_nil_r. split; constructor.
  - destruct (String.eqb line "") eqn:El; simpl in *.
    + now apply IH.
    + destruct (GPUStat_init (in_dict_of_line line)) as [g|e] eqn:Eg; simpl in Hf.
      * apply IH in Hf. destruct Hf as (gs & -> & Hall).
        exists (g :: gs). rewrite <- app_assoc. split; [reflexivity|].
        now constructor.
      * rewrite fold_left_raise in Hf by apply parse_gpu_line_raise.
        discriminate.
Qed.

(** A line with fewer than five fields makes the whole loop fail. *)
Lemma parse_gpu_lines_short (lines : list string) (line : string) (acc : list GPUStat) :
  In line lines -> line <> "" ->
  (List.length (PyStr.split "," line) < 5)%nat ->
  fold_left parse_gpu_line lines (Ok acc) = Raise (KeyError "utilization.gpu").
Proof.
  intros Hin Hne Hlen. revert acc.
  induction lines as [|l0 lines IH]; intros acc; simpl; [destruct Hin|].
  destruct (String.eqb l0 "") eqn:El.
  - apply IH. destruct Hin as [->|Hin]; [|exact Hin].
    apply String.eqb_eq in El. contradiction.
  - pose proof (GPUStat_init_line_cases l0) as Hc. cbv zeta in Hc.
    destruct (GPUStat_init (in_dict_of_line l0)) as [g|e]; simpl.
    + apply IH. destruct Hin as [->|Hin]; [|exact Hin].
      destruct Hc as [Hc _]. rewrite length_map in Hc. lia.
    + destruct Hc as [_ ->].
      apply fold_left_raise, parse_gpu_line_raise.
Qed.

(** C7: in the record built from a device-query line, a field whose trimmed
    text contains the "Not Supported" marker is absent ([None]), except the
    utilization, which then holds the placeholder "??"; a field without the
    marker holds its trimmed text.  A record is built exactly when the line
    has at least five fields. *)
Theorem GPUStat_init_normalises (line : string) :
  let fields := map PyStr.strip (PyStr.split "," line) in
  match GPUStat_init (in_dict_of_line line) with
  | Ok g =>
      (5 <= List.length fields)%nat /\
      forall i k f,
        nth_error gpu_query_columns i = Some k ->
        nth_error fields i = Some f ->
        dict_get k (entry g)
        = Some (if PyStr.contains NotSupported f
                then (if String.eqb k "utilization.gpu" then VStr "??" else VNone)
                else VStr f)
  | Raise e => (List.length fields < 5)%nat
  end.
Proof.
  pose proof (GPUStat_init_line_cases line) as H. cbv zeta in *.
  destruct (GPUStat_init (in_dict_of_line line)); tauto.
Qed.

(** C10: a non-empty device-query line with fewer than five fields gives a
    field dictionary without the utilization key; the constructor raises
    [KeyError] on it, and nothing catches that error: the run ends with it. *)
Theorem short_line_raises (line : string) :
  line <> "" ->
  (List.length (PyStr.split "," line) < 5)%nat ->
  dict_get "utilization.gpu" (in_dict_of_line line) = None /\
  GPUStat_init (in_dict_of_line line) = Raise (KeyError "utilization.gpu") /\
  forall (w : world) (out : string) (a : cli_args),
    shell w gpu_command = Ok out ->
    In line (PyStr.split PyStr.nl (PyStr.strip out)) ->
    new_query w = Raise (KeyError "utilization.gpu") /\
    print_gpustat w a = Uncaught (KeyError "utilization.gpu").
Proof.
  intros Hne Hlen. split; [|split].
  - apply (in_dict_of_line_get_none line 4); [reflexivity|lia].
  - pose proof (GPUStat_init_line_cases line) as Hc. cbv zeta in Hc.
    destruct (GPUStat_init (in_dict_of_line line)) as [g|e].
    + destruct Hc as [Hc _]. rewrite length_map in Hc. lia.
    + now destruct Hc as [_ ->].
  - intros w out a Hout Hin.
    assert (Hq : new_query w = Raise (KeyError "utilization.gpu")).
    { unfold new_query, query_gpu_list, exec_command, parse_gpu_list, py_split.
      rewrite Hout. cbn [bind].
      now rewrite (parse_gpu_lines_short _ line). }
    split; [exact Hq|]. unfold print_gpustat. now rewrite Hq.
Qed.

Lemma short_line_raises_witness :
  Scenario.device_short <> "" /\
  print_gpustat (Scenario.idle Scenario.device_short) default_args
  = Uncaught (KeyError "utilization.gpu").
Proof.
  split; [discriminate|].
  refine (proj2 (proj2 (proj2 (short_line_raises Scenario.device_short _ _))
                   (Scenario.idle Scenario.device_short) Scenario.device_short
                   default_args _ _)).
  - discriminate.
  - vm_compute. lia.
  - reflexivity.
  - vm_compute. now left.
Defined.

(** An invariant of the successful turns of a loop holds at its end. *)
Lemma fold_left_ok_inv {A X} (I : A -> Prop)
    (f : result A -> X -> result A) (l : list X) :
  (forall e x, f (Raise e) x = Raise e) ->
  (forall a x a', I a -> f (Ok a) x = Ok a' -> I a') ->
  forall a a', I a -> fold_left f l (Ok a) = Ok a' -> I a'.
Proof.
  intros Hr Hs. induction l as [|x l IH]; simpl; intros a a' Ha Hf.
  - now injection Hf as <-.
  - destruct (f (Ok a) x) as [a1|e] eqn:E.
    + apply (IH a1 a'); [eapply Hs; eauto|exact Hf].
    + rewrite fold_left_raise in Hf by (intros; apply Hr). discriminate.
Qed.

(** ** The process entries *)

Lemma NoDup_process_query_columns : NoDup process_query_columns.
Proof.
  unfold process_query_columns.
  repeat (constructor; [simpl; intuition discriminate|]). constructor.
Qed.

Lemma process_entry_of_line_zip (line : string) :
  process_entry_of_line line
  = map (fun kv => (fst kv, VStr (snd kv)))
        (combine process_query_columns (map PyStr.strip (PyStr.split "," line))).
Proof.
  unfold process_entry_of_line. apply (dict_of_pairs_nodup string_keqb_eq).
  unfold dict_keys. rewrite map_map.
  exact (NoDup_keys_combine process_query_columns _ NoDup_process_query_columns).
Qed.

Lemma process_entry_of_line_get (line : string) (i : nat) (k f : string) :
  nth_error process_query_columns i = Some k ->
  nth_error (map PyStr.strip (PyStr.split "," line)) i = Some f ->
  dict_get k (process_entry_of_line line) = Some (VStr f).
Proof.
  intros Hk Hf. rewrite process_entry_of_line_zip.
  pose proof (dict_get_combine string_keqb_eq _ _ i k f
                NoDup_process_query_columns Hk Hf) as Hg.
  induction (combine process_query_columns
               (map PyStr.strip (PyStr.split "," line)))
    as [|[k' v'] l IH]; simpl in *; [discriminate|].
  destruct (keqb k k'); [now injection Hg as ->|now apply IH].
Qed.

(** The rows of the compute-process query: one entry for each non-empty
    line, in order. *)
Lemma parse_process_lines (lines : list string) (acc : list dict) :
  fold_left parse_process_line lines acc
  = (acc ++ map process_entry_of_line
              (filter (fun l => negb (String.eqb l "")) lines))%list.
Proof.
  revert acc. induction lines as [|line lines IH]; intros acc; simpl.
  - now rewrite app_nil_r.
  - rewrite IH. unfold parse_process_line.
    destruct (String.eqb line ""); simpl; [reflexivity|].
    now rewrite <- app_assoc.
Qed.

Lemma collect_entries_ok (w : world) (es : list dict) :
  collect_entries w = Ok es ->
  exists out, shell w process_command = Ok out /\
    es = map process_entry_of_line
           (filter (fun l => negb (String.eqb l ""))
                   (PyStr.split PyStr.nl (PyStr.strip out))).
Proof.
  unfold collect_entries, exec_command. intros H.
  destruct (shell w process_command) as [out|e]; [|discriminate].
  exists out. split; [reflexivity|]. cbn [bind py_split] in H.
  injection H as <-. now rewrite parse_process_lines.
Qed.

(** *** [pid_map] never holds [None] *)


Lemma dict_set_bound (pid : Z) (i : identity) (pid_map : pid_map_t) :
  bound_pids pid_map -> bound_pids (dict_set pid (Some i) pid_map).
Proof.
  unfold bound_pids. induction pid_map as [|[k v] pm IH]; simpl; intros Hb.
  - repeat constructor. discriminate.
  - inversion Hb; subst. destruct (keqb pid k); constructor; auto.
    simpl. discriminate.
Qed.

Lemma bound_pids_get (pid : Z) (pid_map : pid_map_t) :
  bound_pids pid_map -> dict_get pid pid_map <> Some None.
Proof.
  unfold bound_pids. induction pid_map as [|[k v] pm IH]; simpl; intros Hb.
  - discriminate.
  - inversion Hb; subst. destruct (keqb pid k); [simpl in *; congruence|auto].
Qed.

Lemma pid_map_add_bound (es : list dict) (pm : pid_map_t) :
  fold_left pid_map_add es (Ok []) = Ok pm -> bound_pids pm.
Proof.
  apply (fold_left_ok_inv bound_pids); [reflexivity| |constructor].
  intros a e a' Ha. unfold pid_map_add. cbn [bind].
  destruct (getitem e "pid") as [p|]; [|discriminate]. cbn [bind].
  destruct (not_supported_in p) as [[|]|]; cbn [bind]; try discriminate.
  - now intros [= <-].
  - destruct (py_int p); [|discriminate]. intros [= <-].
    now apply dict_set_bound.
Qed.

Lemma ps_stage_bound (w : world) (pm pm' : pid_map_t) :
  ps_stage w pm = Ok pm' -> bound_pids pm -> bound_pids pm'.
Proof.
  unfold ps_stage. destruct pm as [|b pm0]; [now intros [= <-]|].
  set (pm := b :: pm0). intros H Hb.
  destruct (exec_command w (ps_command pm) false) as [o|]; [|discriminate].
  cbn [bind] in H. destruct (py_split PyStr.nl o) as [lines|]; [|discriminate].
  cbn [bind] in H. revert Hb H.
  apply (fold_left_ok_inv bound_pids); [reflexivity|].
  clear. intros a line a' Ha. unfold ps_line. cbn [bind].
  destruct (String.eqb line "" || PyStr.contains "PID" line);
    [now intros [= <-]|].
  destruct (PyStr.split_ws line) as [|pid [|user [|comm [|? ?]]]];
    try discriminate.
  destruct (py_int (VStr pid)); [|discriminate]. cbn [bind]. intros [= <-].
  now apply dict_set_bound.
Qed.

Lemma update_user_bound (pid : Z) (f : string -> string) (pm : pid_map_t) :
  bound_pids pm -> bound_pids (fst (update_user pid f pm)).
Proof.
  intros Hb. unfold update_user.
  destruct (dict_get pid pm) as [[i|]|]; simpl; auto.
  now apply dict_set_bound.
Qed.

Lemma container_try_bound (w : world) (lxc docker : option string)
    (dinfo : option docker_info_t) (pm : pid_map_t) (pid : Z) :
  bound_pids pm -> bound_pids (container_try w lxc docker dinfo pm pid).
Proof.
  intros Hb. unfold container_try, container_lookup.
  destruct (shell w (cgroup_command pid)) as [out|]; [|exact Hb].
  destruct (map PyStr.strip (PyStr.split " " (PyStr.re_sub_ws (PyStr.strip out))))
    as [|x [|user [|cgroup [|? ?]]]]; try exact Hb.
  destruct (truthy lxc && PyStr.contains "lxc" cgroup);
    [now apply update_user_bound|].
  destruct (truthy docker && PyStr.contains "docker" cgroup); [|exact Hb].
  destruct dinfo as [d|]; [|exact Hb].
  destruct (dict_get (container_of_cgroup cgroup) d) as [[name c]|];
    now apply update_user_bound.
Qed.

Lemma container_stage_bound (w : world) (lxc docker : option string)
    (dinfo : option docker_info_t) (pm : pid_map_t) :
  bound_pids pm -> bound_pids (container_stage w lxc docker dinfo pm).
Proof.
  unfold container_stage. destruct (truthy lxc || truthy docker); [|auto].
  generalize (dict_keys pm). intros l. revert pm.
  induction l as [|pid l IH]; simpl; intros pm Hb; [exact Hb|].
  apply IH. now apply container_try_bound.
Qed.

(** *** The loop of step 3 *)

Lemma heap_set_length (h : list dict) (r : nat) (d : dict) :
  List.length (heap_set h r d) = List.length h.
Proof.
  revert r. induction h as [|x h IH]; intros [|r]; simpl; auto.
Qed.

Lemma heap_set_same (h : list dict) (r : nat) (d e : dict) :
  nth_error h r = Some e -> nth_error (heap_set h r d) r = Some d.
Proof.
  revert r. induction h as [|x h IH]; intros [|r]; simpl; auto; discriminate.
Qed.

Lemma heap_set_other (h : list dict) (r i : nat) (d : dict) :
  i <> r -> nth_error (heap_set h r d) i = nth_error h i.
Proof.
  revert r i. induction h as [|x h IH]; intros [|r] [|i] Hne; simpl; auto.
  congruence.
Qed.

(** One turn on an entry object: with a [pid_map] free of [None] the list
    is left as it is, and the object is updated in place. *)
Lemma add_process_info_turn (pm : pid_map_t) (st st' : entries_state) (r : nat) :
  bound_pids pm ->
  add_process_info pm (Ok st) r = Ok st' ->
  exists e e',
    nth_error (heap st) r = Some e /\
    st' = mkEntries (heap_set (heap st) r e') (refs st) /\
    (forall p, dict_get "pid" e = Some p -> not_supported_in p = Ok true ->
               e' = set_absent e).
Proof.
  intros Hb. unfold add_process_info, deref, getitem. cbn [bind].
  destruct (nth_error (heap st) r) as [e|]; [|discriminate]. cbn [bind].
  destruct (dict_get "pid" e) as [p|] eqn:Epid; [|discriminate]. cbn [bind].
  destruct (not_supported_in p) as [[|]|] eqn:Ep; cbn [bind]; try discriminate.
  - intros [= <-]. exists e, (set_absent e). auto.
  - destruct (py_int p) as [pid|]; [|discriminate]. cbn [bind].
    pose proof (bound_pids_get pid pm Hb) as Hn.
    destruct (dict_get pid pm) as [[i|]|]; try discriminate; [|congruence].
    intros [= <-]. exists e, (dict_update e i).
    split; [reflexivity|split; [reflexivity|]].
    intros p' Hp' Hs. rewrite Epid in Hp'. injection Hp' as <-. congruence.
Qed.

Lemma add_process_info_raise (pm : pid_map_t) (e : exn) (r : nat) :
  add_process_info pm (Raise e) r = Raise e.
Proof. reflexivity. Qed.

Lemma add_process_info_loop (pm : pid_map_t) (k a : nat) (h : list dict)
    (l : list nat) (st : entries_state) :
  bound_pids pm ->
  fold_left (add_process_info pm) (seq a k) (Ok (mkEntries h l)) = Ok st ->
  refs st = l /\
  List.length (heap st) = List.length h /\
  (forall i, (i < a \/ a + k <= i)%nat -> nth_error (heap st) i = nth_error h i) /\
  (forall i e p, (a <= i < a + k)%nat -> nth_error h i = Some e ->
                 dict_get "pid" e = Some p -> not_supported_in p = Ok true ->
                 nth_error (heap st) i = Some (set_absent e)).
Proof.
  intros Hb. revert a h.
  induction k as [|k IH]; intros a h Hf; cbn [seq fold_left] in Hf.
  - injection Hf as <-. simpl. repeat split; auto. intros; lia.
  - destruct (add_process_info pm (Ok (mkEntries h l)) a) as [st1|e1] eqn:E1.
    + destruct (add_process_info_turn pm _ _ _ Hb E1) as (e & e' & He & -> & Hm).
      cbn [heap refs] in *.
      apply IH in Hf. destruct Hf as (Hr & Hl & Hout & Hin).
      rewrite heap_set_length in Hl.
      repeat split; auto.
      * intros i Hi. rewrite Hout by lia. apply heap_set_other. lia.
      * intros i e0 p Hi He0 Hp Hs.
        destruct (Nat.eq_dec i a) as [->|Hne].
        -- rewrite Hout by lia. rewrite (heap_set_same _ _ _ e He).
           rewrite He in He0. injection He0 as <-. f_equal. eauto.
        -- apply (Hin i e0 p); auto; [lia|].
           rewrite heap_set_other by exact Hne. exact He0.
    + rewrite fold_left_raise in Hf by apply add_process_info_raise.
      discriminate.
Qed.

Lemma deref_all_seq (pre h : list dict) :
  deref_all (pre ++ h)%list (seq (List.length pre) (List.length h)) = Ok h.
Proof.
  revert pre. induction h as [|d h IH]; intros pre; simpl; [reflexivity|].
  unfold deref. rewrite nth_error_app2 by lia. rewrite Nat.sub_diag. simpl.
  specialize (IH (pre ++ [d])%list). rewrite <- app_assoc in IH. simpl in IH.
  rewrite length_app in IH. simpl in IH. rewrite Nat.add_1_r in IH.
  now rewrite IH.
Qed.

Lemma deref_all_heap (h : list dict) :
  deref_all h (seq 0 (List.length h)) = Ok h.
Proof. exact (deref_all_seq [] h). Qed.

(** What [running_processes] returns, when it returns: the entry objects of
    the rows, none removed, the rows of an unsupported pid emptied. *)
Lemma running_processes_ok (w : world) (es : list dict) :
  running_processes w = Ok es ->
  exists entries,
    collect_entries w = Ok entries /\
    List.length es = List.length entries /\
    forall i e p, nth_error entries i = Some e ->
                  dict_get "pid" e = Some p -> not_supported_in p = Ok true ->
                  nth_error es i = Some (set_absent e).
Proof.
  unfold running_processes. intros H.
  apply bind_ok in H. destruct H as (entries & Hc & H). exists entries.
  split; [exact Hc|].
  apply bind_ok in H. destruct H as (pm0 & Hpm0 & H).
  apply bind_ok in H. destruct H as (pm1 & Hpm1 & H).
  apply bind_ok in H. destruct H as (lxc & _ & H).
  apply bind_ok in H. destruct H as (docker & _ & H).
  apply bind_ok in H. destruct H as (dinfo & _ & H).
  apply bind_ok in H. destruct H as (st & Hst & H).
  assert (Hb : bound_pids (container_stage w lxc docker dinfo pm1)).
  { apply container_stage_bound. eapply ps_stage_bound; eauto.
    eapply pid_map_add_bound; eauto. }
  destruct (add_process_info_loop _ _ _ _ _ _ Hb Hst) as (Hr & Hl & _ & Hin).
  rewrite Hr, <- Hl in H.
  rewrite deref_all_heap in H. injection H as <-.
  split; [exact Hl|]. intros i e p He Hp Hs.
  apply (Hin i e p); auto. split; [lia|]. simpl.
  apply nth_error_Some. congruence.
Qed.

Lemma set_absent_fields (e : dict) :
  dict_get "pid" (set_absent e) = Some VNone /\
  dict_get "user" (set_absent e) = Some VNone /\
  dict_get "comm" (set_absent e) = Some VNone /\
  dict_get "used_memory" (set_absent e) = Some VNone.
Proof.
  unfold set_absent.
  repeat split;
    repeat first
      [ rewrite (dict_get_set_same string_keqb_eq)
      | rewrite (dict_get_set_other string_keqb_eq) by discriminate ];
    reflexivity.
Qed.

(** C6: a compute-process row whose pid field carries the marker yields an
    entry whose pid, user, command and used memory are all absent, and the
    entry is not dropped: the returned sequence has one entry for each row,
    the emptied one at the place of its row. *)
Theorem unsupported_pid_row_is_kept (w : world) (es : list dict) :
  running_processes w = Ok es ->
  exists out, shell w process_command = Ok out /\
    let rows := filter (fun l => negb (String.eqb l ""))
                       (PyStr.split PyStr.nl (PyStr.strip out)) in
    List.length es = List.length rows /\
    forall i row pid,
      nth_error rows i = Some row ->
      nth_error (map PyStr.strip (PyStr.split "," row)) 1 = Some pid ->
      PyStr.contains NotSupported pid = true ->
      exists e, nth_error es i = Some e /\
        dict_get "pid" e = Some VNone /\ dict_get "user" e = Some VNone /\
        dict_get "comm" e = Some VNone /\ dict_get "used_memory" e = Some VNone.
Proof.
  intros H. apply running_processes_ok in H.
  destruct H as (entries & Hc & Hl & Hm).
  apply collect_entries_ok in Hc. destruct Hc as (out & Hout & ->).
  exists out. split; [exact Hout|]. cbv zeta.
  rewrite length_map in Hl. split; [exact Hl|].
  intros i row pid Hrow Hpid Hmark.
  exists (set_absent (process_entry_of_line row)).
  split; [|apply set_absent_fields].
  apply (Hm i _ (VStr pid)).
  - rewrite nth_error_map, Hrow. reflexivity.
  - apply (process_entry_of_line_get row 1); [reflexivity|exact Hpid].
  - simpl. now rewrite Hmark.
Qed.

Lemma unsupported_pid_row_is_kept_witness :
  exists e, running_processes Scenario.hidden_process = Ok [e] /\
    dict_get "pid" e = Some VNone /\ dict_get "user" e = Some VNone /\
    dict_get "comm" e = Some VNone /\ dict_get "used_memory" e = Some VNone.
Proof.
  destruct (unsupported_pid_row_is_kept Scenario.hidden_process
              [set_absent (process_entry_of_line "GPU-aaa, Not Supported, Not Supported")]
              eq_refl) as (out & Hout & _ & Hrows).
  injection Hout as <-.
  destruct (Hrows 0%nat "GPU-aaa, Not Supported, Not Supported" "Not Supported"
              eq_refl eq_refl eq_refl) as (e & He & Hf).
  injection He as <-. eexists. split; [reflexivity|exact Hf].
Defined.

(** C2 (the code departs from the claim): pid 1234 has no line in the
    process listing, yet its entry is returned, with the default identity,
    and is attached to its device.  The branch that removes an entry tests
    [pid_map[pid] is None], and no pid is ever bound to [None]. *)
Theorem exited_pid_entry_is_kept :
  (exists out,
     shell Scenario.exited_process "ps -o pid,user:16,comm -p 1234,5678" = Ok out /\
     PyStr.contains "1234" out = false) /\
  running_processes Scenario.exited_process
  = Ok [[("gpu_uuid", VStr "GPU-aaa"); ("pid", VStr "1234");
         ("used_memory", VStr "256"); ("user", VStr "UNKNOWN");
         ("comm", VStr "")];
        [("gpu_uuid", VStr "GPU-aaa"); ("pid", VStr "5678");
         ("used_memory", VStr "100"); ("user", VStr "alice");
         ("comm", VStr "python")]] /\
  exists c g,
    new_query Scenario.exited_process = Ok c /\
    dict_get (VStr "GPU-aaa") (gpus c) = Some g /\
    map (dict_get "pid") (processes g) = [Some (VStr "1234"); Some (VStr "5678")].
Proof.
  split; [eexists; split; [reflexivity|vm_compute; reflexivity]|].
  split; [vm_compute; reflexivity|].
  eexists. eexists. split; [vm_compute; reflexivity|].
  split; vm_compute; reflexivity.
Qed.

(** C1 (the code departs from the claim): the handler of the failed lookup
    does not skip [g.add_process(p)].  A process of an unknown device is
    attached to the device of the process before it; when it comes first,
    [g] is unbound and the construction of the snapshot fails. *)
Theorem unknown_device_process_is_attached :
  (exists c g,
     new_query Scenario.unknown_device_second = Ok c /\
     gpus c = [(VStr "GPU-aaa", g)] /\
     map (dict_get "gpu_uuid") (processes g)
     = [Some (VStr "GPU-aaa"); Some (VStr "GPU-zzz")]) /\
  new_query Scenario.unknown_device_first = Raise UnboundLocalError /\
  print_gpustat Scenario.unknown_device_first default_args
  = Uncaught UnboundLocalError.
Proof.
  split; [|split; vm_compute; reflexivity].
  eexists. eexists. split; [vm_compute; reflexivity|].
  split; vm_compute; reflexivity.
Qed.

(** ** The devices of a snapshot *)

Lemma gpus_modify_fields (k : value) (p : dict) (d : gpus_t) :
  device_fields (gpus_modify k (fun g => add_process g p) d) = device_fields d.
Proof.
  induction d as [|[k' g] d IH]; simpl; [reflexivity|].
  destruct (keqb k k'); simpl; [reflexivity|now rewrite IH].
Qed.

(** Attaching processes changes no key and no field of a device. *)
Lemma attach_processes_fields (ps : list dict) (st st' : attach_state) :
  fold_left attach_process ps (Ok st) = Ok st' ->
  device_fields (att_gpus st') = device_fields (att_gpus st).
Proof.
  apply (fold_left_ok_inv
           (fun a => device_fields (att_gpus a) = device_fields (att_gpus st)));
    [reflexivity| |reflexivity].
  intros a p a' Ha H. unfold attach_process in H. cbn [bind] in H.
  apply bind_ok in H. destruct H as (g & _ & H).
  destruct g as [k|]; [|discriminate]. injection H as <-. simpl.
  now rewrite gpus_modify_fields.
Qed.

(** The devices of a snapshot are the records of the device query,
    registered in the order of the query. *)
Lemma new_query_devices (w : world) (c : GPUStatCollection) :
  new_query w = Ok c ->
  exists gl d,
    query_gpu_list w = Ok gl /\
    fold_left register_gpu gl (Ok []) = Ok d /\
    device_fields (gpus c) = device_fields d.
Proof.
  unfold new_query. intros H.
  apply bind_ok in H. destruct H as (gl & Hgl & H).
  unfold GPUStatCollection_init in H.
  apply bind_ok in H. destruct H as (d & Hd & H).
  apply bind_ok in H. destruct H as (d' & Hd' & [= <-]).
  unfold update_process_information in Hd'.
  apply bind_ok in Hd'. destruct Hd' as (ps & _ & Hd').
  apply bind_ok in Hd'. destruct Hd' as (st & Hst & [= <-]).
  exists gl, d. split; [exact Hgl|]. split; [exact Hd|].
  apply attach_processes_fields in Hst. exact Hst.
Qed.

(** C9: the device records depend on the text of the device query alone.
    Two runs that read the same text build the same sequence of records,
    which holds the record of each non-empty line in the order of the lines;
    and the snapshots of the two runs list the same devices with the same
    fields in the same order, whatever processes each run attaches. *)
Theorem device_parsing_deterministic (w1 w2 : world) :
  shell w1 gpu_command = shell w2 gpu_command ->
  query_gpu_list w1 = query_gpu_list w2 /\
  (forall gl, query_gpu_list w1 = Ok gl ->
     exists out, shell w1 gpu_command = Ok out /\
       Forall2 (fun line g => GPUStat_init (in_dict_of_line line) = Ok g)
               (filter (fun l => negb (String.eqb l ""))
                       (PyStr.split PyStr.nl (PyStr.strip out)))
               gl) /\
  (forall c1 c2, new_query w1 = Ok c1 -> new_query w2 = Ok c2 ->
     device_fields (gpus c1) = device_fields (gpus c2)).
Proof.
  intros Heq.
  assert (Hq : query_gpu_list w1 = query_gpu_list w2)
    by (unfold query_gpu_list, exec_command; now rewrite Heq).
  split; [exact Hq|]. split.
  - intros gl Hgl. unfold query_gpu_list, exec_command in Hgl.
    destruct (shell w1 gpu_command) as [out|e]; [|discriminate].
    exists out. split; [reflexivity|].
    unfold parse_gpu_list, py_split in Hgl. cbn [bind] in Hgl.
    apply parse_gpu_lines_ok in Hgl. now destruct Hgl as (gs & -> & Hall).
  - intros c1 c2 H1 H2.
    apply new_query_devices in H1. destruct H1 as (gl1 & d1 & Hg1 & Hd1 & ->).
    apply new_query_devices in H2. destruct H2 as (gl2 & d2 & Hg2 & Hd2 & ->).
    rewrite Hq, Hg2 in Hg1. injection Hg1 as <-.
    rewrite Hd2 in Hd1. now injection Hd1 as <-.
Qed.

Lemma device_parsing_deterministic_witness :
  query_gpu_list (Scenario.idle Scenario.device_A)
  = query_gpu_list Scenario.exited_process /\
  exists c1 c2,
    new_query (Scenario.idle Scenario.device_A) = Ok c1 /\
    new_query Scenario.exited_process = Ok c2 /\
    map (fun kg => List.length (processes (snd kg))) (gpus c1) = [0%nat] /\
    map (fun kg => List.length (processes (snd kg))) (gpus c2) = [2%nat] /\
    device_fields (gpus c1) = device_fields (gpus c2).
Proof.
  destruct (device_parsing_deterministic
              (Scenario.idle Scenario.device_A) Scenario.exited_process eq_refl)
    as (Hq & _ & Hc).
  split; [exact Hq|].
  destruct (new_query (Scenario.idle Scenario.device_A)) as [c1|] eqn:E1;
    [|vm_compute in E1; discriminate].
  destruct (new_query Scenario.exited_process) as [c2|] eqn:E2;
    [|vm_compute in E2; discriminate].
  exists c1, c2. split; [reflexivity|]. split; [reflexivity|].
  split; [|split; [|exact (Hc c1 c2 eq_refl eq_refl)]].
  - vm_compute in E1. injection E1 as <-. reflexivity.
  - vm_compute in E2. injection E2 as <-. reflexivity.
Defined.

(** ** Container identity *)

Lemma update_user_other (pid q : Z) (f : string -> string) (pm : pid_map_t) :
  q <> pid -> dict_get q (fst (update_user pid f pm)) = dict_get q pm.
Proof.
  intros Hne. unfold update_user.
  destruct (dict_get pid pm) as [[i|]|]; simpl; auto.
  apply (dict_get_set_other Z_keqb_eq). congruence.
Qed.

Lemma update_user_same (pid : Z) (f : string -> string) (pm : pid_map_t) :
  dict_get pid (fst (update_user pid f pm))
  = option_map (option_map (fun i => mkIdentity (f (ident_user i)) (ident_comm i)))
               (dict_get pid pm).
Proof.
  unfold update_user.
  destruct (dict_get pid pm) as [[i|]|] eqn:E; simpl; rewrite ?E; auto.
  apply (dict_get_set_same Z_keqb_eq).
Qed.

Lemma update_user_keys (pid : Z) (f : string -> string) (pm : pid_map_t) :
  dict_keys (fst (update_user pid f pm)) = dict_keys pm.
Proof.
  unfold update_user.
  destruct (dict_get pid pm) as [[i|]|] eqn:E; simpl; auto.
  rewrite (dict_keys_set), E. reflexivity.
Qed.

(** The effect of one lookup, whatever it is, is an update of the user of
    its own pid. *)
Lemma container_try_cases (w : world) (lxc docker : option string)
    (dinfo : option docker_info_t) (pid : Z) :
  (forall pm, container_try w lxc docker dinfo pm pid = pm) \/
  exists f, forall pm,
    container_try w lxc docker dinfo pm pid = fst (update_user pid f pm).
Proof.
  unfold container_try, container_lookup.
  destruct (shell w (cgroup_command pid)) as [out|]; [|now left].
  destruct (map PyStr.strip (PyStr.split " " (PyStr.re_sub_ws (PyStr.strip out))))
    as [|x [|user [|cgroup [|? ?]]]]; try (now left).
  destruct (truthy lxc && PyStr.contains "lxc" cgroup); [right; eauto|].
  destruct (truthy docker && PyStr.contains "docker" cgroup); [|now left].
  destruct dinfo as [d|]; [|now left].
  destruct (dict_get (container_of_cgroup cgroup) d) as [[name c]|];
    right; eauto.
Qed.

Lemma container_try_other (w : world) (lxc docker : option string)
    (dinfo : option docker_info_t) (pm : pid_map_t) (pid q : Z) :
  q <> pid ->
  dict_get q (container_try w lxc docker dinfo pm pid) = dict_get q pm.
Proof.
  intros Hne.
  destruct (container_try_cases w lxc docker dinfo pid) as [H|[f H]];
    rewrite H; [reflexivity|now apply update_user_other].
Qed.

Lemma container_try_same (w : world) (lxc docker : option string)
    (dinfo : option docker_info_t) (pm pm' : pid_map_t) (pid : Z) :
  dict_get pid pm = dict_get pid pm' ->
  dict_get pid (container_try w lxc docker dinfo pm pid)
  = dict_get pid (container_try w lxc docker dinfo pm' pid).
Proof.
  intros Heq.
  destruct (container_try_cases w lxc docker dinfo pid) as [H|[f H]];
    rewrite !H; [exact Heq|]. rewrite !update_user_same. now rewrite Heq.
Qed.

(** A failed lookup leaves [pid_map] as it was. *)
Lemma container_try_fails (w : world) (lxc docker : option string)
    (dinfo : option docker_info_t) (pm : pid_map_t) (pid : Z) :
  lookup_fails w pid -> container_try w lxc docker dinfo pm pid = pm.
Proof.
  unfold lookup_fails, container_try, container_lookup.
  destruct (shell w (cgroup_command pid)) as [out|]; [|reflexivity].
  intros Hlen.
  assert (Hm : List.length (map PyStr.strip
                 (PyStr.split " " (PyStr.re_sub_ws (PyStr.strip out)))) <> 3%nat)
    by now rewrite length_map.
  destruct (map PyStr.strip (PyStr.split " " (PyStr.re_sub_ws (PyStr.strip out))))
    as [|x [|user [|cgroup [|? ?]]]]; try reflexivity.
  simpl in Hm. congruence.
Qed.

(** The loop over the pids gives each pid the outcome of its own lookup. *)
Lemma container_loop_get (w : world) (lxc docker : option string)
    (dinfo : option docker_info_t) (l : list Z) (pm : pid_map_t) (q : Z) :
  NoDup l ->
  dict_get q (fold_left (container_try w lxc docker dinfo) l pm)
  = if in_dec Z.eq_dec q l
    then dict_get q (container_try w lxc docker dinfo pm q)
    else dict_get q pm.
Proof.
  intros Hnd. revert pm. induction Hnd as [|k l Hni Hnd IH]; intros pm.
  - reflexivity.
  - cbn [fold_left]. rewrite IH.
    destruct (in_dec Z.eq_dec q (k :: l)) as [Hin|Hout];
      destruct (in_dec Z.eq_dec q l) as [Hin'|Hout'].
    + assert (q <> k) by (intros ->; contradiction).
      apply container_try_same. now apply container_try_other.
    + destruct Hin as [<-|Hin]; [reflexivity|contradiction].
    + exfalso. apply Hout. now right.
    + apply container_try_other. intros ->. apply Hout. now left.
Qed.

(** C5: when the control-group lookup of a pid fails (the command raises,
    or its output has not the three expected fields), the identity of that
    pid is left as it was and nothing is raised; the loop goes on, and every
    pid ends with the outcome of its own lookup. *)
Theorem cgroup_failure_is_isolated (w : world) (lxc docker : option string)
    (dinfo : option docker_info_t) (pm : pid_map_t) (pid : Z) :
  NoDup (dict_keys pm) ->
  lookup_fails w pid ->
  container_try w lxc docker dinfo pm pid = pm /\
  dict_get pid (container_stage w lxc docker dinfo pm) = dict_get pid pm /\
  forall q,
    dict_get q (container_stage w lxc docker dinfo pm)
    = dict_get q (container_try w lxc docker dinfo pm q).
Proof.
  intros Hnd Hfail.
  assert (Hall : forall q,
             dict_get q (container_stage w lxc docker dinfo pm)
             = dict_get q (container_try w lxc docker dinfo pm q)).
  { intros q. unfold container_stage.
    destruct (truthy lxc || truthy docker) eqn:Et.
    - rewrite container_loop_get by exact Hnd.
      destruct (in_dec Z.eq_dec q (dict_keys pm)) as [_|Hout]; [reflexivity|].
      apply (dict_get_none Z_keqb_eq) in Hout.
      destruct (container_try_cases w lxc docker dinfo q) as [H|[f H]];
        rewrite H; [reflexivity|].
      rewrite update_user_same, Hout. reflexivity.
    - apply orb_false_iff in Et. destruct Et as [El Ed].
      unfold container_try, container_lookup. rewrite El, Ed. simpl.
      destruct (shell w (cgroup_command q)) as [out|]; [|reflexivity].
      now destruct (map PyStr.strip (PyStr.split " " (PyStr.re_sub_ws (PyStr.strip out))))
        as [|x [|user [|cgroup [|? ?]]]]. }
  split; [now apply container_try_fails|]. split; [|exact Hall].
  rewrite Hall. now rewrite container_try_fails.
Qed.

Lemma cgroup_failure_is_isolated_witness :
  let stage := container_stage Scenario.containers (Some "3.0.3")
                 (Some "Docker version 24.0.5, build ced0996")
                 (Some [("abc", ("web", "nginx -g daemon"))]) Scenario.two_pids in
  dict_get 1234%Z stage = Some (Some (mkIdentity "bob" "bash")) /\
  dict_get 5678%Z stage = Some (Some (mkIdentity "web" "python")).
Proof.
  cbv zeta.
  destruct (cgroup_failure_is_isolated Scenario.containers (Some "3.0.3")
              (Some "Docker version 24.0.5, build ced0996")
              (Some [("abc", ("web", "nginx -g daemon"))]) Scenario.two_pids 1234%Z)
    as (_ & Hpid & Hall).
  - repeat constructor; simpl; intuition discriminate.
  - exact I.
  - split; [rewrite Hpid; reflexivity|]. rewrite Hall. reflexivity.
Defined.

(** ** Which failures end the run *)

Ltac no_cpe :=
  repeat match goal with
    | H : bind ?r _ = Raise _ |- _ =>
        apply bind_raise in H; destruct H as [H|(? & ? & H)]
    | H : Ok _ = Raise _ |- _ => discriminate H
    | H : Raise _ = Raise _ |- _ => injection H as H
    | H : getitem _ _ = Raise _ |- _ =>
        unfold getitem in H
    | H : match ?x with _ => _ end = Raise _ |- _ =>
        first [progress cbv beta iota in H | destruct x eqn:?]
    end;
  try congruence.

Lemma parse_gpu_list_no_cpe (smi : option string) (e : exn) :
  parse_gpu_list smi = Raise e -> e <> CalledProcessError.
Proof.
  unfold parse_gpu_list. intros H.
  apply bind_raise in H. destruct H as [H|(lines & _ & H)].
  - destruct smi; simpl in H; [discriminate|]. injection H as <-. discriminate.
  - revert H. apply (fold_left_raises (fun e => e <> CalledProcessError));
      [reflexivity|].
    intros a line e'. unfold parse_gpu_line. cbn [bind].
    destruct (String.eqb line ""); [discriminate|].
    pose proof (GPUStat_init_line_cases line) as Hc. cbv zeta in Hc.
    destruct (GPUStat_init (in_dict_of_line line)); cbn [bind]; [discriminate|].
    destruct Hc as [_ ->]. intros [= <-]. discriminate.
Qed.

Lemma register_gpu_no_cpe (gl : list GPUStat) (d : gpus_t) (e : exn) :
  fold_left register_gpu gl (Ok d) = Raise e -> e <> CalledProcessError.
Proof.
  apply (fold_left_raises (fun e => e <> CalledProcessError)); [reflexivity|].
  intros a g e' H. unfold register_gpu, uuid in H. cbn [bind] in H. no_cpe.
Qed.

Lemma attach_process_no_cpe (ps : list dict) (st : attach_state) (e : exn) :
  fold_left attach_process ps (Ok st) = Raise e -> e <> CalledProcessError.
Proof.
  apply (fold_left_raises (fun e => e <> CalledProcessError)); [reflexivity|].
  intros a p e' H. unfold attach_process, gpus_getitem in H. cbn [bind] in H.
  no_cpe.
Qed.

Lemma pid_map_add_no_cpe (es : list dict) (pm : pid_map_t) (e : exn) :
  fold_left pid_map_add es (Ok pm) = Raise e -> e <> CalledProcessError.
Proof.
  apply (fold_left_raises (fun e => e <> CalledProcessError)); [reflexivity|].
  intros a p e' H. unfold pid_map_add, not_supported_in, py_int in H.
  cbn [bind] in H. no_cpe.
Qed.

Lemma ps_lines_no_cpe (lines : list string) (pm : pid_map_t) (e : exn) :
  fold_left ps_line lines (Ok pm) = Raise e -> e <> CalledProcessError.
Proof.
  apply (fold_left_raises (fun e => e <> CalledProcessError)); [reflexivity|].
  intros a p e' H. unfold ps_line, py_int in H. cbn [bind] in H. no_cpe.
Qed.

Lemma docker_items_no_cpe (items : list string) (d : docker_info_t) (e : exn) :
  fold_left docker_item items (Ok d) = Raise e -> e <> CalledProcessError.
Proof.
  apply (fold_left_raises (fun e => e <> CalledProcessError)); [reflexivity|].
  intros a p e' H. unfold docker_item in H. cbn [bind] in H. no_cpe.
Qed.

Lemma add_process_info_no_cpe (pm : pid_map_t) (l : list nat)
    (st : entries_state) (e : exn) :
  fold_left (add_process_info pm) l (Ok st) = Raise e -> e <> CalledProcessError.
Proof.
  apply (fold_left_raises (fun e => e <> CalledProcessError)); [reflexivity|].
  intros a p e' H.
  unfold add_process_info, deref, not_supported_in, py_int in H.
  cbn [bind] in H. no_cpe.
Qed.

Lemma deref_all_no_cpe (h : list dict) (l : list nat) (e : exn) :
  deref_all h l = Raise e -> e <> CalledProcessError.
Proof.
  induction l as [|r l IH]; simpl; [discriminate|]. unfold deref.
  destruct (nth_error h r); cbn [bind]; [|intros [= <-]; discriminate].
  destruct (deref_all h l); cbn [bind]; [discriminate|].
  intros [= <-]. now apply IH.
Qed.

Lemma exec_command_raise (w : world) (cmd : string) (e : exn) :
  exec_command w cmd false = Raise e -> shell w cmd = Raise e.
Proof.
  unfold exec_command.
  destruct (shell w cmd); [discriminate|intros [= ->]; reflexivity].
Qed.

(** A command run with [ignore_exceptions] never raises. *)
Lemma exec_command_ignore (w : world) (cmd : string) :
  exists v, exec_command w cmd true = Ok v /\
            (forall out, shell w cmd = Ok out -> v = Some (PyStr.strip out)).
Proof.
  unfold exec_command. destruct (shell w cmd) as [out|e]; eexists; split;
    try reflexivity; intros out' [= <-]; reflexivity.
Qed.

(** The commands run without [ignore_exceptions] in [running_processes]. *)
Lemma running_processes_cpe (w : world) :
  running_processes w = Raise CalledProcessError ->
  shell w process_command = Raise CalledProcessError \/
  (exists pm, shell w (ps_command pm) = Raise CalledProcessError) \/
  (exists v, shell w "docker --version" = Ok v /\
             shell w docker_ps_command = Raise CalledProcessError).
Proof.
  unfold running_processes. intros H.
  apply bind_raise in H. destruct H as [H|(es & _ & H)].
  { left. unfold collect_entries in H.
    apply bind_raise in H. destruct H as [H|(o & _ & H)];
      [now apply exec_command_raise|].
    destruct o; discriminate. }
  apply bind_raise in H. destruct H as [H|(pm0 & _ & H)];
    [now apply pid_map_add_no_cpe in H|].
  apply bind_raise in H. destruct H as [H|(pm1 & _ & H)].
  { right. left. unfold ps_stage in H. destruct pm0 as [|b pm0]; [discriminate|].
    apply bind_raise in H. destruct H as [H|(o & _ & H)];
      [eexists; apply exec_command_raise; exact H|].
    apply bind_raise in H. destruct H as [H|(lines & _ & H)];
      [destruct o; discriminate|].
    now apply ps_lines_no_cpe in H. }
  apply bind_raise in H. destruct H as [H|(lxc & _ & H)].
  { unfold exec_command in H. destruct (shell w "lxc-info --version"); discriminate. }
  apply bind_raise in H. destruct H as [H|(docker & Hd & H)].
  { unfold exec_command in H. destruct (shell w "docker --version"); discriminate. }
  apply bind_raise in H. destruct H as [H|(dinfo & _ & H)].
  { right. right. unfold docker_stage in H.
    destruct (truthy docker) eqn:Et; [|discriminate].
    unfold exec_command in Hd.
    destruct (shell w "docker --version") as [v|] eqn:Ev;
      [|injection Hd as <-; discriminate].
    exists v. split; [reflexivity|].
    apply bind_raise in H. destruct H as [H|(o & _ & H)];
      [now apply exec_command_raise|].
    apply bind_raise in H. destruct H as [H|(items & _ & H)];
      [destruct o; discriminate|].
    apply bind_raise in H. destruct H as [H|(d & _ & H)]; [|discriminate].
    now apply docker_items_no_cpe in H. }
  apply bind_raise in H. destruct H as [H|(st & _ & H)];
    [now apply add_process_info_no_cpe in H|].
  now apply deref_all_no_cpe in H.
Qed.

Lemma new_query_cpe (w : world) :
  new_query w = Raise CalledProcessError ->
  shell w gpu_command = Raise CalledProcessError \/
  shell w process_command = Raise CalledProcessError \/
  (exists pm, shell w (ps_command pm) = Raise CalledProcessError) \/
  (exists v, shell w "docker --version" = Ok v /\
             shell w docker_ps_command = Raise CalledProcessError).
Proof.
  unfold new_query. intros H.
  apply bind_raise in H. destruct H as [H|(gl & _ & H)].
  { left. unfold query_gpu_list in H.
    apply bind_raise in H. destruct H as [H|(o & _ & H)];
      [now apply exec_command_raise|].
    now apply parse_gpu_list_no_cpe in H. }
  right. unfold GPUStatCollection_init in H.
  apply bind_raise in H. destruct H as [H|(d & _ & H)];
    [now apply register_gpu_no_cpe in H|].
  apply bind_raise in H. destruct H as [H|(d' & _ & H)]; [|discriminate].
  unfold update_process_information in H.
  apply bind_raise in H. destruct H as [H|(ps & _ & H)];
    [now apply running_processes_cpe|].
  apply bind_raise in H. destruct H as [H|(st & _ & H)]; [|discriminate].
  now apply attach_process_no_cpe in H.
Qed.

(** Every record of the device query has a [uuid] field. *)
Lemma parsed_gpu_has_uuid (line : string) (g : GPUStat) :
  GPUStat_init (in_dict_of_line line) = Ok g -> exists u, uuid g = Ok u.
Proof.
  intros Hg. pose proof (GPUStat_init_line_cases line) as Hc. cbv zeta in Hc.
  rewrite Hg in Hc. destruct Hc as (Hlen & _ & Hget).
  destruct (nth_error (map PyStr.strip (PyStr.split "," line)) 1) as [f|] eqn:Ef;
    [|apply nth_error_None in Ef; lia].
  unfold uuid, getitem. rewrite (Hget 1%nat "uuid" f eq_refl Ef). eauto.
Qed.

Lemma register_gpus_ok (gl : list GPUStat) (d : gpus_t) :
  Forall (fun g => exists u, uuid g = Ok u) gl ->
  exists d', fold_left register_gpu gl (Ok d) = Ok d'.
Proof.
  intros Hall. revert d. induction Hall as [|g gl [u Hu] _ IH]; intros d; simpl.
  - eauto.
  - rewrite Hu. cbn [bind]. apply IH.
Qed.

(** Once the device query has given its records, a failure of
    [running_processes] is the failure of [new_query]. *)
Lemma new_query_running_processes (w : world) (gl : list GPUStat) (e : exn) :
  query_gpu_list w = Ok gl ->
  running_processes w = Raise e ->
  new_query w = Raise e.
Proof.
  intros Hq Hr. unfold new_query. rewrite Hq. cbn [bind].
  unfold GPUStatCollection_init.
  assert (Hu : Forall (fun g => exists u, uuid g = Ok u) gl).
  { unfold query_gpu_list in Hq. apply bind_ok in Hq.
    destruct Hq as (smi & _ & Hq). unfold parse_gpu_list in Hq.
    apply bind_ok in Hq. destruct Hq as (lines & _ & Hq).
    apply parse_gpu_lines_ok in Hq. destruct Hq as (gs & -> & Hall).
    simpl. clear -Hall. induction Hall as [|line g ls gs Hg _ IH]; constructor.
    - now apply parsed_gpu_has_uuid in Hg.
    - exact IH. }
  destruct (register_gpus_ok gl [] Hu) as [d Hd].
  unfold gpus_t in *. rewrite Hd. cbn [bind]. unfold update_process_information.
  now rewrite Hr.
Qed.

Lemma print_gpustat_cpe (w : world) (a : cli_args) :
  new_query w = Raise CalledProcessError ->
  print_gpustat w a = Exit 1 nvidia_smi_error.
Proof. intros H. unfold print_gpustat. now rewrite H. Qed.

Lemma print_gpustat_exit (w : world) (a : cli_args) (code : Z) (msg : string) :
  print_gpustat w a = Exit code msg ->
  code = 1%Z /\ msg = nvidia_smi_error /\ new_query w = Raise CalledProcessError.
Proof.
  unfold print_gpustat. destruct (new_query w) as [c|e].
  - destruct (print_formatted _ _ _ _ _ _); discriminate.
  - destruct e; try discriminate. intros [= <- <-]. auto.
Qed.

Lemma ps_stage_failure (w : world) (pm : pid_map_t) (e : exn) :
  pm <> [] -> shell w (ps_command pm) = Raise e -> ps_stage w pm = Raise e.
Proof.
  intros Hne Hs. unfold ps_stage, exec_command.
  destruct pm; [contradiction|]. now rewrite Hs.
Qed.

Lemma docker_stage_failure (w : world) (v : string) (e : exn) :
  PyStr.strip v <> "" ->
  shell w docker_ps_command = Raise e ->
  docker_stage w (Some (PyStr.strip v)) = Raise e.
Proof.
  intros Hv Hs. unfold docker_stage, truthy, exec_command.
  destruct (String.eqb (PyStr.strip v) "") eqn:E;
    [apply String.eqb_eq in E; contradiction|].
  simpl. now rewrite Hs.
Qed.

(** The run of a world where docker answers its version probe and fails to
    list its containers. *)
Lemma docker_listing_fails_run :
  query_gpu_list Scenario.docker_listing_fails = Ok [Scenario.gpu_A] /\
  shell Scenario.docker_listing_fails docker_ps_command = Raise CalledProcessError /\
  print_gpustat Scenario.docker_listing_fails default_args
  = Exit 1 nvidia_smi_error.
Proof. repeat split; vm_compute; reflexivity. Qed.

(** C4 as the claim states it fails: a run can end in the exit of the
    handler although the device query succeeded, here because the docker
    listing command failed. *)
Lemma only_device_query_fatal_fails :
  ~ (forall (w : world) (a : cli_args) (code : Z) (msg : string),
        print_gpustat w a = Exit code msg ->
        exists e, shell w gpu_command = Raise e).
Proof.
  intros H.
  destruct docker_listing_fails_run as (_ & _ & Hrun).
  destruct (H _ _ _ _ Hrun) as [e He]. vm_compute in He. discriminate.
Qed.

(** C4, amended: the failure of a command run without [ignore_exceptions]
    ends the run with exit code 1 and the message of the handler: the device
    query, the compute-process query, the process listing, and the docker
    listing once docker is detected.  The run ends that way in no other
    case: the failures of the version probes and of the control-group
    lookups are absorbed. *)
Theorem fatal_command_failures (w : world) (a : cli_args) :
  (shell w gpu_command = Raise CalledProcessError ->
   print_gpustat w a = Exit 1 nvidia_smi_error) /\
  (forall gl,
     query_gpu_list w = Ok gl ->
     shell w process_command = Raise CalledProcessError ->
     print_gpustat w a = Exit 1 nvidia_smi_error) /\
  (forall gl es pm,
     query_gpu_list w = Ok gl ->
     collect_entries w = Ok es ->
     fold_left pid_map_add es (Ok []) = Ok pm ->
     pm <> [] ->
     shell w (ps_command pm) = Raise CalledProcessError ->
     print_gpustat w a = Exit 1 nvidia_smi_error) /\
  (forall gl es pm pm' v,
     query_gpu_list w = Ok gl ->
     collect_entries w = Ok es ->
     fold_left pid_map_add es (Ok []) = Ok pm ->
     ps_stage w pm = Ok pm' ->
     shell w "docker --version" = Ok v ->
     PyStr.strip v <> "" ->
     shell w docker_ps_command = Raise CalledProcessError ->
     print_gpustat w a = Exit 1 nvidia_smi_error) /\
  (forall code msg,
     print_gpustat w a = Exit code msg ->
     code = 1%Z /\ msg = nvidia_smi_error /\
     (shell w gpu_command = Raise CalledProcessError \/
      shell w process_command = Raise CalledProcessError \/
      (exists pm, shell w (ps_command pm) = Raise CalledProcessError) \/
      (exists v, shell w "docker --version" = Ok v /\
                 shell w docker_ps_command = Raise CalledProcessError))).
Proof.
  repeat split.
  - intros Hs. apply print_gpustat_cpe.
    unfold new_query, query_gpu_list, exec_command. now rewrite Hs.
  - intros gl Hq Hs. apply print_gpustat_cpe.
    apply (new_query_running_processes w gl); [exact Hq|].
    unfold running_processes, collect_entries, exec_command. now rewrite Hs.
  - intros gl es pm Hq Hes Hpm Hne Hs. apply print_gpustat_cpe.
    apply (new_query_running_processes w gl); [exact Hq|].
    unfold running_processes. rewrite Hes. cbn [bind]. rewrite Hpm. cbn [bind].
    now rewrite (ps_stage_failure w pm CalledProcessError).
  - intros gl es pm pm' v Hq Hes Hpm Hps Hv Hne Hs. apply print_gpustat_cpe.
    apply (new_query_running_processes w gl); [exact Hq|].
    unfold running_processes. rewrite Hes. cbn [bind]. rewrite Hpm. cbn [bind].
    rewrite Hps. cbn [bind].
    destruct (exec_command_ignore w "lxc-info --version") as (lxc & -> & _).
    cbn [bind].
    destruct (exec_command_ignore w "docker --version") as (docker & -> & Hd).
    cbn [bind]. rewrite (Hd v Hv).
    now rewrite (docker_stage_failure w v CalledProcessError).
  - now apply print_gpustat_exit in H.
  - now apply print_gpustat_exit in H.
  - apply print_gpustat_exit in H. destruct H as (_ & _ & H).
    now apply new_query_cpe.
Qed.

Lemma fatal_command_failures_witness :
  print_gpustat Scenario.docker_listing_fails default_args
  = Exit 1 nvidia_smi_error.
Proof.
  refine (proj1 (proj2 (proj2 (proj2
            (fatal_command_failures Scenario.docker_listing_fails default_args))))
            [Scenario.gpu_A] [] [] [] "Docker version 24.0.5, build ced0996"
            _ _ _ _ _ _ _).
  - vm_compute; reflexivity.
  - vm_compute; reflexivity.
  - reflexivity.
  - reflexivity.
  - reflexivity.
  - vm_compute. discriminate.
  - reflexivity.
Defined.

(** ** Facts on strings and on the [%] operator *)

Lemma str_app_assoc (a b c : string) : (a ++ b) ++ c = a ++ (b ++ c).
Proof. induction a as [|x a IH]; simpl; [reflexivity|now rewrite IH]. Qed.

Lemma str_app_nil_r (a : string) : a ++ "" = a.
Proof. induction a as [|x a IH]; simpl; [reflexivity|now rewrite IH]. Qed.

Lemma length_snoc (s : string) (c : ascii) :
  String.length (snoc s c) = S (String.length s).
Proof. unfold snoc. induction s as [|x s IH]; simpl; [reflexivity|now rewrite IH]. Qed.

(** ["%" in s] looks at the characters one by one. *)
Lemma contains_pct_cons (c : ascii) (s : string) :
  PyStr.contains "%" (String c s) = Ascii.eqb c "%" || PyStr.contains "%" s.
Proof.
  cbn [PyStr.contains prefix]. destruct (ascii_dec "%" c) as [<-|Hne].
  - now destruct s.
  - replace (Ascii.eqb c "%") with false
      by (symmetry; apply Ascii.eqb_neq; congruence).
    reflexivity.
Qed.

Lemma contains_pct_app (a b : string) :
  PyStr.contains "%" (a ++ b) = PyStr.contains "%" a || PyStr.contains "%" b.
Proof.
  induction a as [|c a IH].
  - simpl. now destruct b.
  - change (String c a ++ b) with (String c (a ++ b)).
    rewrite !contains_pct_cons, IH. now rewrite orb_assoc.
Qed.

Lemma contains_pct_spaces (n : nat) : PyStr.contains "%" (PyStr.spaces n) = false.
Proof.
  induction n as [|n IH]; [reflexivity|].
  change (PyStr.spaces (S n)) with (String " " (PyStr.spaces n)).
  now rewrite contains_pct_cons, IH.
Qed.

Lemma space_not_pct (c : ascii) : PyStr.is_space c = true -> Ascii.eqb c "%" = false.
Proof.
  intros Hs. destruct (Ascii.eqb c "%") eqn:E; [|reflexivity].
  apply Ascii.eqb_eq in E. subst c. discriminate.
Qed.

Lemma contains_pct_lstrip (s : string) :
  PyStr.contains "%" s = false -> PyStr.contains "%" (PyStr.lstrip s) = false.
Proof.
  induction s as [|c s IH]; [reflexivity|].
  rewrite contains_pct_cons. intros H. apply orb_false_iff in H.
  destruct H as [Hc Hs]. cbn [PyStr.lstrip].
  destruct (PyStr.is_space c); [now apply IH|].
  now rewrite contains_pct_cons, Hc, Hs.
Qed.

Lemma lstrip_contains_pct (s : string) :
  PyStr.contains "%" (PyStr.lstrip s) = false -> PyStr.contains "%" s = false.
Proof.
  induction s as [|c s IH]; [reflexivity|]. cbn [PyStr.lstrip].
  destruct (PyStr.is_space c) eqn:Ec; [|auto].
  intros H. rewrite contains_pct_cons, (space_not_pct c Ec). now apply IH.
Qed.

Lemma rstrip_contains_pct (s : string) :
  PyStr.contains "%" (PyStr.rstrip s) = false -> PyStr.contains "%" s = false.
Proof.
  induction s as [|c s IH]; [reflexivity|]. cbn [PyStr.rstrip].
  destruct (PyStr.rstrip s) as [|a r] eqn:Er.
  - destruct (PyStr.is_space c) eqn:Ec; intros H.
    + rewrite contains_pct_cons, (space_not_pct c Ec). now apply IH.
    + rewrite contains_pct_cons in H |- *. apply orb_false_iff in H.
      destruct H as [-> _]. now apply IH.
  - intros H. rewrite contains_pct_cons in H |- *. apply orb_false_iff in H.
    destruct H as [-> H]. now apply IH.
Qed.

Lemma digits_no_pct (s : string) (acc z : Z) (b : bool) :
  PyStr.digits_go acc b s = Some z -> PyStr.contains "%" s = false.
Proof.
  revert acc b. induction s as [|c s IH]; intros acc b; [reflexivity|].
  cbn [PyStr.digits_go]. rewrite contains_pct_cons.
  destruct (PyStr.is_digit c) eqn:Ed.
  - intros H. apply IH in H. rewrite H, orb_false_r.
    destruct (Ascii.eqb c "%") eqn:E; [|reflexivity].
    apply Ascii.eqb_eq in E. subst c. discriminate.
  - destruct (Ascii.eqb c "_") eqn:Eu; [|discriminate].
    apply Ascii.eqb_eq in Eu. subst c. destruct b; [|discriminate].
    intros H. apply IH in H. now rewrite H.
Qed.

(** A string that [int] accepts holds no ["%"]. *)
Lemma int_of_str_no_pct (s : string) (z : Z) :
  PyStr.int_of_str s = Some z -> PyStr.contains "%" s = false.
Proof.
  unfold PyStr.int_of_str, PyStr.strip. intros H.
  apply lstrip_contains_pct, rstrip_contains_pct.
  destruct (PyStr.rstrip (PyStr.lstrip s)) as [|c r]; [reflexivity|].
  rewrite contains_pct_cons.
  destruct (Ascii.eqb c "+") eqn:Ep.
  - apply Ascii.eqb_eq in Ep. subst c. simpl. eapply digits_no_pct; eauto.
  - destruct (Ascii.eqb c "-") eqn:Em.
    + apply Ascii.eqb_eq in Em. subst c. simpl.
      destruct (PyStr.digits_go 0 false r) eqn:Ed; [|discriminate].
      eapply digits_no_pct; eauto.
    + apply digits_no_pct in H. now rewrite contains_pct_cons in H.
Qed.

Lemma rjust_no_pct (w : nat) (s : string) :
  PyStr.contains "%" s = false -> PyStr.contains "%" (PyStr.rjust w s) = false.
Proof.
  intros H. unfold PyStr.rjust. now rewrite contains_pct_app, contains_pct_spaces, H.
Qed.

(** Text without ["%"] goes through the operator as it is. *)
Lemma percent_go_plain (cs : list (string * string)) (s rest : string) :
  PyStr.contains "%" s = false ->
  percent_go cs PNormal (s ++ rest)
  = (r <- percent_go cs PNormal rest ;; Ok (s ++ r)).
Proof.
  induction s as [|c s IH]; intros H.
  - simpl. now destruct (percent_go cs PNormal rest).
  - rewrite contains_pct_cons in H. apply orb_false_iff in H. destruct H as [Hc Hs].
    cbn [append percent_go]. rewrite Hc, (IH Hs).
    now destruct (percent_go cs PNormal rest).
Qed.

(** Whatever a stretch of the format holds, the text after it is scanned
    from some state, and its output ends the output of the whole. *)
Lemma percent_go_app (cs : list (string * string)) (a rest : string) :
  forall st out,
    percent_go cs st (a ++ rest) = Ok out ->
    exists st' o r, percent_go cs st' rest = Ok r /\ out = o ++ r.
Proof.
  induction a as [|c a IH]; intros st out H.
  - exists st, "", out. auto.
  - cbn [append percent_go] in H.
    destruct st as [| |n k|v].
    + destruct (Ascii.eqb c "%"); [now apply IH in H|].
      apply bind_ok in H. destruct H as (r0 & H & [= <-]).
      apply IH in H. destruct H as (st' & o & r & Hr & ->).
      exists st', (String c o), r. auto.
    + destruct (Ascii.eqb c "("); [now apply IH in H|].
      destruct (Ascii.eqb c "%"); [|discriminate].
      apply bind_ok in H. destruct H as (r0 & H & [= <-]).
      apply IH in H. destruct H as (st' & o & r & Hr & ->).
      exists st', (String "%" o), r. auto.
    + destruct (Ascii.eqb c "("); [now apply IH in H|].
      destruct (Ascii.eqb c ")"); [|now apply IH in H].
      destruct n; [|now apply IH in H].
      apply bind_ok in H. destruct H as (v & _ & H). now apply IH in H.
    + destruct (Ascii.eqb c "s").
      * apply bind_ok in H. destruct H as (r0 & H & [= <-]).
        apply IH in H. destruct H as (st' & o & r & Hr & ->).
        exists st', (v ++ o), r. split; [exact Hr|]. now rewrite str_app_assoc.
      * destruct (Ascii.eqb c "%"); [|discriminate].
        apply bind_ok in H. destruct H as (r0 & H & [= <-]).
        apply IH in H. destruct H as (st' & o & r & Hr & ->).
        exists st', (String "%" o), r. auto.
Qed.

(** With a table whose keys have at most five characters, a key that has
    grown longer can no more be closed with success. *)
Lemma percent_go_long_key (cs : list (string * string)) (s : string) :
  Forall (fun kv => (String.length (fst kv) <= 5)%nat) cs ->
  forall n k out,
    (5 < String.length k)%nat -> percent_go cs (PKey n k) s <> Ok out.
Proof.
  intros Hshort. induction s as [|c s IH]; intros n k out Hlen; [discriminate|].
  cbn [percent_go].
  destruct (Ascii.eqb c "(");
    [apply IH; rewrite length_snoc; lia|].
  destruct (Ascii.eqb c ")");
    [|apply IH; rewrite length_snoc; lia].
  destruct n; [|apply IH; rewrite length_snoc; lia].
  assert (Hk : dict_get k cs = None).
  { apply (dict_get_none string_keqb_eq). intros Hin.
    apply in_map_iff in Hin. destruct Hin as ([k' v] & Hk & Hin).
    simpl in Hk. subst k'. rewrite Forall_forall in Hshort.
    specialize (Hshort _ Hin). simpl in Hshort. lia. }
  unfold cget. rewrite Hk. discriminate.
Qed.

Lemma str_length_app (a b : string) :
  String.length (a ++ b) = (String.length a + String.length b)%nat.
Proof. induction a as [|x a IH]; simpl; [reflexivity|now rewrite IH]. Qed.

(** Inversion of a chain of successful binds. *)
Ltac bind_inv H :=
  repeat match type of H with
    | bind _ _ = Ok _ => apply bind_ok in H; destruct H as (? & H & [= <-])
    end.

(** Both sides as one right-nested concatenation. *)
Ltac str_norm :=
  repeat (progress (rewrite ?str_app_assoc; cbn [append])).

Ltac long_key H :=
  exfalso; revert H; apply percent_go_long_key;
  [assumption|unfold snoc; rewrite ?str_length_app; simpl; lia].

(** The device part of the template under the operator: whatever the index
    and the name hold, a successful output shows the temperature and the
    utilization, each after the color bound to it. *)
Lemma percent_template (cs : list (string * string))
    (c0 c1 cn ct cu idx name temp util rest out : string) :
  Forall (fun kv => (String.length (fst kv) <= 5)%nat) cs ->
  dict_get "C0" cs = Some c0 ->
  dict_get "C1" cs = Some c1 ->
  dict_get "CName" cs = Some cn ->
  dict_get "CTemp" cs = Some ct ->
  dict_get "CUtil" cs = Some cu ->
  PyStr.contains "%" temp = false ->
  PyStr.contains "%" util = false ->
  percent_go cs PNormal
    ("%(C1)s[" ++ idx ++ "]%(C0)s %(CName)s" ++ name ++ "%(C0)s |%(CTemp)s"
     ++ temp ++ "'C%(C0)s, %(CUtil)s" ++ util ++ " %%%(C0)s" ++ rest) = Ok out ->
  exists pre post,
    out = pre ++ ct ++ temp ++ "'C" ++ c0 ++ ", " ++ cu ++ util ++ " %" ++ c0 ++ post.
Proof.
  intros Hshort H0 H1 Hn Ht Hu Htemp Hutil H.
  (* after the temperature color: the same in every case *)
  assert (Htail : forall r,
             percent_go cs PNormal
               (temp ++ "'C%(C0)s, %(CUtil)s" ++ util ++ " %%%(C0)s" ++ rest) = Ok r ->
             exists post,
               r = temp ++ "'C" ++ c0 ++ ", " ++ cu ++ util ++ " %" ++ c0 ++ post).
  { intros r Hr. rewrite percent_go_plain in Hr by exact Htemp.
    bind_inv Hr.
    simpl in Hr. unfold cget, snoc in Hr. simpl in Hr.
    rewrite H0, Hu in Hr. simpl in Hr.
    bind_inv Hr.
    rewrite percent_go_plain in Hr by exact Hutil.
    bind_inv Hr.
    simpl in Hr. unfold cget, snoc in Hr. simpl in Hr.
    rewrite H0 in Hr. simpl in Hr.
    bind_inv Hr.
    eexists. str_norm. reflexivity. }
  simpl in H. unfold cget, snoc in H. simpl in H. rewrite H1 in H. simpl in H.
  bind_inv H.
  apply percent_go_app in H. destruct H as (st1 & o1 & r3 & H & ->).
  destruct st1 as [| |n k|v]; simpl in H; try discriminate;
    [|long_key H].
  unfold cget, snoc in H. simpl in H. rewrite H0, Hn in H. simpl in H.
  bind_inv H.
  apply percent_go_app in H. destruct H as (st2 & o2 & r7 & H & ->).
  destruct st2 as [| |n k|v]; simpl in H; [| |long_key H|].
  - unfold cget, snoc in H. simpl in H. rewrite H0, Ht in H. simpl in H.
    bind_inv H.
    apply Htail in H. destruct H as (post & ->).
    exists (c1 ++ "[" ++ o1 ++ "]" ++ c0 ++ " " ++ cn ++ o2 ++ c0 ++ " |"), post.
    str_norm. reflexivity.
  - unfold cget, snoc in H. simpl in H. rewrite Ht in H. simpl in H.
    bind_inv H.
    apply Htail in H. destruct H as (post & ->).
    exists (c1 ++ "[" ++ o1 ++ "]" ++ c0 ++ " " ++ cn ++ o2 ++ "%(C0)s |"), post.
    str_norm. reflexivity.
  - unfold cget, snoc in H. simpl in H. rewrite Ht in H. simpl in H.
    bind_inv H.
    apply Htail in H. destruct H as (post & ->).
    exists (c1 ++ "[" ++ o1 ++ "]" ++ c0 ++ " " ++ cn ++ o2 ++ "%(C0)s |"), post.
    str_norm. reflexivity.
Qed.

(** ** The renderer *)

(** The color table of a record that renders: both fields are numeric, the
    keys are short, and the temperature and utilization colors follow the
    two comparisons. *)
Lemma print_to_colors_ok (g : GPUStat) (wc : bool) (cs : list (string * string)) :
  print_to_colors g wc = Ok cs ->
  exists temp util t u,
    dict_get "temperature.gpu" (entry g) = Some (VStr temp) /\
    PyStr.int_of_str temp = Some t /\
    dict_get "utilization.gpu" (entry g) = Some (VStr util) /\
    PyStr.int_of_str util = Some u /\
    Forall (fun kv => (String.length (fst kv) <= 5)%nat) cs /\
    dict_get "C0" cs = Some (if wc then ANSIColors.RESET else "") /\
    dict_get "C1" cs = Some (if wc then ANSIColors.CYAN else "") /\
    dict_get "CName" cs = Some (if wc then ANSIColors.BLUE else "") /\
    dict_get "CTemp" cs
    = Some (if wc then (if (50 <=? t)%Z then ANSIColors.BOLD_RED
                        else ANSIColors.RED) else "") /\
    dict_get "CUtil" cs
    = Some (if wc then (if (30 <=? u)%Z then ANSIColors.BOLD_GREEN
                        else ANSIColors.GREEN) else "").
Proof.
  unfold print_to_colors, getitem, py_int. intros H.
  destruct (dict_get "temperature.gpu" (entry g)) as [[|temp]|]; try discriminate.
  cbn [bind] in H.
  destruct (PyStr.int_of_str temp) as [t|] eqn:Et; [|discriminate].
  cbn [bind] in H.
  destruct (dict_get "utilization.gpu" (entry g)) as [[|util]|]; try discriminate.
  cbn [bind] in H.
  destruct (PyStr.int_of_str util) as [u|] eqn:Eu; [|discriminate].
  cbn [bind] in H.
  exists temp, util, t, u.
  split; [reflexivity|]. split; [exact Et|].
  split; [reflexivity|]. split; [exact Eu|].
  destruct (50 <=? t)%Z, (30 <=? u)%Z, wc; injection H as <-;
    (split; [repeat (constructor; [simpl; lia|]); constructor|]);
    repeat split.
Qed.

Lemma print_to_template_ok (g : GPUStat) (w : Z) (tpl temp util : string) :
  print_to_template g w = Ok tpl ->
  dict_get "temperature.gpu" (entry g) = Some (VStr temp) ->
  dict_get "utilization.gpu" (entry g) = Some (VStr util) ->
  exists idx name rest,
    tpl = "%(C1)s[" ++ idx ++ "]%(C0)s %(CName)s" ++ name ++ "%(C0)s |%(CTemp)s"
          ++ PyStr.rjust 3 temp ++ "'C%(C0)s, %(CUtil)s" ++ PyStr.rjust 3 util
          ++ " %%%(C0)s" ++ rest.
Proof.
  unfold print_to_template, getitem. intros H Ht Hu. rewrite Ht, Hu in H.
  destruct (dict_get "index" (entry g)) as [idx|]; [|discriminate].
  cbn [bind] in H.
  destruct (dict_get "name" (entry g)) as [name|]; [|discriminate].
  cbn [bind] in H.
  destruct (format_width w name) as [name'|]; [|discriminate].
  cbn [bind format_right] in H.
  destruct (dict_get "memory.used" (entry g)) as [used|]; [|discriminate].
  cbn [bind] in H.
  destruct (format_right 5 used) as [used'|]; [|discriminate].
  cbn [bind] in H.
  destruct (dict_get "memory.total" (entry g)) as [total|]; [|discriminate].
  cbn [bind] in H.
  destruct (format_right 5 total) as [total'|]; [|discriminate].
  cbn [bind] in H. injection H as <-.
  exists (py_str idx), name'. eexists.
  rewrite ?str_app_assoc. cbn [append]. rewrite ?str_app_assoc.
  cbn [append]. rewrite ?str_app_assoc. reflexivity.
Qed.

Lemma append_process_raise (o : print_options) (cs : list (string * string))
    (e : exn) (p : dict) :
  append_process o cs (Raise e) p = Raise e.
Proof. reflexivity. Qed.

(** The process fragments come after the device part. *)
Lemma append_processes_suffix (o : print_options) (cs : list (string * string))
    (ps : list dict) (reps out : string) :
  fold_left (append_process o cs) ps (Ok reps) = Ok out ->
  exists tail, out = reps ++ tail.
Proof.
  revert reps. induction ps as [|p ps IH]; intros reps H; simpl in H.
  - injection H as <-. exists "". now rewrite str_app_nil_r.
  - destruct (process_repr o cs p) as [r|e]; cbn [bind] in H.
    + apply IH in H. destruct H as [tail ->].
      exists (" " ++ r ++ tail). now rewrite ?str_app_assoc.
    + rewrite fold_left_raise in H by apply append_process_raise.
      discriminate.
Qed.

Lemma prefix_app (x post : string) : String.prefix x (x ++ post) = true.
Proof.
  induction x as [|a x IH]; simpl; [now destruct post|].
  destruct (ascii_dec a a); [exact IH|congruence].
Qed.

Lemma contains_unfold (pat s : string) :
  PyStr.contains pat s
  = String.prefix pat s ||
    match s with
    | "" => false
    | String _ s' => PyStr.contains pat s'
    end.
Proof. destruct s; reflexivity. Qed.

Lemma contains_mid (x pre post : string) :
  PyStr.contains x (pre ++ x ++ post) = true.
Proof.
  induction pre as [|c pre IH].
  - cbn [append]. rewrite contains_unfold, prefix_app. reflexivity.
  - cbn [append]. rewrite contains_unfold, IH. apply orb_true_r.
Qed.

(** The line of the device at both thresholds. *)
Lemma gpu_edge_line :
  print_to Scenario.gpu_edge default_options
  = Ok (ANSIColors.CYAN ++ "[0]" ++ ANSIColors.RESET ++ " "
        ++ ANSIColors.BLUE ++ "Tesla K80       " ++ ANSIColors.RESET ++ " |"
        ++ ANSIColors.BOLD_RED ++ " 50'C" ++ ANSIColors.RESET ++ ", "
        ++ ANSIColors.BOLD_GREEN ++ " 30 %" ++ ANSIColors.RESET ++ " | "
        ++ ANSIColors.BOLD_YELLOW ++ " 1024" ++ ANSIColors.RESET ++ " / "
        ++ ANSIColors.YELLOW ++ "12000" ++ ANSIColors.RESET ++ " MB |").
Proof. vm_compute. reflexivity. Qed.

(** C8 as the claim states it fails: at exactly 50 degrees and 30 percent
    the line is rendered with the escalated colors, not with the normal ones
    that "above" asks for. *)
Lemma escalation_above_threshold_fails :
  ~ (forall (g : GPUStat) (o : print_options) (out temp util : string) (t u : Z),
        with_colors o = true ->
        print_to g o = Ok out ->
        dict_get "temperature.gpu" (entry g) = Some (VStr temp) ->
        PyStr.int_of_str temp = Some t ->
        dict_get "utilization.gpu" (entry g) = Some (VStr util) ->
        PyStr.int_of_str util = Some u ->
        exists pre post,
          out = pre
                ++ (if (50 <? t)%Z then ANSIColors.BOLD_RED else ANSIColors.RED)
                ++ PyStr.rjust 3 temp ++ "'C" ++ ANSIColors.RESET ++ ", "
                ++ (if (30 <? u)%Z then ANSIColors.BOLD_GREEN else ANSIColors.GREEN)
                ++ PyStr.rjust 3 util ++ " %" ++ ANSIColors.RESET ++ post).
Proof.
  intros H.
  destruct (H Scenario.gpu_edge default_options _ "50" "30" 50%Z 30%Z
              eq_refl gpu_edge_line eq_refl eq_refl eq_refl eq_refl)
    as (pre & post & Hout).
  pose proof (contains_mid (ANSIColors.RED ++ " 50'C") pre
                (ANSIColors.RESET ++ ", " ++ ANSIColors.GREEN ++ " 30 %"
                 ++ ANSIColors.RESET ++ post)) as Hc.
  assert (Hn : PyStr.contains (ANSIColors.RED ++ " 50'C")
                 (ANSIColors.CYAN ++ "[0]" ++ ANSIColors.RESET ++ " "
                  ++ ANSIColors.BLUE ++ "Tesla K80       " ++ ANSIColors.RESET ++ " |"
                  ++ ANSIColors.BOLD_RED ++ " 50'C" ++ ANSIColors.RESET ++ ", "
                  ++ ANSIColors.BOLD_GREEN ++ " 30 %" ++ ANSIColors.RESET ++ " | "
                  ++ ANSIColors.BOLD_YELLOW ++ " 1024" ++ ANSIColors.RESET ++ " / "
                  ++ ANSIColors.YELLOW ++ "12000" ++ ANSIColors.RESET ++ " MB |")
               = false) by (vm_compute; reflexivity).
  rewrite Hout in Hn. simpl in Hn, Hc. rewrite Hc in Hn. discriminate.
Qed.

(** C8, amended: a device line that renders has a numeric temperature and a
    numeric utilization; with colors on, the temperature is written after
    the escalated color exactly when it is at least 50, after the normal
    color otherwise, and the utilization after the escalated color exactly
    when it is at least 30.  With colors off both colors are empty. *)
Theorem escalation_at_threshold (g : GPUStat) (o : print_options) (out : string) :
  print_to g o = Ok out ->
  exists temp util t u,
    dict_get "temperature.gpu" (entry g) = Some (VStr temp) /\
    PyStr.int_of_str temp = Some t /\
    dict_get "utilization.gpu" (entry g) = Some (VStr util) /\
    PyStr.int_of_str util = Some u /\
    let ctemp := if with_colors o
                 then (if (50 <=? t)%Z then ANSIColors.BOLD_RED else ANSIColors.RED)
                 else "" in
    let cutil := if with_colors o
                 then (if (30 <=? u)%Z then ANSIColors.BOLD_GREEN else ANSIColors.GREEN)
                 else "" in
    let c0 := if with_colors o then ANSIColors.RESET else "" in
    exists pre post,
      out = pre ++ ctemp ++ PyStr.rjust 3 temp ++ "'C" ++ c0 ++ ", "
            ++ cutil ++ PyStr.rjust 3 util ++ " %" ++ c0 ++ post.
Proof.
  unfold print_to. intros H.
  apply bind_ok in H. destruct H as (cs & Hcs & H).
  apply bind_ok in H. destruct H as (tpl & Htpl & H).
  apply bind_ok in H. destruct H as (body & Hbody & H).
  apply append_processes_suffix in H. destruct H as (tail & ->).
  apply print_to_colors_ok in Hcs.
  destruct Hcs as (temp & util & t & u & Ht & Eti & Hu & Eui
                   & Hshort & H0 & H1 & Hn & Hct & Hcu).
  exists temp, util, t, u. repeat (split; [assumption|]). cbv zeta.
  destruct (print_to_template_ok g _ tpl temp util Htpl Ht Hu)
    as (idx & name & rest & ->).
  unfold percent_format in Hbody.
  apply (percent_template cs _ _ _ _ _ _ _ _ _ _ _ Hshort H0 H1 Hn Hct Hcu) in Hbody.
  - destruct Hbody as (pre & post & ->).
    exists pre, (post ++ " |" ++ tail). rewrite ?str_app_assoc. reflexivity.
  - apply rjust_no_pct. eapply int_of_str_no_pct; eauto.
  - apply rjust_no_pct. eapply int_of_str_no_pct; eauto.
Qed.

Lemma escalation_at_threshold_witness :
  exists pre post,
    print_to Scenario.gpu_edge default_options
    = Ok (pre ++ ANSIColors.BOLD_RED ++ " 50'C" ++ ANSIColors.RESET ++ ", "
          ++ ANSIColors.BOLD_GREEN ++ " 30 %" ++ ANSIColors.RESET ++ post).
Proof.
  destruct (escalation_at_threshold Scenario.gpu_edge default_options _
              gpu_edge_line)
    as (temp & util & t & u & Ht & Eti & Hu & Eui & pre & post & Hout).
  vm_compute in Ht, Hu. injection Ht as <-. injection Hu as <-.
  vm_compute in Eti, Eui. injection Eti as <-. injection Eui as <-.
  exists pre, post. rewrite gpu_edge_line. f_equal. exact Hout.
Defined.

(** Walks the binds of a successful template down to the field that cannot
    be formatted. *)
Ltac absent_field H :=
  repeat match type of H with
    | bind _ _ = Ok _ =>
        let Hx := fresh "Hx" in
        apply bind_ok in H; destruct H as (? & Hx & H);
        cbn in Hx; first [discriminate Hx | injection Hx as <- | idtac]
    end.

(** A record with an absent temperature, utilization or memory figure does
    not render. *)
Lemma print_to_absent_raises (g : GPUStat) (o : print_options) :
  dict_get "temperature.gpu" (entry g) = Some VNone \/
  dict_get "utilization.gpu" (entry g) = Some (VStr "??") \/
  dict_get "memory.used" (entry g) = Some VNone \/
  dict_get "memory.total" (entry g) = Some VNone ->
  exists e, print_to g o = Raise e.
Proof.
  intros H. destruct (print_to g o) as [out|e] eqn:E; [exfalso|eauto].
  unfold print_to in E.
  apply bind_ok in E. destruct E as (cs & Hcs & E).
  apply bind_ok in E. destruct E as (tpl & Htpl & _).
  apply print_to_colors_ok in Hcs.
  destruct Hcs as (temp & util & t & u & Ht & Eti & Hu & Eui & _).
  destruct H as [H|[H|[H|H]]].
  - congruence.
  - rewrite H in Hu. injection Hu as <-. discriminate.
  - unfold print_to_template, getitem in Htpl. rewrite H in Htpl.
    absent_field Htpl.
  - unfold print_to_template, getitem in Htpl. rewrite H in Htpl.
    absent_field Htpl.
Qed.

(** C3 (the code departs from the claim): the constructor makes the
    unsupported fields absent, and the renderer then fails on them.  An
    absent temperature stops [int] with a [TypeError], the placeholder "??"
    of the utilization stops it with a [ValueError], an absent memory figure
    is refused by its format specification; no line is written. *)
Theorem unsupported_fields_do_not_render :
  GPUStat_init (in_dict_of_line (PyStr.strip Scenario.device_B)) = Ok Scenario.gpu_B /\
  print_to Scenario.gpu_B default_options = Raise TypeError /\
  print_gpustat (Scenario.idle Scenario.device_B) default_args = Uncaught TypeError /\
  (g <- GPUStat_init (in_dict_of_line Scenario.device_no_util) ;;
   print_to g default_options) = Raise ValueError /\
  (g <- GPUStat_init (in_dict_of_line Scenario.device_no_memory) ;;
   print_to g default_options) = Raise TypeError.
Proof. repeat split; vm_compute; reflexivity. Qed.

(** * Further properties *)

(** ** The constructor on any dictionary *)

Lemma dict_get_in {V : Type} (k : string) (v : V) (d : list (string * V)) :
  dict_get k d = Some v -> In (k, v) d.
Proof.
  induction d as [|[k' v'] d IH]; simpl; [discriminate|].
  destruct (keqb k k') eqn:E.
  - apply string_keqb_eq in E. subst k'. intros [= ->]. now left.
  - intros H. right. now apply IH.
Qed.

Lemma dict_get_some_in_keys {V : Type} (k : string) (v : V) (d : list (string * V)) :
  dict_get k d = Some v -> In k (dict_keys d).
Proof.
  intros H. apply dict_get_in in H. unfold dict_keys.
  apply in_map_iff. now exists (k, v).
Qed.

(** The constructor on a dictionary of strings. *)
Lemma GPUStat_init_strings_cases (d : dict) :
  NoDup (dict_keys d) ->
  (forall k v, In (k, v) d -> exists s, v = VStr s) ->
  match GPUStat_init d with
  | Ok g =>
      processes g = [] /\
      dict_keys (entry g) = dict_keys d /\
      (exists u, dict_get "utilization.gpu" d = Some (VStr u)) /\
      forall k s, dict_get k d = Some (VStr s) ->
        dict_get k (entry g)
        = Some (if PyStr.contains NotSupported s
                then (if String.eqb k "utilization.gpu" then VStr "??" else VNone)
                else VStr s)
  | Raise e =>
      e = KeyError "utilization.gpu" /\ dict_get "utilization.gpu" d = None
  end.
Proof.
  intros Hnd Hstr. unfold GPUStat_init.
  rewrite (normalise_keys d Hnd Hstr). cbn [bind]. unfold getitem.
  rewrite (dict_get_map normalised).
  destruct (dict_get "utilization.gpu" d) as [u|] eqn:Eu; cbn [option_map bind];
    [|auto].
  destruct (Hstr _ _ (dict_get_in _ _ _ Eu)) as [su ->].
  assert (Hget : forall k s, dict_get k d = Some (VStr s) ->
             dict_get k (map (fun kv => (fst kv, normalised (snd kv))) d)
             = Some (if PyStr.contains NotSupported s then VNone else VStr s)).
  { intros k s Hk. now rewrite (dict_get_map normalised), Hk. }
  cbn [normalised].
  destruct (PyStr.contains NotSupported su) eqn:Ec; cbn [entry processes].
  - split; [reflexivity|]. split.
    + rewrite (dict_keys_set_present string_keqb_eq).
      * apply dict_keys_map.
      * rewrite dict_keys_map. eapply dict_get_some_in_keys; eauto.
    + split; [eauto|]. intros k s Hk.
      destruct (String.eqb k "utilization.gpu") eqn:Ek.
      * apply String.eqb_eq in Ek. subst k.
        rewrite (dict_get_set_same string_keqb_eq).
        rewrite Eu in Hk. injection Hk as <-. now rewrite Ec.
      * rewrite (dict_get_set_other string_keqb_eq).
        -- rewrite (Hget k s Hk). now destruct (PyStr.contains NotSupported s).
        -- intros <-. rewrite String.eqb_refl in Ek. discriminate.
  - split; [reflexivity|]. split; [apply dict_keys_map|]. split; [eauto|].
    intros k s Hk. rewrite (Hget k s Hk).
    destruct (PyStr.contains NotSupported s) eqn:Es; [|reflexivity].
    destruct (String.eqb k "utilization.gpu") eqn:Ek; [|reflexivity].
    apply String.eqb_eq in Ek. subst k. congruence.
Qed.

(** X1: on a dictionary of strings the constructor fails only for want of
    the utilization key; otherwise it keeps the keys in their order, starts
    with no process, and leaves in each field its text, [None] when the text
    holds the marker, "??" when the marked field is the utilization. *)
Theorem GPUStat_init_of_strings (d : dict) :
  NoDup (dict_keys d) ->
  (forall k v, In (k, v) d -> exists s, v = VStr s) ->
  match GPUStat_init d with
  | Ok g =>
      processes g = [] /\
      dict_keys (entry g) = dict_keys d /\
      forall k s, dict_get k d = Some (VStr s) ->
        dict_get k (entry g)
        = Some (if PyStr.contains NotSupported s
                then (if String.eqb k "utilization.gpu" then VStr "??" else VNone)
                else VStr s)
  | Raise e =>
      e = KeyError "utilization.gpu" /\ dict_get "utilization.gpu" d = None
  end.
Proof.
  intros Hnd Hstr. pose proof (GPUStat_init_strings_cases d Hnd Hstr) as H.
  destruct (GPUStat_init d); tauto.
Qed.

Lemma GPUStat_init_of_strings_witness :
  match GPUStat_init [("name", VStr "Tesla K80");
                      ("utilization.gpu", VStr "N/A [Not Supported]")] with
  | Ok g =>
      processes g = [] /\
      dict_keys (entry g) = ["name"; "utilization.gpu"] /\
      forall k s,
        dict_get k [("name", VStr "Tesla K80");
                    ("utilization.gpu", VStr "N/A [Not Supported]")]
        = Some (VStr s) ->
        dict_get k (entry g)
        = Some (if PyStr.contains NotSupported s
                then (if String.eqb k "utilization.gpu" then VStr "??" else VNone)
                else VStr s)
  | Raise e => e = KeyError "utilization.gpu" /\ False
  end.
Proof.
  pose proof (GPUStat_init_of_strings
                [("name", VStr "Tesla K80");
                 ("utilization.gpu", VStr "N/A [Not Supported]")]) as H.
  destruct (GPUStat_init _) as [g|e].
  - apply H.
    + repeat constructor; simpl; intuition discriminate.
    + intros k v [[= <- <-]|[[= <- <-]|[]]]; eauto.
  - destruct H as [He Hn].
    + repeat constructor; simpl; intuition discriminate.
    + intros k v [[= <- <-]|[[= <- <-]|[]]]; eauto.
    + split; [exact He|]. discriminate Hn.
Defined.

(** X2: a record built from a dictionary of strings never holds the marker:
    every field is [None] or a text without it, and the utilization is never
    [None]. *)
Theorem GPUStat_init_leaves_no_marker (d : dict) (g : GPUStat) :
  NoDup (dict_keys d) ->
  (forall k v, In (k, v) d -> exists s, v = VStr s) ->
  GPUStat_init d = Ok g ->
  (forall k s, dict_get k (entry g) = Some (VStr s) ->
               PyStr.contains NotSupported s = false) /\
  (exists u, dict_get "utilization.gpu" (entry g) = Some (VStr u)).
Proof.
  intros Hnd Hstr Hg. pose proof (GPUStat_init_strings_cases d Hnd Hstr) as H.
  rewrite Hg in H. destruct H as (_ & Hkeys & [u Hu] & Hget). split.
  - intros k s Hk.
    assert (Hin : In k (dict_keys d))
      by (rewrite <- Hkeys; eapply dict_get_some_in_keys; eauto).
    destruct (dict_get k d) as [v|] eqn:Ed;
      [|apply (dict_get_none string_keqb_eq) in Ed; contradiction].
    destruct (Hstr _ _ (dict_get_in _ _ _ Ed)) as [s0 ->].
    rewrite (Hget k s0 Ed) in Hk.
    destruct (PyStr.contains NotSupported s0) eqn:Ec.
    + destruct (String.eqb k "utilization.gpu"); [|discriminate].
      injection Hk as <-. reflexivity.
    + now injection Hk as <-.
  - rewrite (Hget _ u Hu). simpl.
    destruct (PyStr.contains NotSupported u); eauto.
Qed.

Lemma GPUStat_init_leaves_no_marker_witness :
  PyStr.contains NotSupported "Tesla K80" = false /\
  exists u, dict_get "utilization.gpu" (entry Scenario.gpu_B) = Some (VStr u).
Proof.
  destruct (GPUStat_init_leaves_no_marker
              (in_dict_of_line (PyStr.strip Scenario.device_B))
              Scenario.gpu_B) as [Hm Hu].
  - vm_compute. repeat constructor; simpl; intuition discriminate.
  - assert (F : Forall (fun kv => exists s, snd kv = VStr s)
                        (in_dict_of_line (PyStr.strip Scenario.device_B))).
    { vm_compute. repeat (constructor; [eexists; reflexivity|]). constructor. }
    intros k v H. rewrite Forall_forall in F. exact (F (k, v) H).
  - vm_compute. reflexivity.
  - split; [exact (Hm "name" "Tesla K80" eq_refl)|exact Hu].
Defined.

Lemma normalise_key_raise (e : exn) (k : string) :
  normalise_key (Raise e) k = Raise e.
Proof. reflexivity. Qed.

Lemma normalise_keys_none_acc (todo done : dict) :
  NoDup (dict_keys (done ++ todo)%list) ->
  (exists k, In (k, VNone) todo) ->
  fold_left normalise_key (dict_keys todo) (Ok (done ++ todo)%list)
  = Raise TypeError.
Proof.
  revert done. induction todo as [|[k v] todo IH]; intros done Hnd [k0 Hin];
    [destruct Hin|]. simpl.
  assert (Hfresh : ~ In k (dict_keys done)).
  { unfold dict_keys in *. rewrite map_app in Hnd. simpl in Hnd.
    apply NoDup_remove_2 in Hnd. intros Hi. apply Hnd.
    apply in_or_app. now left. }
  unfold getitem. rewrite (dict_get_middle string_keqb_eq) by exact Hfresh.
  cbn [bind]. destruct v as [|s]; cbn [not_supported_in bind].
  - apply fold_left_raise, normalise_key_raise.
  - destruct Hin as [Heq|Hin]; [discriminate Heq|].
    assert (Hstep : (if PyStr.contains NotSupported s
                     then dict_set k VNone (done ++ (k, VStr s) :: todo)%list
                     else (done ++ (k, VStr s) :: todo)%list)
                    = ((done ++ [(k, normalised (VStr s))]) ++ todo)%list).
    { rewrite <- app_assoc. simpl.
      destruct (PyStr.contains NotSupported s); [|reflexivity].
      now rewrite (dict_set_middle string_keqb_eq). }
    rewrite Hstep. apply IH; [|eauto].
    rewrite <- app_assoc. simpl. unfold dict_keys in *.
    rewrite map_app in *. exact Hnd.
Qed.

(** X3: a dictionary that already holds [None] cannot be given to the
    constructor: the membership test on [None] raises [TypeError].  So the
    fields of a record with an absent field do not build a record again. *)
Theorem GPUStat_init_rejects_none (d : dict) (k : string) :
  NoDup (dict_keys d) ->
  dict_get k d = Some VNone ->
  GPUStat_init d = Raise TypeError.
Proof.
  intros Hnd Hk. unfold GPUStat_init.
  assert (H : fold_left normalise_key (dict_keys d) (Ok d) = Raise TypeError).
  { apply (normalise_keys_none_acc d [] Hnd). exists k. now apply dict_get_in. }
  now rewrite H.
Qed.

Lemma GPUStat_init_rejects_none_witness :
  GPUStat_init (entry Scenario.gpu_B) = Raise TypeError.
Proof.
  apply (GPUStat_init_rejects_none (entry Scenario.gpu_B) "temperature.gpu").
  - vm_compute. repeat constructor; simpl; intuition discriminate.
  - reflexivity.
Defined.

(** ** The pids of [pid_map] *)

Section DictKeys.
Context {K V : Type} `{EqKey K}.
Hypothesis keqb_eq : forall x y : K, keqb x y = true <-> x = y.

Lemma dict_get_keys (k : K) (v : V) (d : list (K * V)) :
  dict_get k d = Some v -> In k (dict_keys d).
Proof.
  induction d as [|[k' v'] d IH]; simpl; [discriminate|].
  destruct (keqb k k') eqn:E; [|now right; apply IH].
  apply keqb_eq in E. now left.
Qed.

Lemma dict_set_in_keys (k k' : K) (v : V) (d : list (K * V)) :
  In k' (dict_keys (dict_set k v d)) <-> In k' (dict_keys d) \/ k' = k.
Proof.
  rewrite dict_keys_set.
  destruct (dict_get k d) as [v0|] eqn:E.
  - split; [tauto|]. intros [Hi| ->]; [exact Hi|].
    now apply dict_get_keys in E.
  - rewrite in_app_iff. simpl. intuition.
Qed.
End DictKeys.

Lemma pid_map_add_raise (e : exn) (p : dict) : pid_map_add (Raise e) p = Raise e.
Proof. reflexivity. Qed.

(** One accepted row: the pid it asks for is bound to the default identity. *)
Lemma pid_map_add_turn (acc pm : pid_map_t) (e : dict) :
  pid_map_add (Ok acc) e = Ok pm ->
  row_accepted e /\
  pm = match row_pid e with
       | Some n => dict_set n (Some (mkIdentity "UNKNOWN" "")) acc
       | None => acc
       end.
Proof.
  unfold pid_map_add, row_accepted, row_pid, getitem, not_supported_in, py_int.
  cbn [bind].
  destruct (dict_get "pid" e) as [[|s]|]; cbn [bind]; try discriminate.
  destruct (PyStr.contains NotSupported s) eqn:Ec.
  - intros [= <-]. split; [|reflexivity]. exists s. auto.
  - destruct (PyStr.int_of_str s) as [n|] eqn:En; cbn [bind]; [|discriminate].
    intros [= <-]. split; [|reflexivity]. exists s. eauto.
Qed.

Lemma pid_map_add_spec (es : list dict) (acc pm : pid_map_t) :
  fold_left pid_map_add es (Ok acc) = Ok pm ->
  NoDup (dict_keys acc) ->
  NoDup (dict_keys pm) /\
  Forall row_accepted es /\
  (forall n, In n (dict_keys pm) <->
             In n (dict_keys acc) \/ exists e, In e es /\ row_pid e = Some n) /\
  (forall n v, dict_get n pm = Some v ->
               dict_get n acc = Some v \/ v = Some (mkIdentity "UNKNOWN" "")).
Proof.
  revert acc. induction es as [|e es IH]; intros acc H Hnd; cbn [fold_left] in H.
  - injection H as <-. repeat split; auto.
    + intros [Hi|(e & [] & _)]. exact Hi.
  - destruct (pid_map_add (Ok acc) e) as [acc1|x] eqn:E1;
      [|rewrite fold_left_raise in H by apply pid_map_add_raise; discriminate].
    apply pid_map_add_turn in E1. destruct E1 as [Hacc Eacc1].
    assert (Hnd1 : NoDup (dict_keys acc1)).
    { subst acc1. destruct (row_pid e); [|exact Hnd].
      now apply (dict_set_nodup Z_keqb_eq). }
    destruct (IH acc1 H Hnd1) as (Hn & Hall & Hkeys & Hval).
    split; [exact Hn|]. split; [now constructor|]. split.
    + intros n. rewrite Hkeys. subst acc1.
      destruct (row_pid e) as [m|] eqn:Em.
      * rewrite (dict_set_in_keys Z_keqb_eq). split.
        -- intros [[Hi| ->]|(e' & He' & Hp)]; eauto.
           ++ right. exists e. split; [now left|exact Em].
           ++ right. exists e'. split; [now right|exact Hp].
        -- intros [Hi|(e' & [<-|He'] & Hp)]; eauto.
           left. right. congruence.
      * split.
        -- intros [Hi|(e' & He' & Hp)]; eauto.
           right. exists e'. split; [now right|exact Hp].
        -- intros [Hi|(e' & [<-|He'] & Hp)]; eauto. congruence.
    + intros n v Hv. destruct (Hval n v Hv) as [H1|H1]; [|now right].
      subst acc1. destruct (row_pid e) as [m|]; [|now left].
      destruct (Z.eq_dec m n) as [->|Hne].
      * rewrite (dict_get_set_same Z_keqb_eq) in H1. injection H1 as <-. now right.
      * rewrite (dict_get_set_other Z_keqb_eq) in H1 by exact Hne. now left.
Qed.

(** X4: the comprehension that builds [pid_map] binds exactly the pids of
    the rows whose pid is supported, each once, each to the default identity
    (user "UNKNOWN", empty command); it succeeds only when every row has a
    pid field that carries the marker or is an integer. *)
Theorem pid_map_initial (es : list dict) (pm : pid_map_t) :
  fold_left pid_map_add es (Ok []) = Ok pm ->
  NoDup (dict_keys pm) /\
  Forall row_accepted es /\
  (forall n, In n (dict_keys pm) <-> exists e, In e es /\ row_pid e = Some n) /\
  (forall n v, dict_get n pm = Some v -> v = Some (mkIdentity "UNKNOWN" "")).
Proof.
  intros H. destruct (pid_map_add_spec es [] pm H) as (Hn & Hall & Hkeys & Hval).
  - constructor.
  - split; [exact Hn|]. split; [exact Hall|]. split.
    + intros n. rewrite Hkeys. simpl. tauto.
    + intros n v Hv. destruct (Hval n v Hv) as [H1|H1]; [discriminate|exact H1].
Qed.

Lemma pid_map_initial_witness :
  dict_keys [(1234%Z, Some (mkIdentity "UNKNOWN" ""))] = [1234%Z] /\
  forall n, In n [1234%Z] <->
    exists e, In e [process_entry_of_line "GPU-aaa, 1234, 256";
                    process_entry_of_line "GPU-bbb, 1234, 10";
                    process_entry_of_line "GPU-aaa, [Not Supported], 7"] /\
              row_pid e = Some n.
Proof.
  split; [reflexivity|].
  exact (proj1 (proj2 (proj2
           (pid_map_initial
              [process_entry_of_line "GPU-aaa, 1234, 256";
               process_entry_of_line "GPU-bbb, 1234, 10";
               process_entry_of_line "GPU-aaa, [Not Supported], 7"]
              [(1234%Z, Some (mkIdentity "UNKNOWN" ""))] eq_refl)))).
Defined.

(** ** The process listing *)

Lemma ps_line_raise (e : exn) (line : string) : ps_line (Raise e) line = Raise e.
Proof. reflexivity. Qed.

(** One line of the listing: it is skipped, or it binds its pid. *)
Lemma ps_line_turn (pm pm' : pid_map_t) (line : string) :
  ps_line (Ok pm) line = Ok pm' ->
  pm' = match ps_line_identity line with
        | Some (n, i) => dict_set n (Some i) pm
        | None => pm
        end.
Proof.
  unfold ps_line, ps_line_identity, py_int. cbn [bind].
  destruct (String.eqb line "" || PyStr.contains "PID" line);
    [now intros [= <-]|].
  destruct (PyStr.split_ws line) as [|pid [|user [|comm [|? ?]]]];
    try discriminate.
  destruct (PyStr.int_of_str pid) as [n|]; cbn [bind option_map];
    [now intros [= <-]|discriminate].
Qed.

(** A line the loop does not skip and cannot read raises [ValueError]. *)
Lemma ps_line_bad (pm : pid_map_t) (line : string) :
  String.eqb line "" || PyStr.contains "PID" line = false ->
  ps_line_identity line = None ->
  ps_line (Ok pm) line = Raise ValueError.
Proof.
  unfold ps_line, ps_line_identity, py_int. cbn [bind]. intros ->.
  destruct (PyStr.split_ws line) as [|pid [|user [|comm [|? ?]]]];
    try reflexivity.
  destruct (PyStr.int_of_str pid) as [n|]; cbn [bind option_map];
    [discriminate|reflexivity].
Qed.

Lemma ps_line_raises (pm : pid_map_t) (line : string) (e : exn) :
  ps_line (Ok pm) line = Raise e -> e = ValueError.
Proof.
  unfold ps_line, py_int. cbn [bind].
  destruct (String.eqb line "" || PyStr.contains "PID" line); [discriminate|].
  destruct (PyStr.split_ws line) as [|pid [|user [|comm [|? ?]]]];
    try (now intros [= <-]).
  destruct (PyStr.int_of_str pid) as [n|]; cbn [bind];
    [discriminate|now intros [= <-]].
Qed.

Lemma ps_lines_keys (lines : list string) (acc pm' : pid_map_t) :
  fold_left ps_line lines (Ok acc) = Ok pm' ->
  NoDup (dict_keys acc) ->
  NoDup (dict_keys pm') /\ forall n, In n (dict_keys acc) -> In n (dict_keys pm').
Proof.
  intros H Hnd.
  apply (fold_left_ok_inv
           (fun a => NoDup (dict_keys a) /\
                     forall n, In n (dict_keys acc) -> In n (dict_keys a))
           ps_line lines ps_line_raise) with (a := acc); [|now split|exact H].
  intros a line a' [Ha Hk] Hl. apply ps_line_turn in Hl. subst a'.
  destruct (ps_line_identity line) as [[n i]|]; [|now split].
  split; [now apply (dict_set_nodup Z_keqb_eq)|].
  intros m Hm. apply (dict_set_in_keys Z_keqb_eq). left. now apply Hk.
Qed.

(** A pid no line names keeps what it had. *)
Lemma ps_lines_unnamed (lines : list string) (acc pm' : pid_map_t) (n : Z) :
  fold_left ps_line lines (Ok acc) = Ok pm' ->
  (forall l i, In l lines -> ps_line_identity l <> Some (n, i)) ->
  dict_get n pm' = dict_get n acc.
Proof.
  revert acc. induction lines as [|line lines IH]; intros acc H Hno;
    cbn [fold_left] in H.
  - now injection H as <-.
  - destruct (ps_line (Ok acc) line) as [acc1|x] eqn:E1;
      [|rewrite fold_left_raise in H by apply ps_line_raise; discriminate].
    rewrite (IH acc1 H) by (intros l i Hl; apply Hno; now right).
    apply ps_line_turn in E1. subst acc1.
    destruct (ps_line_identity line) as [[m i]|] eqn:El; [|reflexivity].
    apply (dict_get_set_other Z_keqb_eq). intros ->.
    apply (Hno line i); [now left|exact El].
Qed.

(** The last line that names a pid decides its identity. *)
Lemma ps_lines_last (pre post : list string) (line : string)
    (acc pm' : pid_map_t) (n : Z) (i : identity) :
  fold_left ps_line (pre ++ line :: post)%list (Ok acc) = Ok pm' ->
  ps_line_identity line = Some (n, i) ->
  (forall l j, In l post -> ps_line_identity l <> Some (n, j)) ->
  dict_get n pm' = Some (Some i).
Proof.
  revert acc. induction pre as [|x pre IH]; intros acc H Hl Hno;
    cbn [app fold_left] in H.
  - destruct (ps_line (Ok acc) line) as [acc1|x] eqn:E1;
      [|rewrite fold_left_raise in H by apply ps_line_raise; discriminate].
    rewrite (ps_lines_unnamed post acc1 pm' n H Hno).
    apply ps_line_turn in E1. rewrite Hl in E1. subst acc1.
    apply (dict_get_set_same Z_keqb_eq).
  - destruct (ps_line (Ok acc) x) as [acc1|y] eqn:E1;
      [|rewrite fold_left_raise in H by apply ps_line_raise; discriminate].
    now apply (IH acc1).
Qed.

Lemma ps_lines_bad (lines : list string) (line : string) (acc : pid_map_t) :
  In line lines ->
  String.eqb line "" || PyStr.contains "PID" line = false ->
  ps_line_identity line = None ->
  fold_left ps_line lines (Ok acc) = Raise ValueError.
Proof.
  intros Hin Hk Hb. revert acc.
  induction lines as [|x lines IH]; intros acc; [contradiction|].
  cbn [fold_left].
  destruct (ps_line (Ok acc) x) as [acc1|e] eqn:E1.
  - destruct Hin as [->|Hin]; [|now apply IH].
    rewrite ps_line_bad in E1 by assumption. discriminate.
  - apply ps_line_raises in E1. subst e.
    apply fold_left_raise. apply ps_line_raise.
Qed.

(** X5: the process listing is asked for only when some pid is known.  After
    it, every pid the rows named is still a key, each key once; a pid no line
    of the listing names keeps the identity it had; a pid some line names has
    the user and command of the last such line, also when the rows did not
    name it. *)
Theorem ps_stage_listing (w : world) (pm pm' : pid_map_t) :
  ps_stage w pm = Ok pm' ->
  NoDup (dict_keys pm) ->
  (pm = [] /\ pm' = []) \/
  exists out, shell w (ps_command pm) = Ok out /\
    let lines := PyStr.split PyStr.nl (PyStr.strip out) in
    NoDup (dict_keys pm') /\
    (forall n, In n (dict_keys pm) -> In n (dict_keys pm')) /\
    (forall n, (forall l i, In l lines -> ps_line_identity l <> Some (n, i)) ->
               dict_get n pm' = dict_get n pm) /\
    (forall pre line post n i,
       lines = (pre ++ line :: post)%list ->
       ps_line_identity line = Some (n, i) ->
       (forall l j, In l post -> ps_line_identity l <> Some (n, j)) ->
       dict_get n pm' = Some (Some i)).
Proof.
  unfold ps_stage. destruct pm as [|b pm0]; [intros [= <-]; now left|].
  set (pm := b :: pm0). intros H Hnd. right.
  unfold exec_command in H.
  destruct (shell w (ps_command pm)) as [out|]; [|discriminate].
  exists out. split; [reflexivity|]. cbn [bind py_split] in H. cbv zeta.
  destruct (ps_lines_keys _ _ _ H Hnd) as [Hn Hk].
  split; [exact Hn|]. split; [exact Hk|]. split.
  - intros n Hno. now apply (ps_lines_unnamed _ _ _ _ H).
  - intros pre line post n i Hlines Hl Hno. rewrite Hlines in H.
    now apply (ps_lines_last pre post line pm pm' n i).
Qed.

Lemma ps_stage_listing_witness :
  exists pm',
    ps_stage Scenario.exited_process
      [(1234%Z, Some (mkIdentity "UNKNOWN" "")); (5678%Z, Some (mkIdentity "UNKNOWN" ""))]
    = Ok pm' /\
    dict_get 1234%Z pm' = Some (Some (mkIdentity "UNKNOWN" "")) /\
    dict_get 5678%Z pm' = Some (Some (mkIdentity "alice" "python")).
Proof.
  destruct (ps_stage Scenario.exited_process
              [(1234%Z, Some (mkIdentity "UNKNOWN" ""));
               (5678%Z, Some (mkIdentity "UNKNOWN" ""))]) as [pm'|] eqn:E;
    [|vm_compute in E; discriminate].
  exists pm'. split; [reflexivity|].
  destruct (ps_stage_listing _ _ _ E) as [[Hnil _]|(out & Hout & _ & _ & Hun & Hlast)].
  - repeat constructor; simpl; intuition discriminate.
  - discriminate Hnil.
  - vm_compute in Hout. injection Hout as <-. split.
    + rewrite Hun; [reflexivity|].
      intros l i Hl. vm_compute in Hl.
      destruct Hl as [<-|[<-|[]]]; vm_compute; discriminate.
    + apply (Hlast ["PID USER             COMMAND"] "   5678 alice            python"
                   [] 5678%Z (mkIdentity "alice" "python"));
        [vm_compute; reflexivity|vm_compute; reflexivity|intros l j []].
Defined.

(** X6: a line of the process listing that is neither empty nor a header
    and is not three fields led by an integer (a command name with a space
    gives four fields) is not skipped: the whole process query raises
    [ValueError]. *)
Theorem unreadable_listing_line (w : world) (es : list dict) (pm : pid_map_t)
    (out line : string) :
  collect_entries w = Ok es ->
  fold_left pid_map_add es (Ok []) = Ok pm ->
  pm <> [] ->
  shell w (ps_command pm) = Ok out ->
  In line (PyStr.split PyStr.nl (PyStr.strip out)) ->
  String.eqb line "" || PyStr.contains "PID" line = false ->
  ps_line_identity line = None ->
  ps_stage w pm = Raise ValueError /\ running_processes w = Raise ValueError.
Proof.
  intros Hes Hpm Hne Hout Hin Hk Hb.
  assert (Hps : ps_stage w pm = Raise ValueError).
  { unfold ps_stage. destruct pm as [|b pm0]; [congruence|].
    unfold exec_command. rewrite Hout. cbn [bind py_split].
    now apply (ps_lines_bad _ line). }
  split; [exact Hps|].
  unfold running_processes. rewrite Hes. cbn [bind].
  rewrite Hpm. cbn [bind]. rewrite Hps. reflexivity.
Qed.

Lemma unreadable_listing_line_witness :
  running_processes
    (world_of [(process_command, Ok "GPU-aaa, 4321, 300");
               ("ps -o pid,user:16,comm -p 4321",
                Ok (Scenario.ps_header ++ PyStr.nl
                    ++ "   4321 carol            Web Content"))])
  = Raise ValueError.
Proof.
  refine (proj2 (unreadable_listing_line _
            [process_entry_of_line "GPU-aaa, 4321, 300"]
            [(4321%Z, Some (mkIdentity "UNKNOWN" ""))]
            (Scenario.ps_header ++ PyStr.nl
             ++ "   4321 carol            Web Content")
            "   4321 carol            Web Content" _ _ _ _ _ _ _));
    try (vm_compute; reflexivity).
  - discriminate.
  - vm_compute. right. left. reflexivity.
Defined.

(** ** The container stage keeps pids and commands *)

Lemma update_user_comm (pid q : Z) (f : string -> string) (pm : pid_map_t) :
  option_map (option_map ident_comm) (dict_get q (fst (update_user pid f pm)))
  = option_map (option_map ident_comm) (dict_get q pm).
Proof.
  destruct (Z.eq_dec q pid) as [->|Hne].
  - rewrite update_user_same. now destruct (dict_get pid pm) as [[i|]|].
  - now rewrite update_user_other.
Qed.

Lemma container_try_keeps (w : world) (lxc docker : option string)
    (dinfo : option docker_info_t) (pm : pid_map_t) (pid : Z) :
  dict_keys (container_try w lxc docker dinfo pm pid) = dict_keys pm /\
  forall q,
    option_map (option_map ident_comm)
               (dict_get q (container_try w lxc docker dinfo pm pid))
    = option_map (option_map ident_comm) (dict_get q pm).
Proof.
  destruct (container_try_cases w lxc docker dinfo pid) as [H|[f H]]; rewrite H.
  - now split.
  - split; [apply update_user_keys|intros q; apply update_user_comm].
Qed.

Lemma container_loop_keeps (w : world) (lxc docker : option string)
    (dinfo : option docker_info_t) (l : list Z) (pm : pid_map_t) :
  dict_keys (fold_left (container_try w lxc docker dinfo) l pm) = dict_keys pm /\
  forall q,
    option_map (option_map ident_comm)
               (dict_get q (fold_left (container_try w lxc docker dinfo) l pm))
    = option_map (option_map ident_comm) (dict_get q pm).
Proof.
  revert pm. induction l as [|pid l IH]; intros pm; cbn [fold_left]; [now split|].
  destruct (IH (container_try w lxc docker dinfo pm pid)) as [Hk Hc].
  destruct (container_try_keeps w lxc docker dinfo pm pid) as [Hk1 Hc1].
  split; [now rewrite Hk|]. intros q. now rewrite Hc.
Qed.

Lemma container_stage_keys (w : world) (lxc docker : option string)
    (dinfo : option docker_info_t) (pm : pid_map_t) :
  dict_keys (container_stage w lxc docker dinfo pm) = dict_keys pm.
Proof.
  unfold container_stage. destruct (truthy lxc || truthy docker); [|reflexivity].
  apply container_loop_keeps.
Qed.

(** X7: the container stage renames users only.  Whatever the lookups
    answer, and whichever of them fail, the pids of [pid_map] and their order
    are unchanged and every pid keeps its command. *)
Theorem container_stage_keeps (w : world) (lxc docker : option string)
    (dinfo : option docker_info_t) (pm : pid_map_t) :
  dict_keys (container_stage w lxc docker dinfo pm) = dict_keys pm /\
  forall q,
    option_map (option_map ident_comm)
               (dict_get q (container_stage w lxc docker dinfo pm))
    = option_map (option_map ident_comm) (dict_get q pm).
Proof.
  split; [apply container_stage_keys|]. intros q.
  unfold container_stage. destruct (truthy lxc || truthy docker); [|reflexivity].
  apply container_loop_keeps.
Qed.

(** ** Step 3 never drops an entry *)

Lemma heap_set_app (pre rest : list dict) (e d : dict) :
  heap_set (pre ++ e :: rest)%list (List.length pre) d = (pre ++ d :: rest)%list.
Proof. induction pre as [|x pre IH]; simpl; [reflexivity|now rewrite IH]. Qed.

Lemma exec_command_probe (w : world) (command : string) :
  exec_command w command true = Ok (probe w command).
Proof. unfold exec_command, probe. now destruct (shell w command). Qed.

(** One turn on a row whose pid, when it is an integer, is bound. *)
Lemma add_process_info_bound (pm : pid_map_t) (pre rest : list dict)
    (l : list nat) (e : dict) :
  row_accepted e ->
  (forall n, row_pid e = Some n -> exists i, dict_get n pm = Some (Some i)) ->
  add_process_info pm (Ok (mkEntries (pre ++ e :: rest)%list l)) (List.length pre)
  = Ok (mkEntries (pre ++ with_identity pm e :: rest)%list l).
Proof.
  intros (s & Hs & Hacc) Hb.
  unfold add_process_info, deref, getitem, with_identity, row_pid in *.
  cbn [bind heap refs].
  rewrite nth_error_app2, Nat.sub_diag by lia. cbn [nth_error bind].
  rewrite Hs in *. cbn [bind not_supported_in py_int].
  destruct (PyStr.contains NotSupported s); cbn [bind].
  - now rewrite heap_set_app.
  - destruct Hacc as [Hc|(n & Hn)]; [discriminate|]. rewrite Hn in *.
    cbn [bind]. destruct (Hb n eq_refl) as (i & Hi). rewrite Hi.
    now rewrite heap_set_app.
Qed.

Lemma add_process_info_rows (pm : pid_map_t) (rest pre : list dict) (l : list nat) :
  Forall row_accepted rest ->
  (forall e n, In e rest -> row_pid e = Some n ->
               exists i, dict_get n pm = Some (Some i)) ->
  fold_left (add_process_info pm) (seq (List.length pre) (List.length rest))
            (Ok (mkEntries (pre ++ rest)%list l))
  = Ok (mkEntries (pre ++ map (with_identity pm) rest)%list l).
Proof.
  revert pre. induction rest as [|e rest IH]; intros pre Hall Hb;
    cbn [List.length seq fold_left map]; [reflexivity|].
  inversion Hall as [|? ? He Hrest]; subst.
  rewrite add_process_info_bound;
    [|exact He|intros n Hn; apply (Hb e n); [now left|exact Hn]].
  specialize (IH (pre ++ [with_identity pm e])%list Hrest).
  rewrite length_app, Nat.add_1_r, <- !app_assoc in IH. cbn [app] in IH.
  apply IH. intros e' n Hin. apply Hb. now right.
Qed.

Lemma bound_pids_in (pm : pid_map_t) (n : Z) :
  bound_pids pm -> In n (dict_keys pm) -> exists i, dict_get n pm = Some (Some i).
Proof.
  intros Hb Hin. pose proof (bound_pids_get n pm Hb) as Hn.
  destruct (dict_get n pm) as [[i|]|] eqn:E; [eauto|congruence|].
  exfalso. revert Hin. now apply (dict_get_none Z_keqb_eq).
Qed.

(** X8: what [running_processes] returns once its commands are answered:
    one entry for each row of the compute-process query, in the order of the
    rows.  Every integer pid of a row is bound to an identity when step 3
    reads it, so no entry is removed and no lookup fails: a row of an integer
    pid gets the user and command of its pid, a row whose pid carries the
    marker is emptied. *)
Theorem running_processes_result (w : world) (es : list dict)
    (pm0 pm1 : pid_map_t) (dinfo : option docker_info_t) :
  collect_entries w = Ok es ->
  fold_left pid_map_add es (Ok []) = Ok pm0 ->
  ps_stage w pm0 = Ok pm1 ->
  docker_stage w (probe w "docker --version") = Ok dinfo ->
  let pid_map := container_stage w (probe w "lxc-info --version")
                   (probe w "docker --version") dinfo pm1 in
  running_processes w = Ok (map (with_identity pid_map) es) /\
  forall e n, In e es -> row_pid e = Some n ->
    exists i, dict_get n pid_map = Some (Some i) /\
              with_identity pid_map e = dict_update e i.
Proof.
  intros Hes Hpm0 Hpm1 Hd pid_map.
  destruct (pid_map_add_spec es [] pm0 Hpm0 (NoDup_nil _))
    as (Hnd0 & Hall & Hkeys0 & _).
  assert (Hb : bound_pids pid_map).
  { apply container_stage_bound. eapply ps_stage_bound; eauto.
    eapply pid_map_add_bound; eauto. }
  assert (Hk1 : forall n, In n (dict_keys pm0) -> In n (dict_keys pm1)).
  { unfold ps_stage in Hpm1. destruct pm0 as [|b pm0']; [intros n []|].
    apply bind_ok in Hpm1. destruct Hpm1 as (o & _ & Hpm1).
    apply bind_ok in Hpm1. destruct Hpm1 as (lines & _ & Hpm1).
    exact (proj2 (ps_lines_keys _ _ _ Hpm1 Hnd0)). }
  assert (Hget : forall e n, In e es -> row_pid e = Some n ->
                   exists i, dict_get n pid_map = Some (Some i)).
  { intros e n Hin Hn. apply (bound_pids_in _ _ Hb).
    unfold pid_map.
    rewrite container_stage_keys.
    apply Hk1, Hkeys0. right. eauto. }
  split.
  - unfold running_processes. rewrite Hes. cbn [bind].
    rewrite Hpm0. cbn [bind]. rewrite Hpm1. cbn [bind].
    rewrite !exec_command_probe. cbn [bind]. rewrite Hd. cbn [bind].
    fold pid_map.
    rewrite (add_process_info_rows pid_map es [] _ Hall Hget).
    cbn [bind app heap refs]. rewrite <- (length_map (with_identity pid_map)).
    apply deref_all_heap.
  - intros e n Hin Hn. destruct (Hget e n Hin Hn) as (i & Hi).
    exists i. split; [exact Hi|].
    unfold with_identity. unfold row_pid in Hn.
    destruct (dict_get "pid" e) as [[|s]|]; try discriminate.
    destruct (PyStr.contains NotSupported s); [discriminate|].
    now rewrite Hn, Hi.
Qed.

Lemma running_processes_result_witness :
  running_processes Scenario.containers
  = Ok [[("gpu_uuid", VStr "GPU-aaa"); ("pid", VStr "1234");
         ("used_memory", VStr "256"); ("user", VStr "bob");
         ("comm", VStr "bash")];
        [("gpu_uuid", VStr "GPU-aaa"); ("pid", VStr "5678");
         ("used_memory", VStr "100"); ("user", VStr "web");
         ("comm", VStr "python")]].
Proof.
  exact (proj1 (running_processes_result Scenario.containers
           [process_entry_of_line "GPU-aaa, 1234, 256";
            process_entry_of_line "GPU-aaa, 5678, 100"]
           [(1234%Z, Some (mkIdentity "UNKNOWN" ""));
            (5678%Z, Some (mkIdentity "UNKNOWN" ""))]
           Scenario.two_pids
           (Some [("abc", ("web", "nginx -g daemon"))])
           eq_refl eq_refl eq_refl eq_refl)).
Defined.

(** ** Attaching the processes to their devices *)

Lemma gpus_modify_keys (k : value) (f : GPUStat -> GPUStat) (d : gpus_t) :
  dict_keys (gpus_modify k f d) = dict_keys d.
Proof.
  induction d as [|[k' g] d IH]; simpl; [reflexivity|].
  destruct (keqb k k'); simpl; [reflexivity|now rewrite IH].
Qed.

Lemma value_eqb_refl (k : value) : value_eqb k k = true.
Proof. exact (proj2 (value_keqb_eq k k) eq_refl). Qed.

Lemma gpus_modify_get (k k0 : value) (f : GPUStat -> GPUStat) (d : gpus_t) :
  dict_get k0 (gpus_modify k f d)
  = if value_eqb k k0 then option_map f (dict_get k0 d) else dict_get k0 d.
Proof.
  induction d as [|[k' g] d IH]; simpl; [now destruct (value_eqb k k0)|].
  unfold keqb, EqKey_value in *.
  destruct (value_eqb k k') eqn:E1; simpl; unfold keqb, EqKey_value;
    destruct (value_eqb k0 k') eqn:E2; destruct (value_eqb k k0) eqn:E3;
    try reflexivity; try exact IH;
    repeat match goal with
           | H : value_eqb _ _ = true |- _ => apply value_keqb_eq in H
           end; subst;
    rewrite ?value_eqb_refl in *; try discriminate.
Qed.

(** One turn on a process of a known device. *)
Lemma attach_process_known (d : gpus_t) (g0 : option value) (p : dict) (k : value) :
  dict_get "gpu_uuid" p = Some k -> In k (dict_keys d) ->
  attach_process (Ok (mkAttach d g0)) p
  = Ok (mkAttach (gpus_modify k (fun g => add_process g p) d) (Some k)).
Proof.
  intros Hk Hin. unfold attach_process, getitem, gpus_getitem.
  cbn [bind att_gpus att_g]. rewrite Hk. cbn [bind].
  destruct (dict_get k d) as [g|] eqn:E; [reflexivity|].
  exfalso. revert Hin. now apply (dict_get_none value_keqb_eq).
Qed.

Lemma attach_known (ps : list dict) (d : gpus_t) (g0 : option value) :
  Forall (known_device d) ps ->
  exists st, fold_left attach_process ps (Ok (mkAttach d g0)) = Ok st /\
    dict_keys (att_gpus st) = dict_keys d /\
    forall k g, dict_get k d = Some g ->
      dict_get k (att_gpus st)
      = Some (mkGPUStat (entry g) (processes g ++ filter (on_device k) ps)%list).
Proof.
  revert d g0. induction ps as [|p ps IH]; intros d g0 Hall.
  - exists (mkAttach d g0). split; [reflexivity|]. split; [reflexivity|].
    intros k [e l] Hk. simpl. now rewrite app_nil_r.
  - inversion Hall as [|? ? (k & Hk & Hin) Hrest]; subst.
    cbn [fold_left]. rewrite (attach_process_known d g0 p k Hk Hin).
    set (d1 := gpus_modify k (fun g => add_process g p) d).
    assert (Hkeys : dict_keys d1 = dict_keys d) by apply gpus_modify_keys.
    destruct (IH d1 (Some k)) as (st & Hst & Hk1 & Hget).
    { revert Hrest. apply Forall_impl. intros q (k' & Hq & Hin').
      exists k'. split; [exact Hq|]. now rewrite Hkeys. }
    exists st. split; [exact Hst|]. split; [congruence|].
    intros k0 g Hg.
    assert (Hd1 : dict_get k0 d1
                  = Some (if value_eqb k k0 then add_process g p else g)).
    { unfold d1. rewrite gpus_modify_get, Hg. now destruct (value_eqb k k0). }
    rewrite (Hget _ _ Hd1). f_equal. cbn [filter]. unfold on_device at 2.
    rewrite Hk. destruct (value_eqb k k0); [|reflexivity].
    simpl. now rewrite <- app_assoc.
Qed.

(** X9: when every running process names a device of the snapshot,
    [update_process_information] succeeds; it changes no key and no field of
    a device, and the processes of each device are those it had, followed by
    the running processes that name it, in the order [running_processes]
    gave them. *)
Theorem update_process_information_join (w : world) (ps : list dict) (d : gpus_t) :
  running_processes w = Ok ps ->
  Forall (known_device d) ps ->
  exists d', update_process_information w d = Ok d' /\
    dict_keys d' = dict_keys d /\
    forall k g, dict_get k d = Some g ->
      dict_get k d'
      = Some (mkGPUStat (entry g) (processes g ++ filter (on_device k) ps)%list).
Proof.
  intros Hps Hall. unfold update_process_information. rewrite Hps. cbn [bind].
  destruct (attach_known ps d None Hall) as (st & Hst & Hk & Hget).
  exists (att_gpus st). rewrite Hst. cbn [bind]. auto.
Qed.

Lemma update_process_information_join_witness :
  exists d',
    update_process_information Scenario.containers
      [(VStr "GPU-aaa", Scenario.gpu_A); (VStr "GPU-bbb", Scenario.gpu_B)] = Ok d' /\
    option_map (fun g => map (dict_get "pid") (processes g))
               (dict_get (VStr "GPU-aaa") d')
    = Some [Some (VStr "1234"); Some (VStr "5678")] /\
    option_map (fun g => processes g) (dict_get (VStr "GPU-bbb") d') = Some [].
Proof.
  destruct (running_processes Scenario.containers) as [ps|] eqn:Eps;
    [|vm_compute in Eps; discriminate].
  destruct (update_process_information_join Scenario.containers ps
              [(VStr "GPU-aaa", Scenario.gpu_A); (VStr "GPU-bbb", Scenario.gpu_B)]
              Eps) as (d' & Hd & _ & Hget).
  - vm_compute in Eps. injection Eps as <-.
    repeat constructor; exists (VStr "GPU-aaa"); (split; [reflexivity|now left]).
  - exists d'. split; [exact Hd|].
    rewrite (Hget (VStr "GPU-aaa") Scenario.gpu_A eq_refl).
    rewrite (Hget (VStr "GPU-bbb") Scenario.gpu_B eq_refl).
    vm_compute in Eps. injection Eps as <-. split; reflexivity.
Defined.

(** ** Registering the devices *)

Lemma register_gpu_raise (e : exn) (g : GPUStat) : register_gpu (Raise e) g = Raise e.
Proof. reflexivity. Qed.

Lemma register_gpu_turn (a a' : gpus_t) (g : GPUStat) :
  register_gpu (Ok a) g = Ok a' -> exists u, uuid g = Ok u /\ a' = dict_set u g a.
Proof.
  unfold register_gpu. cbn [bind]. destruct (uuid g) as [u|]; [|discriminate].
  cbn [bind]. intros [= <-]. eauto.
Qed.

(** A device whose uuid no later device shares is the one bound to it. *)
Lemma register_gpus_unnamed (gl : list GPUStat) (acc d : gpus_t) (u : value) :
  fold_left register_gpu gl (Ok acc) = Ok d ->
  (forall g, In g gl -> uuid g <> Ok u) ->
  dict_get u d = dict_get u acc.
Proof.
  revert acc. induction gl as [|g gl IH]; intros acc H Hno; cbn [fold_left] in H.
  - now injection H as <-.
  - destruct (register_gpu (Ok acc) g) as [acc1|x] eqn:E1;
      [|rewrite fold_left_raise in H by apply register_gpu_raise; discriminate].
    rewrite (IH acc1 H) by (intros g' Hg'; apply Hno; now right).
    apply register_gpu_turn in E1. destruct E1 as (u' & Hu' & ->).
    apply (dict_get_set_other value_keqb_eq). intros ->.
    apply (Hno g); [now left|exact Hu'].
Qed.

Lemma register_gpus_spec (gl : list GPUStat) (acc d : gpus_t) :
  fold_left register_gpu gl (Ok acc) = Ok d ->
  NoDup (dict_keys acc) ->
  NoDup (dict_keys d) /\
  (forall u, In u (dict_keys d) <->
             In u (dict_keys acc) \/ exists g, In g gl /\ uuid g = Ok u) /\
  (forall pre g post u,
     gl = (pre ++ g :: post)%list -> uuid g = Ok u ->
     (forall g', In g' post -> uuid g' <> Ok u) -> dict_get u d = Some g).
Proof.
  revert acc. induction gl as [|g gl IH]; intros acc H Hnd; cbn [fold_left] in H.
  - injection H as <-. split; [exact Hnd|]. split.
    + intros u. split; [tauto|]. intros [Hi|(g0 & [] & _)]. exact Hi.
    + intros [|? ?] g0 post u Hgl; discriminate Hgl.
  - destruct (register_gpu (Ok acc) g) as [acc1|x] eqn:E1;
      [|rewrite fold_left_raise in H by apply register_gpu_raise; discriminate].
    apply register_gpu_turn in E1. destruct E1 as (u0 & Hu0 & ->).
    destruct (IH _ H (dict_set_nodup value_keqb_eq u0 g acc Hnd))
      as (Hn & Hkeys & Hlast).
    split; [exact Hn|]. split.
    + intros u. rewrite Hkeys, (dict_set_in_keys value_keqb_eq). split.
      * intros [[Hi| ->]|(g' & Hg' & Hu)]; eauto.
        -- right. exists g. split; [now left|exact Hu0].
        -- right. exists g'. split; [now right|exact Hu].
      * intros [Hi|(g' & [<-|Hg'] & Hu)]; eauto.
        left. right. congruence.
    + intros pre g1 post u Hgl Hu Hno. destruct pre as [|g0 pre].
      * injection Hgl as <- <-.
        rewrite (register_gpus_unnamed _ _ _ u H Hno).
        assert (u0 = u) by congruence. subst u0.
        apply (dict_get_set_same value_keqb_eq).
      * injection Hgl as <- ->. now apply (Hlast pre g1 post u).
Qed.

(** Devices of distinct uuids are registered in their order, each under
    its uuid. *)
Lemma register_gpus_distinct (gl : list GPUStat) (acc d : gpus_t) :
  fold_left register_gpu gl (Ok acc) = Ok d ->
  NoDup (map uuid gl) ->
  (forall g u, In g gl -> uuid g = Ok u -> ~ In u (dict_keys acc)) ->
  exists d', d = (acc ++ d')%list /\
    Forall2 (fun g kg => snd kg = g /\ uuid g = Ok (fst kg)) gl d'.
Proof.
  revert acc. induction gl as [|g gl IH]; intros acc H Hnd Hfresh;
    cbn [fold_left] in H.
  - injection H as <-. exists []. split; [now rewrite app_nil_r|constructor].
  - destruct (register_gpu (Ok acc) g) as [acc1|x] eqn:E1;
      [|rewrite fold_left_raise in H by apply register_gpu_raise; discriminate].
    apply register_gpu_turn in E1. destruct E1 as (u0 & Hu0 & ->).
    inversion Hnd as [|? ? Hni Hnd']; subst.
    rewrite (dict_set_fresh value_keqb_eq) in H
      by (apply (Hfresh g); [now left|exact Hu0]).
    destruct (IH _ H Hnd') as (d' & -> & Hall).
    + intros g' u Hg' Hu. unfold dict_keys. rewrite map_app, in_app_iff.
      intros [Hi|[Heq|[]]].
      * revert Hi. apply (Hfresh g'); [now right|exact Hu].
      * simpl in Heq. subst u. apply Hni. rewrite Hu0, <- Hu. now apply in_map.
    + exists ((u0, g) :: d'). rewrite <- app_assoc. split; [reflexivity|].
      constructor; [now split|exact Hall].
Qed.

Lemma registered_values (gl : list GPUStat) (d : gpus_t) :
  Forall2 (fun g kg => snd kg = g /\ uuid g = Ok (fst kg)) gl d -> map snd d = gl.
Proof.
  induction 1 as [|g kg gl d [Hs _] _ IH]; simpl; [reflexivity|].
  now rewrite Hs, IH.
Qed.

(** X10: how [GPUStatCollection.__init__] registers the devices.  Each uuid
    is a key once; the keys are the uuids of the devices; when two devices
    share a uuid the later one replaces the earlier; and when the uuids are
    distinct the values are the devices in the order given. *)
Theorem register_gpus_by_uuid (gl : list GPUStat) (d : gpus_t) :
  fold_left register_gpu gl (Ok []) = Ok d ->
  NoDup (dict_keys d) /\
  (forall u, In u (dict_keys d) <-> exists g, In g gl /\ uuid g = Ok u) /\
  (forall pre g post u,
     gl = (pre ++ g :: post)%list -> uuid g = Ok u ->
     (forall g', In g' post -> uuid g' <> Ok u) -> dict_get u d = Some g) /\
  (NoDup (map uuid gl) -> map snd d = gl).
Proof.
  intros H.
  destruct (register_gpus_spec gl [] d H (NoDup_nil _)) as (Hn & Hkeys & Hlast).
  split; [exact Hn|]. split; [|split; [exact Hlast|]].
  - intros u. rewrite Hkeys. simpl. tauto.
  - intros Hnd.
    destruct (register_gpus_distinct gl [] d H Hnd) as (d' & -> & Hall);
      [intros g u _ _ []|]. now apply registered_values.
Qed.

Lemma register_gpus_by_uuid_witness :
  exists d,
    fold_left register_gpu [Scenario.gpu_A; Scenario.gpu_B; Scenario.gpu_edge]
              (Ok []) = Ok d /\
    dict_keys d = [VStr "GPU-aaa"] /\
    dict_get (VStr "GPU-aaa") d = Some Scenario.gpu_edge.
Proof.
  exists [(VStr "GPU-aaa", Scenario.gpu_edge)].
  split; [reflexivity|]. split; [reflexivity|].
  apply (proj1 (proj2 (proj2
           (register_gpus_by_uuid [Scenario.gpu_A; Scenario.gpu_B; Scenario.gpu_edge]
              [(VStr "GPU-aaa", Scenario.gpu_edge)] eq_refl)))
           [Scenario.gpu_A; Scenario.gpu_B] Scenario.gpu_edge []
           (VStr "GPU-aaa") eq_refl eq_refl).
  intros g' [].
Defined.

(** ** Iterating a snapshot *)

Lemma device_fields_entries (d : gpus_t) :
  map entry (map snd d) = map snd (device_fields d).
Proof. unfold device_fields. rewrite !map_map. reflexivity. Qed.

(** X11: a snapshot of devices with distinct uuids lists them in the order
    of the lines of the device query: iterating it gives the fields of the
    parsed records in that order, its length is their number, the index [i]
    and the index [i - len] both give the [i]-th of them, and an index out
    of [-len .. len-1] gives none. *)
Theorem snapshot_in_query_order (w : world) (c : GPUStatCollection)
    (gl : list GPUStat) :
  new_query w = Ok c ->
  query_gpu_list w = Ok gl ->
  NoDup (map uuid gl) ->
  map entry (__iter__ c) = map entry gl /\
  __len__ c = Z.of_nat (List.length gl) /\
  (forall i, (i < List.length gl)%nat ->
     option_map entry (__getitem__ c (Z.of_nat i))
     = option_map entry (nth_error gl i) /\
     __getitem__ c (Z.of_nat i - __len__ c) = __getitem__ c (Z.of_nat i)) /\
  (forall i, (i < - __len__ c \/ __len__ c <= i)%Z -> __getitem__ c i = None).
Proof.
  intros Hq Hgl Hnd.
  destruct (new_query_devices w c Hq) as (gl' & d & Hgl' & Hd & Hf).
  rewrite Hgl in Hgl'. injection Hgl' as <-.
  assert (Hvals : map snd d = gl).
  { destruct (register_gpus_distinct gl [] d Hd Hnd) as (d' & -> & Hall);
      [intros g u _ _ []|]. now apply registered_values. }
  assert (Hit : map entry (__iter__ c) = map entry gl).
  { unfold __iter__. now rewrite device_fields_entries, Hf,
      <- device_fields_entries, Hvals. }
  assert (Hlen : List.length (map snd (gpus c)) = List.length gl).
  { apply (f_equal (@List.length dict)) in Hit. unfold __iter__ in Hit.
    rewrite !length_map in Hit. rewrite length_map. exact Hit. }
  assert (Hl : __len__ c = Z.of_nat (List.length gl)).
  { unfold __len__. rewrite length_map in Hlen. now rewrite Hlen. }
  split; [exact Hit|]. split; [exact Hl|]. split.
  - intros i Hi. rewrite Hl. unfold __getitem__. cbv zeta. rewrite Hlen.
    replace (Z.of_nat i - Z.of_nat (List.length gl)
             + Z.of_nat (List.length gl))%Z with (Z.of_nat i) by lia.
    destruct (Z.of_nat i <? 0)%Z eqn:E0; [apply Z.ltb_lt in E0; lia|].
    destruct (Z.of_nat i - Z.of_nat (List.length gl) <? 0)%Z eqn:E1;
      [|apply Z.ltb_ge in E1; lia].
    rewrite E0, Nat2Z.id. split; [|reflexivity].
    unfold __iter__ in Hit. rewrite <- !nth_error_map. now rewrite Hit.
  - intros i Hi. rewrite Hl in Hi. unfold __getitem__. cbv zeta. rewrite Hlen.
    destruct (i <? 0)%Z eqn:E0.
    + apply Z.ltb_lt in E0.
      destruct (i + Z.of_nat (List.length gl) <? 0)%Z eqn:E1; [reflexivity|].
      apply Z.ltb_ge in E1. lia.
    + apply Z.ltb_ge in E0. rewrite (proj2 (Z.ltb_ge i 0) E0).
      apply nth_error_None. rewrite Hlen. lia.
Qed.

Lemma snapshot_in_query_order_witness :
  exists c,
    new_query Scenario.exited_process = Ok c /\
    __len__ c = 1%Z /\
    option_map entry (__getitem__ c (-1)) = Some (entry Scenario.gpu_A) /\
    __getitem__ c 1 = None.
Proof.
  destruct (new_query Scenario.exited_process) as [c|] eqn:E;
    [|vm_compute in E; discriminate].
  exists c. split; [reflexivity|].
  destruct (snapshot_in_query_order Scenario.exited_process c [Scenario.gpu_A]
              E eq_refl) as (_ & Hl & Hi & Ho).
  - repeat constructor. intros [].
  - split; [exact Hl|]. split.
    + destruct (Hi 0%nat (Nat.lt_0_succ 0)) as [H0 H1].
      rewrite Hl in H1. simpl in H1. rewrite H1. exact H0.
    + apply Ho. rewrite Hl. simpl. lia.
Defined.

(** ** The docker listing *)

Lemma docker_item_raise (e : exn) (item : string) :
  docker_item (Raise e) item = Raise e.
Proof. reflexivity. Qed.

Lemma docker_item_raises (d : docker_info_t) (item : string) (e : exn) :
  docker_item (Ok d) item = Raise e -> e = ValueError.
Proof.
  unfold docker_item. cbn [bind].
  destruct (PyStr.split "<>" item) as [|a [|b [|c [|? ?]]]];
    now intros [= <-].
Qed.

Lemma docker_item_bad (d : docker_info_t) (item : string) :
  List.length (PyStr.split "<>" item) <> 3%nat ->
  docker_item (Ok d) item = Raise ValueError.
Proof.
  unfold docker_item. cbn [bind].
  destruct (PyStr.split "<>" item) as [|a [|b [|c [|? ?]]]]; simpl;
    try reflexivity. congruence.
Qed.

Lemma docker_items_bad (items : list string) (item : string) (d : docker_info_t) :
  In item items ->
  List.length (PyStr.split "<>" item) <> 3%nat ->
  fold_left docker_item items (Ok d) = Raise ValueError.
Proof.
  intros Hin Hb. revert d.
  induction items as [|x items IH]; intros d; [contradiction|].
  cbn [fold_left].
  destruct (docker_item (Ok d) x) as [d1|e] eqn:E1.
  - destruct Hin as [->|Hin]; [|now apply IH].
    rewrite docker_item_bad in E1 by assumption. discriminate.
  - apply docker_item_raises in E1. subst e.
    apply fold_left_raise. apply docker_item_raise.
Qed.

(** X12: when docker answers its version probe, every line of the container
    listing must hold exactly three fields separated by [<>].  A line that
    does not makes the whole process query raise [ValueError]; the empty
    listing of a host without running containers is such a line. *)
Theorem docker_listing_unreadable (w : world) (es : list dict)
    (pm0 pm1 : pid_map_t) (out item : string) :
  collect_entries w = Ok es ->
  fold_left pid_map_add es (Ok []) = Ok pm0 ->
  ps_stage w pm0 = Ok pm1 ->
  truthy (probe w "docker --version") = true ->
  shell w docker_ps_command = Ok out ->
  In item (PyStr.split PyStr.nl (PyStr.strip out)) ->
  List.length (PyStr.split "<>" item) <> 3%nat ->
  docker_stage w (probe w "docker --version") = Raise ValueError /\
  running_processes w = Raise ValueError.
Proof.
  intros Hes Hpm0 Hpm1 Ht Hout Hin Hb.
  assert (Hd : docker_stage w (probe w "docker --version") = Raise ValueError).
  { unfold docker_stage. rewrite Ht. unfold exec_command. rewrite Hout.
    cbn [bind py_split]. now rewrite (docker_items_bad _ item). }
  split; [exact Hd|].
  unfold running_processes. rewrite Hes. cbn [bind].
  rewrite Hpm0. cbn [bind]. rewrite Hpm1. cbn [bind].
  rewrite !exec_command_probe. cbn [bind]. now rewrite Hd.
Qed.

Lemma docker_listing_unreadable_witness :
  running_processes
    (world_of [(process_command, Ok "");
               ("docker --version", Ok "Docker version 24.0.5, build ced0996");
               (docker_ps_command, Ok "")])
  = Raise ValueError.
Proof.
  refine (proj2 (docker_listing_unreadable _ [] [] [] "" "" _ _ _ _ _ _ _));
    try (vm_compute; reflexivity).
  - vm_compute. now left.
  - vm_compute. discriminate.
Defined.

(** ** The rendered device line *)











(** ** The fragment of an emptied entry *)

Lemma app_cons_not_empty (a b : string) (c : ascii) :
  String.eqb (a ++ String c b) "" = false.
Proof. now destruct a. Qed.

(** X14: the entry of a row whose pid is hidden, emptied by step 3, always
    renders, with placeholders: ["--"] for the user, for the command and for
    the pid, each shown when its option asks for it, and ["?M"] for the
    memory. *)
Theorem emptied_entry_text (o : print_options) (cs : list (string * string))
    (e : dict) (cuser c0 c1 cmemp : string) :
  dict_get "CUser" cs = Some cuser ->
  dict_get "C0" cs = Some c0 ->
  dict_get "C1" cs = Some c1 ->
  dict_get "CMemP" cs = Some cmemp ->
  process_repr o cs (set_absent e)
  = Ok ((if negb (show_cmd o) || show_user o then cuser ++ "--" ++ c0 else "")
        ++ (if show_cmd o
            then (if show_user o then ":" else "") ++ c1 ++ "--" ++ c0
            else "")
        ++ (if show_pid o then "/--" else "")
        ++ "(" ++ cmemp ++ "?M" ++ c0 ++ ")").
Proof.
  intros Hcu H0 H1 Hmp.
  destruct (set_absent_fields e) as (Hpid & Huser & Hcomm & Hmem).
  unfold process_repr, getitem, cget.
  rewrite Hpid, Huser, Hcomm, Hmem, Hcu, H0, H1, Hmp.
  destruct (show_cmd o), (show_user o), (show_pid o);
    cbn [negb orb bind _repr append];
    rewrite ?app_cons_not_empty; cbn [bind String.eqb append];
    f_equal; str_norm; rewrite ?str_app_nil_r; reflexivity.
Qed.

Lemma emptied_entry_text_witness :
  process_repr (mkOptions false true true true 16)
    [("C0", ""); ("C1", ""); ("CMemP", ""); ("CUser", "")]
    (set_absent (process_entry_of_line "GPU-aaa, [Not Supported], 7"))
  = Ok "--:--/--(?M)".
Proof.
  exact (emptied_entry_text (mkOptions false true true true 16)
           [("C0", ""); ("C1", ""); ("CMemP", ""); ("CUser", "")]
           (process_entry_of_line "GPU-aaa, [Not Supported], 7") "" "" "" ""
           eq_refl eq_refl eq_refl eq_refl).
Defined.

(** ** The options of the report *)

Lemma fold_left_ext {A X} (f g : A -> X -> A) (l : list X) (a : A) :
  (forall a x, f a x = g a x) -> fold_left f l a = fold_left g l a.
Proof.
  intros Hfg. revert a. induction l as [|x l IH]; intros a; simpl;
    [reflexivity|]. now rewrite Hfg, IH.
Qed.

Lemma print_to_show_user (g : GPUStat) (wc su sp : bool) (width : Z) :
  print_to g (mkOptions wc false su sp width)
  = print_to g (mkOptions wc false true sp width).
Proof.
  unfold print_to. cbn [with_colors gpuname_width].
  destruct (print_to_colors g wc) as [cs|]; [|reflexivity]. cbn [bind].
  destruct (print_to_template g width) as [tpl|]; [|reflexivity]. cbn [bind].
  destruct (percent_format tpl cs) as [reps|]; [|reflexivity]. cbn [bind].
  apply fold_left_ext. intros a p. reflexivity.
Qed.

(** X15: without the option that shows commands the option that shows users
    changes nothing: the user of every process is written in both cases, and
    the outcome of the program is the same. *)
Theorem show_user_alone_changes_nothing (w : world) (nc su sp : bool) (width : Z) :
  print_gpustat w (mkArgs nc false su sp width)
  = print_gpustat w (mkArgs nc false true sp width).
Proof.
  unfold print_gpustat.
  destruct (new_query w) as [c|e]; [|reflexivity].
  cbn [arg_no_color arg_show_cmd arg_show_user arg_show_pid arg_gpuname_width].
  unfold print_formatted.
  destruct (fold_left name_length (gpus c) (Ok width)) as [wd|]; [|reflexivity].
  cbn [bind].
  rewrite (fold_left_ext
             (print_gpu_line (mkOptions (negb nc) false su sp wd))
             (print_gpu_line (mkOptions (negb nc) false true sp wd)));
    [reflexivity|].
  intros a kg. unfold print_gpu_line. now rewrite print_to_show_user.
Qed.

(** ** The body of the report *)

Lemma name_length_raise (e : exn) (kg : value * GPUStat) :
  name_length (Raise e) kg = Raise e.
Proof. reflexivity. Qed.

Lemma name_length_turn (m m' : Z) (kg : value * GPUStat) :
  name_length (Ok m) kg = Ok m' ->
  exists name, dict_get "name" (entry (snd kg)) = Some (VStr name) /\
               m' = Z.max m (Z.of_nat (String.length name)).
Proof.
  unfold name_length, getitem, py_len. cbn [bind].
  destruct (dict_get "name" (entry (snd kg))) as [[|name]|]; try discriminate.
  cbn [bind]. intros [= <-]. eauto.
Qed.

Lemma name_lengths (l : list (value * GPUStat)) (m width : Z) :
  fold_left name_length l (Ok m) = Ok width ->
  (m <= width)%Z /\
  Forall (fun kg => exists name,
            dict_get "name" (entry (snd kg)) = Some (VStr name) /\
            (Z.of_nat (String.length name) <= width)%Z) l /\
  (width = m \/
   exists kg name, In kg l /\
     dict_get "name" (entry (snd kg)) = Some (VStr name) /\
     width = Z.of_nat (String.length name)).
Proof.
  revert m. induction l as [|kg l IH]; intros m H; cbn [fold_left] in H.
  - injection H as <-. split; [lia|]. split; [constructor|now left].
  - destruct (name_length (Ok m) kg) as [m1|x] eqn:E1;
      [|rewrite fold_left_raise in H by apply name_length_raise; discriminate].
    apply name_length_turn in E1. destruct E1 as (name & Hn & ->).
    destruct (IH _ H) as (Hle & Hall & Hmax).
    split; [lia|]. split.
    + constructor; [|exact Hall]. exists name. split; [exact Hn|lia].
    + destruct Hmax as [->|(kg' & name' & Hin & Hn' & ->)].
      * destruct (Z.max_spec m (Z.of_nat (String.length name))) as [[_ ->]|[_ ->]];
          [|now left].
        right. exists kg, name. split; [now left|]. now split.
      * right. exists kg', name'. split; [now right|]. now split.
Qed.

Lemma print_gpu_line_raise (o : print_options) (e : exn) (kg : value * GPUStat) :
  print_gpu_line o (Raise e) kg = Raise e.
Proof. reflexivity. Qed.

Lemma print_gpu_lines (o : print_options) (l : list (value * GPUStat))
    (acc text : string) :
  fold_left (print_gpu_line o) l (Ok acc) = Ok text ->
  exists lines,
    Forall2 (fun kg line => print_to (snd kg) o = Ok line) l lines /\
    text = acc ++ unlines lines.
Proof.
  revert acc. induction l as [|kg l IH]; intros acc H; cbn [fold_left] in H.
  - injection H as <-. exists []. split; [constructor|].
    simpl. now rewrite str_app_nil_r.
  - destruct (print_gpu_line o (Ok acc) kg) as [acc1|x] eqn:E1;
      [|rewrite fold_left_raise in H by apply print_gpu_line_raise; discriminate].
    unfold print_gpu_line in E1. cbn [bind] in E1.
    destruct (print_to (snd kg) o) as [line|] eqn:El; [|discriminate].
    cbn [bind] in E1. injection E1 as <-.
    destruct (IH _ H) as (lines & Hall & ->).
    exists (line :: lines). split; [now constructor|].
    cbn [unlines fold_right]. now rewrite !str_app_assoc.
Qed.

(** X16: the body of a report that is printed.  One width serves every
    line: the greatest of the width asked for and the lengths of the device
    names, so every name is a string and fits.  The text is the line of each
    device, in the order of the snapshot, each followed by a newline. *)
Theorem print_formatted_body (c : GPUStatCollection)
    (no_color show_cmd show_user show_pid : bool) (gpuname_width : Z)
    (text : string) :
  print_formatted c no_color show_cmd show_user show_pid gpuname_width = Ok text ->
  exists width lines,
    (gpuname_width <= width)%Z /\
    Forall (fun kg => exists name,
              dict_get "name" (entry (snd kg)) = Some (VStr name) /\
              (Z.of_nat (String.length name) <= width)%Z) (gpus c) /\
    (width = gpuname_width \/
     exists kg name, In kg (gpus c) /\
       dict_get "name" (entry (snd kg)) = Some (VStr name) /\
       width = Z.of_nat (String.length name)) /\
    Forall2 (fun kg line =>
               print_to (snd kg)
                 (mkOptions (negb no_color) show_cmd show_user show_pid width)
               = Ok line) (gpus c) lines /\
    text = unlines lines.
Proof.
  unfold print_formatted. intros H.
  apply bind_ok in H. destruct H as (width & Hw & H).
  destruct (name_lengths _ _ _ Hw) as (Hle & Hall & Hmax).
  destruct (print_gpu_lines _ _ _ _ H) as (lines & Hlines & ->).
  exists width, lines. auto.
Qed.

Lemma print_formatted_body_witness :
  exists lines,
    Forall2 (fun kg line =>
               print_to (snd kg) (mkOptions false false false false 23) = Ok line)
            [(VStr "GPU-aaa", Scenario.gpu_A);
             (VStr "GPU-bbb",
              mkGPUStat [("index", VStr "1"); ("uuid", VStr "GPU-bbb");
                         ("name", VStr "NVIDIA GeForce RTX 3090");
                         ("temperature.gpu", VStr "30");
                         ("utilization.gpu", VStr "0");
                         ("memory.used", VStr "3");
                         ("memory.total", VStr "24576")] [])]
            lines /\
    ("[0] Tesla K80               | 65'C,  42 % |  1024 / 12000 MB |" ++ PyStr.nl
     ++ "[1] NVIDIA GeForce RTX 3090 | 30'C,   0 % |     3 / 24576 MB |"
     ++ PyStr.nl)
    = unlines lines.
Proof.
  destruct (print_formatted_body
              (mkCollection
                 [(VStr "GPU-aaa", Scenario.gpu_A);
                  (VStr "GPU-bbb",
                   mkGPUStat [("index", VStr "1"); ("uuid", VStr "GPU-bbb");
                              ("name", VStr "NVIDIA GeForce RTX 3090");
                              ("temperature.gpu", VStr "30");
                              ("utilization.gpu", VStr "0");
                              ("memory.used", VStr "3");
                              ("memory.total", VStr "24576")] [])]
                 "host" 0)
              true false false false 16
              ("[0] Tesla K80               | 65'C,  42 % |  1024 / 12000 MB |" ++ PyStr.nl
     ++ "[1] NVIDIA GeForce RTX 3090 | 30'C,   0 % |     3 / 24576 MB |"
     ++ PyStr.nl) eq_refl) as (width & lines & Hle & Hall & Hmax & Hlines & Htext).
  assert (Hw : width = 23%Z).
  { cbn [gpus] in Hall, Hmax.
    inversion Hall as [|? ? (n1 & Hn1 & Hl1) Hall']; subst.
    inversion Hall' as [|? ? (n2 & Hn2 & Hl2) _]; subst.
    cbn in Hn1, Hn2. injection Hn1 as <-. injection Hn2 as <-.
    destruct Hmax as [->|(kg & name & [<-|[<-|[]]] & Hn & ->)].
    - simpl in Hl2. lia.
    - cbn in Hn. injection Hn as <-. simpl in Hl2. lia.
    - cbn in Hn. injection Hn as <-. reflexivity. }
  subst width. exists lines. split; [exact Hlines|exact Htext].
Defined.

(** ** The snapshot of a query *)

Section DictPointwise.
Context {K V : Type} `{EqKey K}.
Hypothesis keqb_eq : forall x y : K, keqb x y = true <-> x = y.

(** A dictionary with the keys of [d], in their order, whose values are
    those of [d] changed by [F]. *)
Lemma dict_pointwise (F : K -> V -> V) (d d' : list (K * V)) :
  NoDup (dict_keys d) ->
  dict_keys d' = dict_keys d ->
  (forall k v, dict_get k d = Some v -> dict_get k d' = Some (F k v)) ->
  d' = map (fun kv => (fst kv, F (fst kv) (snd kv))) d.
Proof.
  revert d'. induction d as [|[k v] d IH]; intros d' Hnd Hk Hget.
  - destruct d'; [reflexivity|discriminate].
  - destruct d' as [|[k' v'] d']; [discriminate|].
    simpl in Hk. injection Hk as -> Hk.
    inversion Hnd as [|? ? Hni Hnd']; subst.
    pose proof (Hget k v) as H0. simpl in H0.
    rewrite (keqb_refl keqb_eq) in H0. specialize (H0 eq_refl).
    injection H0 as ->. simpl. f_equal.
    apply IH; [exact Hnd'|exact Hk|].
    intros k1 v1 H1.
    assert (Hne : k1 <> k).
    { intros ->. apply Hni. eapply (dict_get_keys keqb_eq); eauto. }
    specialize (Hget k1 v1). simpl in Hget.
    rewrite (keqb_neq keqb_eq) in Hget by exact Hne. auto.
Qed.
End DictPointwise.

(** The records of the device query have no process yet and have a uuid. *)
Lemma query_gpu_list_fresh (w : world) (gl : list GPUStat) :
  query_gpu_list w = Ok gl ->
  Forall (fun g => processes g = [] /\ exists u, uuid g = Ok u) gl.
Proof.
  unfold query_gpu_list, exec_command. intros H.
  destruct (shell w gpu_command) as [out|]; [|discriminate].
  unfold parse_gpu_list, py_split in H. cbn [bind] in H.
  apply parse_gpu_lines_ok in H. destruct H as (gs & -> & Hall).
  cbn [app]. induction Hall as [|line g lines gs Hg _ IH]; constructor; [|exact IH].
  split; [|now apply (parsed_gpu_has_uuid line)].
  pose proof (GPUStat_init_line_cases line) as Hc. cbv zeta in Hc.
  rewrite Hg in Hc. tauto.
Qed.

(** X17: the snapshot of a query whose commands were answered, for devices
    of distinct uuids and processes that each name one of them.  The
    snapshot holds the devices in the order of the device query, each under
    its uuid and with its fields as parsed; the processes of a device are
    the running processes that name it, in the order [running_processes]
    gave them; hostname and query time are those of the machine. *)
Theorem new_query_snapshot (w : world) (gl : list GPUStat) (ps : list dict) :
  query_gpu_list w = Ok gl ->
  running_processes w = Ok ps ->
  NoDup (map uuid gl) ->
  Forall (fun p => exists k g,
            dict_get "gpu_uuid" p = Some k /\ In g gl /\ uuid g = Ok k) ps ->
  exists c,
    new_query w = Ok c /\ hostname c = node w /\ query_time c = now w /\
    Forall2 (fun g kg =>
               uuid g = Ok (fst kg) /\ entry (snd kg) = entry g /\
               processes (snd kg) = filter (on_device (fst kg)) ps)
            gl (gpus c).
Proof.
  intros Hq Hps Hnd Hknown.
  pose proof (query_gpu_list_fresh w gl Hq) as Hfresh.
  destruct (register_gpus_ok gl []) as [d Hd].
  { revert Hfresh. apply Forall_impl. tauto. }
  destruct (register_gpus_distinct gl [] d Hd Hnd) as (d0 & Hd0 & Hreg);
    [intros g u _ _ []|]. cbn [app] in Hd0. subst d0.
  destruct (register_gpus_spec gl [] d Hd (NoDup_nil _)) as (Hndk & Hkeys & _).
  assert (Hk : Forall (known_device d) ps).
  { revert Hknown. apply Forall_impl. intros p (k & g & Hp & Hg & Hu).
    exists k. split; [exact Hp|]. apply Hkeys. right. eauto. }
  destruct (attach_known ps d None Hk) as (st & Hst & Hkst & Hget).
  exists (mkCollection (att_gpus st) (node w) (now w)).
  split; [|split; [reflexivity|split; [reflexivity|]]].
  - unfold new_query. rewrite Hq. cbn [bind]. unfold GPUStatCollection_init.
    unfold gpus_t in *. rewrite Hd. cbn [bind].
    unfold update_process_information. rewrite Hps. cbn [bind].
    unfold gpus_t in *. rewrite Hst. reflexivity.
  - cbn [gpus].
    rewrite (dict_pointwise value_keqb_eq
               (fun k g => mkGPUStat (entry g)
                             (processes g ++ filter (on_device k) ps)%list)
               d (att_gpus st) Hndk Hkst Hget).
    clear - Hreg Hfresh. revert Hfresh.
    induction Hreg as [|g kg gl d [Hs Hu] _ IH]; intros Hfresh; simpl;
      constructor.
    + inversion Hfresh as [|? ? [Hp _] _]; subst. simpl.
      split; [exact Hu|]. split; [reflexivity|]. now rewrite Hp.
    + apply IH. now inversion Hfresh.
Qed.

Lemma new_query_snapshot_witness :
  exists c g,
    new_query Scenario.containers = Ok c /\
    hostname c = "host" /\
    gpus c = [(VStr "GPU-aaa", g)] /\
    entry g = entry Scenario.gpu_A /\
    map (dict_get "user") (processes g) = [Some (VStr "bob"); Some (VStr "web")].
Proof.
  destruct (running_processes Scenario.containers) as [ps|] eqn:Eps;
    [|vm_compute in Eps; discriminate].
  destruct (new_query_snapshot Scenario.containers [Scenario.gpu_A] ps
              eq_refl Eps) as (c & Hc & Hh & _ & Hall).
  - repeat constructor. intros [].
  - vm_compute in Eps. injection Eps as <-.
    repeat constructor; exists (VStr "GPU-aaa"), Scenario.gpu_A;
      (split; [reflexivity|split; [now left|reflexivity]]).
  - inversion Hall as [|? kg ? rest (Hu & He & Hp) Hrest Hg Hgp]; subst.
    inversion Hrest; subst. destruct kg as [k g]. simpl in *.
    injection Hu as <-.
    exists c, g. split; [exact Hc|]. split; [exact Hh|].
    split; [now symmetry|]. split; [exact He|].
    rewrite Hp. vm_compute in Eps. injection Eps as <-. reflexivity.
Defined.

(** ** Rows the process query cannot read *)

Lemma pid_map_add_accepted (es : list dict) (acc : pid_map_t) :
  Forall row_accepted es -> exists pm, fold_left pid_map_add es (Ok acc) = Ok pm.
Proof.
  intros Hall. revert acc.
  induction Hall as [|e es (s & Hs & Hacc) _ IH]; intros acc; cbn [fold_left].
  - eauto.
  - unfold pid_map_add at 2, getitem. cbn [bind]. rewrite Hs.
    cbn [bind not_supported_in py_int].
    destruct (PyStr.contains NotSupported s); cbn [bind]; [apply IH|].
    destruct Hacc as [Hc|(n & ->)]; [discriminate|]. cbn [bind]. apply IH.
Qed.

(** X18: the first row of the compute-process query whose pid cannot be
    read ends the query.  A row without a second field has no pid and
    raises [KeyError]; a pid that neither carries the marker nor is an
    integer raises [ValueError].  No command is run after the query. *)
Theorem unreadable_pid_row (w : world) (pre post : list dict) (e : dict) :
  collect_entries w = Ok (pre ++ e :: post)%list ->
  Forall row_accepted pre ->
  (dict_get "pid" e = None -> running_processes w = Raise (KeyError "pid")) /\
  (forall s, dict_get "pid" e = Some (VStr s) ->
             PyStr.contains NotSupported s = false ->
             PyStr.int_of_str s = None ->
             running_processes w = Raise ValueError).
Proof.
  intros Hes Hpre.
  assert (Hrun : forall x,
             (forall acc, pid_map_add (Ok acc) e = Raise x) ->
             running_processes w = Raise x).
  { intros x Hx. unfold running_processes. rewrite Hes. cbn [bind].
    rewrite fold_left_app. cbn [fold_left].
    destruct (pid_map_add_accepted pre [] Hpre) as (pm & Hpm).
    unfold pid_map_t in *. rewrite Hpm.
    rewrite Hx. now rewrite fold_left_raise by apply pid_map_add_raise. }
  split.
  - intros Hn. apply Hrun. intros acc.
    unfold pid_map_add, getitem. cbn [bind]. now rewrite Hn.
  - intros s Hs Hc Hi. apply Hrun. intros acc.
    unfold pid_map_add, getitem. cbn [bind]. rewrite Hs.
    cbn [bind not_supported_in py_int]. rewrite Hc, Hi. reflexivity.
Qed.

Lemma unreadable_pid_row_witness :
  running_processes
    (world_of [(process_command,
                Ok ("GPU-aaa, 1234, 256" ++ PyStr.nl ++ "GPU-aaa"))])
  = Raise (KeyError "pid") /\
  running_processes
    (world_of [(process_command,
                Ok ("GPU-aaa, 1234, 256" ++ PyStr.nl ++ "GPU-aaa, N/A, 7"))])
  = Raise ValueError.
Proof.
  split.
  - apply (proj1 (unreadable_pid_row
             (world_of [(process_command,
                         Ok ("GPU-aaa, 1234, 256" ++ PyStr.nl ++ "GPU-aaa"))])
             [process_entry_of_line "GPU-aaa, 1234, 256"] []
             (process_entry_of_line "GPU-aaa") eq_refl
             ltac:(repeat constructor; exists "1234"; split;
                   [reflexivity|right; exists 1234%Z; reflexivity]))).
    reflexivity.
  - apply (proj2 (unreadable_pid_row
             (world_of [(process_command,
                         Ok ("GPU-aaa, 1234, 256" ++ PyStr.nl ++ "GPU-aaa, N/A, 7"))])
             [process_entry_of_line "GPU-aaa, 1234, 256"] []
             (process_entry_of_line "GPU-aaa, N/A, 7") eq_refl
             ltac:(repeat constructor; exists "1234"; split;
                   [reflexivity|right; exists 1234%Z; reflexivity]))
            "N/A"); reflexivity.
Defined.
